(** * Eden PS5 port: graphics wrapper, renderer, etaHEN plugin, application

    A shallow embedding of the C++ sources under [src_ps5/] and the
    properties the design notes state about them.

    Conventions.
    - Fixed-width unsigned integers are [Z] with the wrap-around written
      out ([u32], [u64]); [size_t] is 64 bits wide on the target.
    - A member function of a class [C] is a program [Prog C.t A]: it takes
      the object, returns a value, the object afterwards, and the list of
      observable events it produced, in order.
    - [std::unique_ptr] members and raw pointers are [option]: [None] is
      the null pointer.
    - Code guarded by [#ifdef PS5_BUILD] takes the build mode as an
      argument. *)

From Stdlib Require Import ZArith List String Ascii Bool Lia DecimalString.
Import ListNotations.
Local Open Scope Z_scope.

(** ** Machine integers *)

Definition u32 (x : Z) : Z := x mod 2 ^ 32.
Definition u64 (x : Z) : Z := x mod 2 ^ 64.

(** [~x] on a 32-bit unsigned operand. *)
Definition not32 (x : Z) : Z := u32 (Z.lnot x).

(** ** Build mode, observable events *)

Inductive BuildMode : Type := PS5_BUILD | Development.

(** One operand of a [<<] chain. *)
Inductive Frag : Type :=
| Str (s : string)
| Num (n : Z).

(** The subsystems the application owns, and the member functions it
    calls on them.  The application sees each subsystem through its
    interface only; the renderer and the audio manager have models of
    their own below, the others are classes of other translation units. *)
Inductive Subsystem : Type := Renderer | Audio | Input | Frontend | Core.

Inductive Method : Type :=
| mNew | mDelete
| mInitialize | mShutdown
| mUpdate | mRender
| mBeginFrame | mEndFrame | mPresent
| mLoadGame (path : string) | mUnloadGame
| mStartEmulation | mStopEmulation.

(** Calls that leave the function being run: into a collaborator, or into
    the operating system. *)
Inductive Call : Type :=
| Sub (s : Subsystem) (m : Method)
| CommandBuffer_Begin
| CommandBuffer_End
| CommandBuffer_Shutdown
| TextureManager_Shutdown
| ShaderCompiler_Shutdown
| Stream_Stop (stream : Z)
| Sys_socket
| Sys_connect (fd port : Z)
| Sys_close (fd : Z)
| Sys_send (fd : Z) (buf : string) (len : Z)
| Sys_recv (fd : Z) (len : Z)
| Sys_getpid
| StatusCallback (connected : bool)
| SleepFor (microseconds : Z).

(** A [float] is kept as the expression that produced it; no
    floating-point arithmetic is evaluated. *)
Inductive Float : Type :=
| FLit (literal : string)
| FFrameRate (frame_count elapsed_ms : Z).

Inductive Event : Type :=
| Cout (line : list Frag)          (* std::cout << ... << std::endl *)
| Cerr (line : list Frag)          (* std::cerr << ... << std::endl *)
| Ext (c : Call)
(* The wrapper's body was reached with these arguments.  The vendor call
   itself is a TODO in the source; the request is what can be observed. *)
| GnmSubmit (cmd_buffer : Z)
| GnmPresent (color_buffer_addr width height : Z).

(** ** Programs over an object *)

Definition Prog (St A : Type) : Type := St -> A * St * list Event.

Definition ret {St A} (a : A) : Prog St A := fun s => (a, s, []).

Definition bind {St A B} (m : Prog St A) (k : A -> Prog St B) : Prog St B :=
  fun s =>
    let '(a, s1, t1) := m s in
    let '(b, s2, t2) := k a s1 in
    (b, s2, t1 ++ t2).

Definition gets {St A} (f : St -> A) : Prog St A := fun s => (f s, s, []).
Definition modify {St} (f : St -> St) : Prog St unit := fun s => (tt, f s, []).
Definition emit {St} (e : Event) : Prog St unit := fun s => (tt, s, [e]).
Definition cout {St} (line : list Frag) : Prog St unit := emit (Cout line).
Definition cerr {St} (line : list Frag) : Prog St unit := emit (Cerr line).
Definition call {St} (c : Call) : Prog St unit := emit (Ext c).

Notation "x <- m ;; k" := (bind m (fun x => k))
  (at level 61, m at next level, right associativity).
Notation "m ;; k" := (bind m (fun _ => k))
  (at level 61, right associativity).

Definition when {St} (b : bool) (m : Prog St unit) : Prog St unit :=
  if b then m else ret tt.

(** Run a member function of a sub-object held by value. *)
Definition zoom {St T A} (getf : St -> T) (setf : T -> St -> St)
    (m : Prog T A) : Prog St A :=
  fun s => let '(a, t', ev) := m (getf s) in (a, setf t' s, ev).

(** [if (p) p->m(); else dflt] for a sub-object held by pointer. *)
Definition through {St T A} (getf : St -> option T)
    (setf : option T -> St -> St) (m : Prog T A) (dflt : Prog St A)
    : Prog St A :=
  fun s =>
    match getf s with
    | Some t => let '(a, t', ev) := m t in (a, setf (Some t') s, ev)
    | None => dflt s
    end.

(** Assigning a fresh object to a [unique_ptr] runs the destructor of the
    object it held. *)
Definition destroy {St T} (dtor : Prog T unit) (old : option T)
    : Prog St unit :=
  fun s =>
    match old with
    | Some t => let '(_, _, ev) := dtor t in (tt, s, ev)
    | None => (tt, s, [])
    end.

Definition result {St A} (r : A * St * list Event) : A := fst (fst r).
Definition state {St A} (r : A * St * list Event) : St := snd (fst r).
Definition trace {St A} (r : A * St * list Event) : list Event := snd r.

(** ** GNMWrapper (ps5_graphics/gnm_wrapper.cpp) *)

Module GNMWrapper.

Record Impl : Type := mkImpl {
  device_handle : Z;
  context_handle : Z;
  command_queue_handle : Z;
  gpu_memory_base : Z;
  gpu_memory_offset : Z
}.

Record t : Type := mk {
  impl_ : Impl;
  initialized_ : bool
}.

Definition set_device_handle (v : Z) (i : Impl) : Impl :=
  mkImpl v (context_handle i) (command_queue_handle i)
         (gpu_memory_base i) (gpu_memory_offset i).
Definition set_context_handle (v : Z) (i : Impl) : Impl :=
  mkImpl (device_handle i) v (command_queue_handle i)
         (gpu_memory_base i) (gpu_memory_offset i).
Definition set_command_queue_handle (v : Z) (i : Impl) : Impl :=
  mkImpl (device_handle i) (context_handle i) v
         (gpu_memory_base i) (gpu_memory_offset i).
Definition set_gpu_memory_offset (v : Z) (i : Impl) : Impl :=
  mkImpl (device_handle i) (context_handle i) (command_queue_handle i)
         (gpu_memory_base i) v.

Definition set_impl (i : Impl) (w : t) : t := mk i (initialized_ w).
Definition set_initialized (b : bool) (w : t) : t := mk (impl_ w) b.

Definition on_impl {A} (m : Prog Impl A) : Prog t A := zoom impl_ set_impl m.

(** Default member initialisers of [Impl] and the constructor. *)
Definition Impl_new : Impl := mkImpl 0 0 0 0x100000000 0.
Definition new : t := mk Impl_new false.

(** [Impl::AllocateMemory].  [alignment - 1] and its complement are
    computed in [uint32_t]; the conjunction with the 64-bit sum
    zero-extends that mask. *)
Definition AllocateMemory (size alignment : Z) : Prog Impl Z :=
  o <- gets gpu_memory_offset ;;
  let aligned_offset :=
    Z.land (u64 (u64 (o + alignment) - 1)) (not32 (u32 (alignment - 1))) in
  base <- gets gpu_memory_base ;;
  let address := u64 (base + aligned_offset) in
  modify (set_gpu_memory_offset (u64 (aligned_offset + size))) ;;
  ret address.

Definition InitializeDevice (mode : BuildMode) : Prog t bool :=
  match mode with
  | PS5_BUILD =>
      cout [Str "[GNMWrapper] Initializing GNM device..."] ;;
      on_impl (modify (set_device_handle 1)) ;;
      on_impl (modify (set_context_handle 1)) ;;
      d <- on_impl (gets device_handle) ;;
      c <- on_impl (gets context_handle) ;;
      ret (negb (d =? 0) && negb (c =? 0))
  | Development =>
      cout [Str "[GNMWrapper] GNM device initialization (development mode)"] ;;
      on_impl (modify (set_device_handle 1)) ;;
      on_impl (modify (set_context_handle 1)) ;;
      ret true
  end.

Definition ShutdownDevice (mode : BuildMode) : Prog t unit :=
  match mode with
  | PS5_BUILD =>
      c <- on_impl (gets context_handle) ;;
      when (negb (c =? 0)) (on_impl (modify (set_context_handle 0))) ;;
      d <- on_impl (gets device_handle) ;;
      when (negb (d =? 0)) (on_impl (modify (set_device_handle 0)))
  | Development =>
      on_impl (modify (set_device_handle 0)) ;;
      on_impl (modify (set_context_handle 0))
  end.

Definition CreateCommandQueue (mode : BuildMode) : Prog t bool :=
  match mode with
  | PS5_BUILD =>
      cout [Str "[GNMWrapper] Creating GNM command queue..."] ;;
      on_impl (modify (set_command_queue_handle 1)) ;;
      q <- on_impl (gets command_queue_handle) ;;
      ret (negb (q =? 0))
  | Development =>
      cout [Str "[GNMWrapper] Command queue created (development mode)"] ;;
      on_impl (modify (set_command_queue_handle 1)) ;;
      ret true
  end.

Definition DestroyCommandQueue (mode : BuildMode) : Prog t unit :=
  match mode with
  | PS5_BUILD =>
      q <- on_impl (gets command_queue_handle) ;;
      when (negb (q =? 0)) (on_impl (modify (set_command_queue_handle 0)))
  | Development =>
      on_impl (modify (set_command_queue_handle 0))
  end.

Definition WaitForIdle : Prog t unit :=
  cout [Str "[GNMWrapper] Waiting for GPU idle..."].

Definition Initialize (mode : BuildMode) : Prog t bool :=
  init <- gets initialized_ ;;
  if init then ret true else
  cout [Str "[GNMWrapper] Initializing GNM graphics interface..."] ;;
  dev <- InitializeDevice mode ;;
  if negb dev then
    cout [Str "[GNMWrapper] Failed to initialize GNM device"] ;;
    ret false
  else
  q <- CreateCommandQueue mode ;;
  if negb q then
    cout [Str "[GNMWrapper] Failed to create command queue"] ;;
    ret false
  else
  modify (set_initialized true) ;;
  cout [Str "[GNMWrapper] GNM interface initialized successfully"] ;;
  ret true.

Definition Shutdown (mode : BuildMode) : Prog t unit :=
  init <- gets initialized_ ;;
  if negb init then ret tt else
  cout [Str "[GNMWrapper] Shutting down GNM interface..."] ;;
  WaitForIdle ;;
  DestroyCommandQueue mode ;;
  ShutdownDevice mode ;;
  modify (set_initialized false).

Definition destructor (mode : BuildMode) : Prog t unit :=
  init <- gets initialized_ ;;
  when init (Shutdown mode).

Definition AllocateGPUMemory (size alignment : Z) : Prog t Z :=
  on_impl (AllocateMemory size alignment).

(** Nothing is released. *)
Definition FreeGPUMemory (address : Z) : Prog t unit := ret tt.

(** [cmd_buffer] is the pointer argument. *)
Definition SubmitCommandBuffer (mode : BuildMode) (cmd_buffer : option Z)
    : Prog t unit :=
  match cmd_buffer with
  | None => ret tt
  | Some cb =>
      emit (GnmSubmit cb) ;;
      match mode with
      | PS5_BUILD =>
          cout [Str "[GNMWrapper] Submitting command buffer to GPU..."]
      | Development =>
          cout [Str "[GNMWrapper] Command buffer submitted (development mode)"]
      end
  end.

Definition Present (mode : BuildMode) (color_buffer_addr width height : Z)
    : Prog t bool :=
  emit (GnmPresent color_buffer_addr width height) ;;
  match mode with
  | PS5_BUILD =>
      cout [Str "[GNMWrapper] Presenting frame: "; Num width; Str "x";
            Num height] ;;
      ret true
  | Development =>
      cout [Str "[GNMWrapper] Frame presented (development): "; Num width;
            Str "x"; Num height] ;;
      ret true
  end.

Definition CreateBuffer (size usage_flags : Z) : Prog t Z :=
  AllocateGPUMemory size 256.

Definition DestroyBuffer (buffer_handle : Z) : Prog t unit :=
  FreeGPUMemory buffer_handle.

(** [width * height * 4] is a product of [uint32_t]s. *)
Definition CreateTexture (width height format usage_flags : Z) : Prog t Z :=
  let texture_size := u32 (u32 (width * height) * 4) in
  AllocateGPUMemory texture_size 4096.

Definition DestroyTexture (texture_handle : Z) : Prog t unit :=
  FreeGPUMemory texture_handle.

(** A sequence of allocation requests, served in order; the addresses
    come back in the same order. *)
Fixpoint allocate_all (reqs : list (Z * Z)) : Prog t (list Z) :=
  match reqs with
  | [] => ret []
  | (size, alignment) :: rest =>
      a <- AllocateGPUMemory size alignment ;;
      l <- allocate_all rest ;;
      ret (a :: l)
  end.

Fixpoint create_textures (n : nat) (width height : Z) : Prog t (list Z) :=
  match n with
  | O => ret []
  | S n' =>
      a <- CreateTexture width height 0 0 ;;
      l <- create_textures n' width height ;;
      ret (a :: l)
  end.

End GNMWrapper.

(** ** PS5Renderer (ps5_graphics/ps5_renderer.cpp) *)

Module PS5Renderer.

Record FrameBuffer : Type := mkFrameBuffer {
  color_buffer_addr : Z;
  depth_buffer_addr : Z;
  width : Z;
  height : Z
}.

Definition MAX_FRAME_BUFFERS : Z := 3. (* Triple buffering *)

(** The command buffer, texture manager and shader compiler are classes
    of other translation units: the renderer holds them by pointer
    (the pointer value identifies the object) and calls into them.  What
    their constructors and destructors do is not part of this model. *)
Record t : Type := mk {
  gnm_wrapper_ : option GNMWrapper.t;
  command_buffer_ : option Z;
  texture_manager_ : option Z;
  shader_compiler_ : option Z;
  initialized_ : bool;
  display_width_ : Z;
  display_height_ : Z;
  current_frame_ : Z;
  frame_buffers_ : list FrameBuffer;
  current_frame_buffer_ : Z
}.

Definition set_gnm_wrapper (v : option GNMWrapper.t) (r : t) : t :=
  mk v (command_buffer_ r) (texture_manager_ r) (shader_compiler_ r)
     (initialized_ r) (display_width_ r) (display_height_ r)
     (current_frame_ r) (frame_buffers_ r) (current_frame_buffer_ r).
Definition set_command_buffer (v : option Z) (r : t) : t :=
  mk (gnm_wrapper_ r) v (texture_manager_ r) (shader_compiler_ r)
     (initialized_ r) (display_width_ r) (display_height_ r)
     (current_frame_ r) (frame_buffers_ r) (current_frame_buffer_ r).
Definition set_texture_manager (v : option Z) (r : t) : t :=
  mk (gnm_wrapper_ r) (command_buffer_ r) v (shader_compiler_ r)
     (initialized_ r) (display_width_ r) (display_height_ r)
     (current_frame_ r) (frame_buffers_ r) (current_frame_buffer_ r).
Definition set_shader_compiler (v : option Z) (r : t) : t :=
  mk (gnm_wrapper_ r) (command_buffer_ r) (texture_manager_ r) v
     (initialized_ r) (display_width_ r) (display_height_ r)
     (current_frame_ r) (frame_buffers_ r) (current_frame_buffer_ r).
Definition set_initialized (v : bool) (r : t) : t :=
  mk (gnm_wrapper_ r) (command_buffer_ r) (texture_manager_ r)
     (shader_compiler_ r) v (display_width_ r) (display_height_ r)
     (current_frame_ r) (frame_buffers_ r) (current_frame_buffer_ r).
Definition set_display (w h : Z) (r : t) : t :=
  mk (gnm_wrapper_ r) (command_buffer_ r) (texture_manager_ r)
     (shader_compiler_ r) (initialized_ r) w h
     (current_frame_ r) (frame_buffers_ r) (current_frame_buffer_ r).
Definition set_current_frame (v : Z) (r : t) : t :=
  mk (gnm_wrapper_ r) (command_buffer_ r) (texture_manager_ r)
     (shader_compiler_ r) (initialized_ r) (display_width_ r)
     (display_height_ r) v (frame_buffers_ r) (current_frame_buffer_ r).
Definition set_frame_buffers (v : list FrameBuffer) (r : t) : t :=
  mk (gnm_wrapper_ r) (command_buffer_ r) (texture_manager_ r)
     (shader_compiler_ r) (initialized_ r) (display_width_ r)
     (display_height_ r) (current_frame_ r) v (current_frame_buffer_ r).
Definition set_current_frame_buffer (v : Z) (r : t) : t :=
  mk (gnm_wrapper_ r) (command_buffer_ r) (texture_manager_ r)
     (shader_compiler_ r) (initialized_ r) (display_width_ r)
     (display_height_ r) (current_frame_ r) (frame_buffers_ r) v.

(** [frame_buffers_[i]]; the array has [MAX_FRAME_BUFFERS] entries. *)
Definition frame_buffer_at (i : Z) (r : t) : FrameBuffer :=
  nth (Z.to_nat i) (frame_buffers_ r) (mkFrameBuffer 0 0 0 0).

Fixpoint update_nth {A} (n : nat) (f : A -> A) (l : list A) : list A :=
  match l, n with
  | [], _ => []
  | x :: l', O => f x :: l'
  | x :: l', S n' => x :: update_nth n' f l'
  end.

Definition modify_frame_buffer (i : Z) (f : FrameBuffer -> FrameBuffer)
    : Prog t unit :=
  modify (fun r =>
    set_frame_buffers (update_nth (Z.to_nat i) f (frame_buffers_ r)) r).

(** The constructor leaves [frame_buffers_] uninitialised: whatever the
    three entries hold is given by [garbage]. *)
Definition new (garbage : list FrameBuffer) : t :=
  mk None None None None false 1920 1080 0 garbage 0.

Definition on_gnm {A} (m : Prog GNMWrapper.t A) (dflt : Prog t A)
    : Prog t A :=
  through gnm_wrapper_ set_gnm_wrapper m dflt.

Definition AllocateGPUMemory (size alignment : Z) : Prog t Z :=
  on_gnm (GNMWrapper.AllocateGPUMemory size alignment) (ret 0).

Definition FreeGPUMemory (address : Z) : Prog t unit :=
  on_gnm (GNMWrapper.FreeGPUMemory address) (ret tt).

Definition SetDisplayMode (mode : BuildMode) (w h refresh_rate : Z)
    : Prog t bool :=
  modify (set_display w h) ;;
  match mode with
  | PS5_BUILD =>
      cout [Str "[PS5Renderer] Setting display mode: "; Num w; Str "x";
            Num h; Str "@"; Num refresh_rate; Str "Hz"] ;;
      ret true
  | Development =>
      cout [Str "[PS5Renderer] Display mode set (development): "; Num w;
            Str "x"; Num h; Str "@"; Num refresh_rate; Str "Hz"] ;;
      ret true
  end.

Definition InitializeGNM (mode : BuildMode) : Prog t bool :=
  match mode with
  | PS5_BUILD =>
      cout [Str "[PS5Renderer] Initializing GNM graphics context..."] ;;
      w <- gets display_width_ ;;
      h <- gets display_height_ ;;
      ok <- SetDisplayMode mode w h 60 ;;
      if negb ok then ret false else ret true
  | Development =>
      cout [Str "[PS5Renderer] GNM initialization (development mode)"] ;;
      ret true
  end.

Definition ShutdownGNM (mode : BuildMode) : Prog t unit :=
  match mode with
  | PS5_BUILD =>
      cout [Str "[PS5Renderer] Shutting down GNM graphics context..."]
  | Development => ret tt
  end.

(** The body of the loop of [CreateFramebuffers], for the indices still
    to be visited. *)
Fixpoint CreateFramebuffers_from (indices : list Z) : Prog t bool :=
  match indices with
  | [] => ret true
  | i :: rest =>
      w <- gets display_width_ ;;
      h <- gets display_height_ ;;
      let color_buffer_size := u32 (u32 (w * h) * 4) in
      let depth_buffer_size := u32 (u32 (w * h) * 4) in
      color <- AllocateGPUMemory color_buffer_size 4096 ;;
      modify_frame_buffer i (fun fb =>
        mkFrameBuffer color (depth_buffer_addr fb) (width fb) (height fb)) ;;
      if color =? 0 then
        cout [Str "[PS5Renderer] Failed to allocate color buffer "; Num i] ;;
        ret false
      else
      depth <- AllocateGPUMemory depth_buffer_size 4096 ;;
      modify_frame_buffer i (fun fb =>
        mkFrameBuffer (color_buffer_addr fb) depth (width fb) (height fb)) ;;
      if depth =? 0 then
        cout [Str "[PS5Renderer] Failed to allocate depth buffer "; Num i] ;;
        ret false
      else
      modify_frame_buffer i (fun fb =>
        mkFrameBuffer (color_buffer_addr fb) (depth_buffer_addr fb) w h) ;;
      cout [Str "[PS5Renderer] Frame buffer "; Num i;
            Str " created successfully"] ;;
      CreateFramebuffers_from rest
  end.

Definition frame_buffer_indices : list Z :=
  map Z.of_nat (seq 0 (Z.to_nat MAX_FRAME_BUFFERS)).

Definition CreateFramebuffers : Prog t bool :=
  cout [Str "[PS5Renderer] Creating frame buffers..."] ;;
  CreateFramebuffers_from frame_buffer_indices.

Fixpoint DestroyFramebuffers_from (indices : list Z) : Prog t unit :=
  match indices with
  | [] => ret tt
  | i :: rest =>
      fb <- gets (frame_buffer_at i) ;;
      when (negb (color_buffer_addr fb =? 0))
        (FreeGPUMemory (color_buffer_addr fb) ;;
         modify_frame_buffer i (fun fb =>
           mkFrameBuffer 0 (depth_buffer_addr fb) (width fb) (height fb))) ;;
      fb <- gets (frame_buffer_at i) ;;
      when (negb (depth_buffer_addr fb =? 0))
        (FreeGPUMemory (depth_buffer_addr fb) ;;
         modify_frame_buffer i (fun fb =>
           mkFrameBuffer (color_buffer_addr fb) 0 (width fb) (height fb))) ;;
      DestroyFramebuffers_from rest
  end.

Definition DestroyFramebuffers : Prog t unit :=
  DestroyFramebuffers_from frame_buffer_indices.

(** What the collaborators built by [Initialize] answer: the addresses
    of the three objects and the results of their [Initialize]. *)
Record InitEnv : Type := mkInitEnv {
  command_buffer_ptr : Z;
  command_buffer_ok : bool;
  texture_manager_ptr : Z;
  texture_manager_ok : bool;
  shader_compiler_ptr : Z;
  shader_compiler_ok : bool
}.

Definition Initialize (mode : BuildMode) (env : InitEnv) : Prog t bool :=
  init <- gets initialized_ ;;
  if init then ret true else
  cout [Str "[PS5Renderer] Initializing PS5 Graphics System..."] ;;
  old <- gets gnm_wrapper_ ;;
  modify (set_gnm_wrapper (Some GNMWrapper.new)) ;;
  destroy (GNMWrapper.destructor mode) old ;;
  ok <- on_gnm (GNMWrapper.Initialize mode) (ret false) ;;
  if negb ok then
    cout [Str "[PS5Renderer] Failed to initialize GNM wrapper"] ;;
    ret false
  else
  modify (set_command_buffer (Some (command_buffer_ptr env))) ;;
  if negb (command_buffer_ok env) then
    cout [Str "[PS5Renderer] Failed to initialize command buffer"] ;;
    ret false
  else
  modify (set_texture_manager (Some (texture_manager_ptr env))) ;;
  if negb (texture_manager_ok env) then
    cout [Str "[PS5Renderer] Failed to initialize texture manager"] ;;
    ret false
  else
  modify (set_shader_compiler (Some (shader_compiler_ptr env))) ;;
  if negb (shader_compiler_ok env) then
    cout [Str "[PS5Renderer] Failed to initialize shader compiler"] ;;
    ret false
  else
  ok <- InitializeGNM mode ;;
  if negb ok then
    cout [Str "[PS5Renderer] Failed to initialize GNM graphics context"] ;;
    ret false
  else
  ok <- CreateFramebuffers ;;
  if negb ok then
    cout [Str "[PS5Renderer] Failed to create frame buffers"] ;;
    ret false
  else
  modify (set_initialized true) ;;
  cout [Str "[PS5Renderer] Graphics system initialized successfully"] ;;
  w <- gets display_width_ ;;
  h <- gets display_height_ ;;
  cout [Str "[PS5Renderer] Display: "; Num w; Str "x"; Num h] ;;
  ret true.

Definition is_some {A} (o : option A) : bool :=
  match o with Some _ => true | None => false end.

Definition Shutdown (mode : BuildMode) : Prog t unit :=
  init <- gets initialized_ ;;
  if negb init then ret tt else
  cout [Str "[PS5Renderer] Shutting down PS5 Graphics System..."] ;;
  on_gnm GNMWrapper.WaitForIdle (ret tt) ;;
  DestroyFramebuffers ;;
  sc <- gets shader_compiler_ ;;
  when (is_some sc) (call ShaderCompiler_Shutdown) ;;
  tm <- gets texture_manager_ ;;
  when (is_some tm) (call TextureManager_Shutdown) ;;
  cb <- gets command_buffer_ ;;
  when (is_some cb) (call CommandBuffer_Shutdown) ;;
  ShutdownGNM mode ;;
  on_gnm (GNMWrapper.Shutdown mode) (ret tt) ;;
  modify (set_initialized false).

Definition BeginFrame : Prog t unit :=
  modify (fun r => set_current_frame (u32 (current_frame_ r + 1)) r) ;;
  modify (fun r =>
    set_current_frame_buffer (current_frame_ r mod MAX_FRAME_BUFFERS) r) ;;
  cb <- gets command_buffer_ ;;
  when (is_some cb) (call CommandBuffer_Begin).

Definition EndFrame : Prog t unit :=
  cb <- gets command_buffer_ ;;
  when (is_some cb) (call CommandBuffer_End).

Definition GetCurrentCommandBuffer : Prog t (option Z) :=
  gets command_buffer_.

Definition SubmitCommandBuffer (mode : BuildMode) (cmd_buffer : option Z)
    : Prog t unit :=
  gnm <- gets gnm_wrapper_ ;;
  if is_some gnm && is_some cmd_buffer then
    on_gnm (GNMWrapper.SubmitCommandBuffer mode cmd_buffer) (ret tt)
  else ret tt.

Definition Present (mode : BuildMode) : Prog t unit :=
  cb <- gets command_buffer_ ;;
  when (is_some cb) (SubmitCommandBuffer mode cb) ;;
  idx <- gets current_frame_buffer_ ;;
  fb <- gets (frame_buffer_at idx) ;;
  w <- gets display_width_ ;;
  h <- gets display_height_ ;;
  on_gnm (_ <- GNMWrapper.Present mode (color_buffer_addr fb) w h ;; ret tt)
         (ret tt).

(** [n] frames begun one after the other. *)
Definition BeginFrames (n : N) (r : t) : t :=
  N.iter n (fun r => state (BeginFrame r)) r.

End PS5Renderer.

(** ** EtaHENPlugin (etahen_integration/etahen_plugin.cpp) *)

(** The characters of a C string: everything before the first NUL. *)
Fixpoint c_str (s : string) : string :=
  match s with
  | EmptyString => EmptyString
  | String c s' =>
      if Ascii.eqb c Ascii.zero then EmptyString else String c (c_str s')
  end.

Module EtaHENPlugin.

Record t : Type := mk {
  initialized_ : bool;
  etahen_available_ : bool;
  connected_ : bool;
  registered_ : bool;
  plugin_name_ : string;
  plugin_version_ : string;
  ipc_socket_ : Z;
  etahen_port_ : Z;
  ftp_server_running_ : bool;
  klog_server_running_ : bool;
  ps5_debug_enabled_ : bool;
  cheats_enabled_ : bool;
  status_callback_ : bool;    (* a callback is installed *)
  message_callback_ : bool
}.

Definition new : t :=
  mk false false false false "Eden Nintendo Switch Emulator" "1.0.0-PS5"
     (-1) 9028 false false false false false false.

Definition set_initialized (v : bool) (p : t) : t :=
  mk v (etahen_available_ p) (connected_ p) (registered_ p)
     (plugin_name_ p) (plugin_version_ p) (ipc_socket_ p) (etahen_port_ p)
     (ftp_server_running_ p) (klog_server_running_ p)
     (ps5_debug_enabled_ p) (cheats_enabled_ p) (status_callback_ p)
     (message_callback_ p).
Definition set_etahen_available (v : bool) (p : t) : t :=
  mk (initialized_ p) v (connected_ p) (registered_ p)
     (plugin_name_ p) (plugin_version_ p) (ipc_socket_ p) (etahen_port_ p)
     (ftp_server_running_ p) (klog_server_running_ p)
     (ps5_debug_enabled_ p) (cheats_enabled_ p) (status_callback_ p)
     (message_callback_ p).
Definition set_connected (v : bool) (p : t) : t :=
  mk (initialized_ p) (etahen_available_ p) v (registered_ p)
     (plugin_name_ p) (plugin_version_ p) (ipc_socket_ p) (etahen_port_ p)
     (ftp_server_running_ p) (klog_server_running_ p)
     (ps5_debug_enabled_ p) (cheats_enabled_ p) (status_callback_ p)
     (message_callback_ p).
Definition set_registered (v : bool) (p : t) : t :=
  mk (initialized_ p) (etahen_available_ p) (connected_ p) v
     (plugin_name_ p) (plugin_version_ p) (ipc_socket_ p) (etahen_port_ p)
     (ftp_server_running_ p) (klog_server_running_ p)
     (ps5_debug_enabled_ p) (cheats_enabled_ p) (status_callback_ p)
     (message_callback_ p).
Definition set_plugin (name version : string) (p : t) : t :=
  mk (initialized_ p) (etahen_available_ p) (connected_ p) (registered_ p)
     name version (ipc_socket_ p) (etahen_port_ p)
     (ftp_server_running_ p) (klog_server_running_ p)
     (ps5_debug_enabled_ p) (cheats_enabled_ p) (status_callback_ p)
     (message_callback_ p).
Definition set_ipc_socket (v : Z) (p : t) : t :=
  mk (initialized_ p) (etahen_available_ p) (connected_ p) (registered_ p)
     (plugin_name_ p) (plugin_version_ p) v (etahen_port_ p)
     (ftp_server_running_ p) (klog_server_running_ p)
     (ps5_debug_enabled_ p) (cheats_enabled_ p) (status_callback_ p)
     (message_callback_ p).
Definition set_ftp_server_running (v : bool) (p : t) : t :=
  mk (initialized_ p) (etahen_available_ p) (connected_ p) (registered_ p)
     (plugin_name_ p) (plugin_version_ p) (ipc_socket_ p) (etahen_port_ p)
     v (klog_server_running_ p)
     (ps5_debug_enabled_ p) (cheats_enabled_ p) (status_callback_ p)
     (message_callback_ p).

(** What the socket layer answers to one command: the value [send]
    returns, the value [recv] returns and the bytes it left in the
    buffer. *)
Record IpcIO : Type := mkIpcIO {
  send_ret : Z;
  recv_ret : Z;
  recv_buf : string
}.

(** What [socket] and [connect] return. *)
Record ConnIO : Type := mkConnIO {
  socket_ret : Z;
  connect_ret : Z
}.

(** [response] is the reference argument; the value after the call is
    returned next to the result. *)
Definition SendIPCCommand (io : IpcIO) (command response : string)
    : Prog t (bool * string) :=
  fd <- gets ipc_socket_ ;;
  if fd =? -1 then ret (false, response) else
  call (Sys_send fd command (Z.of_nat (String.length command))) ;;
  if send_ret io <? 0 then
    cout [Str "[EtaHENPlugin] Failed to send IPC command"] ;;
    ret (false, response)
  else
  call (Sys_recv fd (1024 - 1)) ;;
  let bytes_received := recv_ret io in
  if bytes_received <? 0 then
    cout [Str "[EtaHENPlugin] Failed to receive IPC response"] ;;
    ret (false, response)
  else
  let buffer :=
    (String.substring 0 (Z.to_nat bytes_received) (recv_buf io)
     ++ String Ascii.zero EmptyString)%string in
  ret (true, c_str buffer).

Definition InitializeIPC (mode : BuildMode) : Prog t bool :=
  match mode with
  | PS5_BUILD =>
      cout [Str "[EtaHENPlugin] Initializing PS5 IPC system..."] ;;
      ret true
  | Development =>
      cout [Str "[EtaHENPlugin] IPC system initialized (development mode)"] ;;
      ret true
  end.

Definition ShutdownIPC : Prog t unit :=
  fd <- gets ipc_socket_ ;;
  when (negb (fd =? -1))
    (call (Sys_close fd) ;; modify (set_ipc_socket (-1))).

Definition ConnectToEtaHEN (mode : BuildMode) (io : ConnIO) : Prog t bool :=
  cout [Str "[EtaHENPlugin] Attempting to connect to etaHEN..."] ;;
  match mode with
  | PS5_BUILD =>
      call Sys_socket ;;
      modify (set_ipc_socket (socket_ret io)) ;;
      fd <- gets ipc_socket_ ;;
      if fd <? 0 then
        cout [Str "[EtaHENPlugin] Failed to create socket"] ;;
        ret false
      else
      port <- gets etahen_port_ ;;
      call (Sys_connect fd port) ;;
      if connect_ret io <? 0 then
        cout [Str "[EtaHENPlugin] Failed to connect to etaHEN (port ";
              Num port; Str ")"] ;;
        call (Sys_close fd) ;;
        modify (set_ipc_socket (-1)) ;;
        ret false
      else
      modify (set_connected true) ;;
      cout [Str "[EtaHENPlugin] Connected to etaHEN successfully"] ;;
      cb <- gets status_callback_ ;;
      when cb (call (StatusCallback true)) ;;
      ret true
  | Development =>
      cout [Str "[EtaHENPlugin] etaHEN connection simulated (development mode)"] ;;
      modify (set_connected false) ;;
      ret false
  end.

Definition DisconnectFromEtaHEN : Prog t unit :=
  c <- gets connected_ ;;
  if negb c then ret tt else
  cout [Str "[EtaHENPlugin] Disconnecting from etaHEN..."] ;;
  fd <- gets ipc_socket_ ;;
  when (negb (fd =? -1))
    (call (Sys_close fd) ;; modify (set_ipc_socket (-1))) ;;
  modify (set_connected false) ;;
  cb <- gets status_callback_ ;;
  when cb (call (StatusCallback false)).

Definition RegisterWithEtaHEN (io : IpcIO) (plugin_name version : string)
    : Prog t bool :=
  c <- gets connected_ ;;
  if negb c then ret false else
  cout [Str "[EtaHENPlugin] Registering plugin: "; Str plugin_name;
        Str " v"; Str version] ;;
  modify (set_plugin plugin_name version) ;;
  let command :=
    ("REGISTER_PLUGIN:" ++ plugin_name ++ ":" ++ version)%string in
  r <- SendIPCCommand io command "" ;;
  if fst r then
    modify (set_registered true) ;;
    cout [Str "[EtaHENPlugin] Plugin registered successfully"] ;;
    ret true
  else
  cout [Str "[EtaHENPlugin] Failed to register plugin"] ;;
  ret false.

Definition UnregisterFromEtaHEN (io : IpcIO) : Prog t unit :=
  r <- gets registered_ ;;
  c <- gets connected_ ;;
  if negb r || negb c then ret tt else
  cout [Str "[EtaHENPlugin] Unregistering plugin..."] ;;
  name <- gets plugin_name_ ;;
  _ <- SendIPCCommand io ("UNREGISTER_PLUGIN:" ++ name)%string "" ;;
  modify (set_registered false).

(** [std::to_string] of an [int]. *)
Definition to_string (n : Z) : string :=
  NilZero.string_of_int (Z.to_int n).

Definition RequestJailbreak (io : IpcIO) (own_pid : Z) (pid : Z)
    : Prog t bool :=
  c <- gets connected_ ;;
  if negb c then
    cout [Str "[EtaHENPlugin] Cannot request jailbreak - not connected to etaHEN"] ;;
    ret false
  else
  pid <- (if pid =? -1 then call Sys_getpid ;; ret own_pid else ret pid) ;;
  cout [Str "[EtaHENPlugin] Requesting jailbreak for PID "; Num pid] ;;
  r <- SendIPCCommand io ("JAILBREAK:" ++ to_string pid)%string "" ;;
  if fst r then
    cout [Str "[EtaHENPlugin] Jailbreak request successful"] ;;
    ret true
  else
  cout [Str "[EtaHENPlugin] Jailbreak request failed"] ;;
  ret false.

Definition EnableDataAccess (io : IpcIO) : Prog t bool :=
  c <- gets connected_ ;;
  if negb c then ret false else
  cout [Str "[EtaHENPlugin] Enabling /data access..."] ;;
  r <- SendIPCCommand io "ENABLE_DATA_ACCESS" "" ;;
  ret (fst r).

Definition StopFTPServer (io : IpcIO) : Prog t unit :=
  f <- gets ftp_server_running_ ;;
  c <- gets connected_ ;;
  if negb f || negb c then ret tt else
  cout [Str "[EtaHENPlugin] Stopping FTP server..."] ;;
  _ <- SendIPCCommand io "STOP_FTP" "" ;;
  modify (set_ftp_server_running false).

Definition Initialize (mode : BuildMode) (conn : ConnIO) (reg : IpcIO)
    : Prog t bool :=
  init <- gets initialized_ ;;
  if init then ret true else
  cout [Str "[EtaHENPlugin] Initializing etaHEN integration..."] ;;
  ipc <- InitializeIPC mode ;;
  if negb ipc then
    cout [Str "[EtaHENPlugin] Failed to initialize IPC system"] ;;
    ret false
  else
  avail <- ConnectToEtaHEN mode conn ;;
  modify (set_etahen_available avail) ;;
  avail <- gets etahen_available_ ;;
  (if avail then
     name <- gets plugin_name_ ;;
     version <- gets plugin_version_ ;;
     ok <- RegisterWithEtaHEN reg name version ;;
     if ok then
       cout [Str "[EtaHENPlugin] Successfully registered with etaHEN"]
     else
       cout [Str "[EtaHENPlugin] Failed to register with etaHEN, but continuing..."]
   else
     cout [Str "[EtaHENPlugin] etaHEN not detected, running in standalone mode"]) ;;
  modify (set_initialized true) ;;
  cout [Str "[EtaHENPlugin] etaHEN integration initialized"] ;;
  avail <- gets etahen_available_ ;;
  cout [Str "[EtaHENPlugin] etaHEN Available: ";
        Str (if avail then "Yes" else "No")] ;;
  ret true.

Definition IsEtaHENAvailable : Prog t bool := gets etahen_available_.

Section Lifecycle.

(** Declared in the class, defined in another translation unit. *)
Variable StopKlogServer : Prog t unit.
Variable DisablePS5Debug : Prog t unit.

(** What the daemon answers to the commands [Shutdown] may send. *)
Record ShutdownIO : Type := mkShutdownIO {
  stop_ftp_io : IpcIO;
  unregister_io : IpcIO
}.

Definition Shutdown (io : ShutdownIO) : Prog t unit :=
  init <- gets initialized_ ;;
  if negb init then ret tt else
  cout [Str "[EtaHENPlugin] Shutting down etaHEN integration..."] ;;
  StopFTPServer (stop_ftp_io io) ;;
  StopKlogServer ;;
  DisablePS5Debug ;;
  r <- gets registered_ ;;
  when r (UnregisterFromEtaHEN (unregister_io io)) ;;
  c <- gets connected_ ;;
  when c DisconnectFromEtaHEN ;;
  ShutdownIPC ;;
  modify (set_initialized false).

End Lifecycle.

(** *** The remaining members of the plugin *)

Definition set_status_callback (v : bool) (p : t) : t :=
  mk (initialized_ p) (etahen_available_ p) (connected_ p) (registered_ p)
     (plugin_name_ p) (plugin_version_ p) (ipc_socket_ p) (etahen_port_ p)
     (ftp_server_running_ p) (klog_server_running_ p)
     (ps5_debug_enabled_ p) (cheats_enabled_ p) v (message_callback_ p).
Definition set_message_callback (v : bool) (p : t) : t :=
  mk (initialized_ p) (etahen_available_ p) (connected_ p) (registered_ p)
     (plugin_name_ p) (plugin_version_ p) (ipc_socket_ p) (etahen_port_ p)
     (ftp_server_running_ p) (klog_server_running_ p)
     (ps5_debug_enabled_ p) (cheats_enabled_ p) (status_callback_ p) v.

Definition ProcessEtaHENMessages : Prog t unit := ret tt.

Definition Update : Prog t unit :=
  init <- gets initialized_ ;;
  if negb init then ret tt else
  c <- gets connected_ ;;
  when c ProcessEtaHENMessages.

Definition IsProcessJailbroken (own_pid : Z) (pid : Z) : Prog t bool :=
  _ <- (if pid =? -1 then call Sys_getpid ;; ret own_pid else ret pid) ;;
  gets connected_.

(** [port] is a [uint16_t]. *)
Definition StartFTPServer (io : IpcIO) (port : Z) : Prog t bool :=
  f <- gets ftp_server_running_ ;;
  if f then ret true else
  c <- gets connected_ ;;
  if negb c then
    cout [Str "[EtaHENPlugin] Cannot start FTP server - not connected to etaHEN"] ;;
    ret false
  else
  cout [Str "[EtaHENPlugin] Starting FTP server on port "; Num port] ;;
  r <- SendIPCCommand io ("START_FTP:" ++ to_string port)%string "" ;;
  if fst r then
    modify (set_ftp_server_running true) ;;
    cout [Str "[EtaHENPlugin] FTP server started successfully"] ;;
    ret true
  else
  cout [Str "[EtaHENPlugin] Failed to start FTP server"] ;;
  ret false.

Definition LoadELF (io : IpcIO) (elf_path : string) : Prog t bool :=
  c <- gets connected_ ;;
  if negb c then
    cout [Str "[EtaHENPlugin] Cannot load ELF - not connected to etaHEN"] ;;
    ret false
  else
  cout [Str "[EtaHENPlugin] Loading ELF: "; Str elf_path] ;;
  r <- SendIPCCommand io ("LOAD_ELF:" ++ elf_path)%string "" ;;
  ret (fst r).

Definition GetSystemVersion (mode : BuildMode) : string :=
  match mode with
  | PS5_BUILD => "PS5 System Version 5.50"
  | Development => "Development Environment"
  end.

Definition GetEtaHENVersion (io : IpcIO) : Prog t string :=
  c <- gets connected_ ;;
  if negb c then ret "Not Connected"%string else
  r <- SendIPCCommand io "GET_VERSION" "" ;;
  if fst r then ret (snd r) else ret "Unknown"%string.

Definition SetStatusChangeCallback (callback : bool) : Prog t unit :=
  modify (set_status_callback callback).

Definition SetMessageCallback (callback : bool) : Prog t unit :=
  modify (set_message_callback callback).

(** The public members that are defined in this translation unit, with
    what the outside world answers to each. *)
Inductive Op : Type :=
| OpInitialize (conn : ConnIO) (reg : IpcIO)
| OpShutdown (io : ShutdownIO)
| OpUpdate
| OpConnectToEtaHEN (conn : ConnIO)
| OpDisconnectFromEtaHEN
| OpRegisterWithEtaHEN (io : IpcIO) (plugin_name version : string)
| OpUnregisterFromEtaHEN (io : IpcIO)
| OpRequestJailbreak (io : IpcIO) (own_pid pid : Z)
| OpIsProcessJailbroken (own_pid pid : Z)
| OpEnableDataAccess (io : IpcIO)
| OpStartFTPServer (io : IpcIO) (port : Z)
| OpStopFTPServer (io : IpcIO)
| OpLoadELF (io : IpcIO) (elf_path : string)
| OpGetEtaHENVersion (io : IpcIO)
| OpSetStatusChangeCallback (callback : bool)
| OpSetMessageCallback (callback : bool).

Section Ops.

Variable mode : BuildMode.
Variable StopKlogServer : Prog t unit.
Variable DisablePS5Debug : Prog t unit.

Definition run_op (op : Op) : Prog t unit :=
  match op with
  | OpInitialize conn reg => _ <- Initialize mode conn reg ;; ret tt
  | OpShutdown io => Shutdown StopKlogServer DisablePS5Debug io
  | OpUpdate => Update
  | OpConnectToEtaHEN conn => _ <- ConnectToEtaHEN mode conn ;; ret tt
  | OpDisconnectFromEtaHEN => DisconnectFromEtaHEN
  | OpRegisterWithEtaHEN io n v => _ <- RegisterWithEtaHEN io n v ;; ret tt
  | OpUnregisterFromEtaHEN io => UnregisterFromEtaHEN io
  | OpRequestJailbreak io own pid => _ <- RequestJailbreak io own pid ;; ret tt
  | OpIsProcessJailbroken own pid => _ <- IsProcessJailbroken own pid ;; ret tt
  | OpEnableDataAccess io => _ <- EnableDataAccess io ;; ret tt
  | OpStartFTPServer io port => _ <- StartFTPServer io port ;; ret tt
  | OpStopFTPServer io => StopFTPServer io
  | OpLoadELF io path => _ <- LoadELF io path ;; ret tt
  | OpGetEtaHENVersion io => _ <- GetEtaHENVersion io ;; ret tt
  | OpSetStatusChangeCallback cb => SetStatusChangeCallback cb
  | OpSetMessageCallback cb => SetMessageCallback cb
  end.

Fixpoint run_ops (ops : list Op) : Prog t unit :=
  match ops with
  | [] => ret tt
  | op :: rest => run_op op ;; run_ops rest
  end.

End Ops.

End EtaHENPlugin.

(** ** PS5AudioManager (ps5_audio/ps5_audio_manager.cpp) *)

Module PS5AudioManager.

Inductive DeviceType : Type := Output | Input.

(** The arguments a [PS5AudioDevice] is constructed with. *)
Record PS5AudioDevice : Type := mkDevice {
  device_type : DeviceType;
  device_id : Z;
  device_name : string;
  is_default : bool
}.

(** A pointer to a device is identified with the device; a stream is
    known by its address. *)
Record t : Type := mk {
  output_devices_ : list PS5AudioDevice;
  input_devices_ : list PS5AudioDevice;
  streams_ : list Z;
  default_output_device_ : option PS5AudioDevice;
  default_input_device_ : option PS5AudioDevice;
  initialized_ : bool;
  master_volume_ : Float;
  is_muted_ : bool;
  is_3d_audio_enabled_ : bool;
  is_3d_audio_available_ : bool
}.

Definition new : t :=
  mk [] [] [] None None false (FLit "1.0f") false false false.

Definition set_devices (outs ins : list PS5AudioDevice)
    (dout din : option PS5AudioDevice) (a : t) : t :=
  mk outs ins (streams_ a) dout din (initialized_ a) (master_volume_ a)
     (is_muted_ a) (is_3d_audio_enabled_ a) (is_3d_audio_available_ a).
Definition set_streams (v : list Z) (a : t) : t :=
  mk (output_devices_ a) (input_devices_ a) v (default_output_device_ a)
     (default_input_device_ a) (initialized_ a) (master_volume_ a)
     (is_muted_ a) (is_3d_audio_enabled_ a) (is_3d_audio_available_ a).
Definition set_initialized (v : bool) (a : t) : t :=
  mk (output_devices_ a) (input_devices_ a) (streams_ a)
     (default_output_device_ a) (default_input_device_ a) v
     (master_volume_ a) (is_muted_ a) (is_3d_audio_enabled_ a)
     (is_3d_audio_available_ a).
Definition set_3d_audio_available (v : bool) (a : t) : t :=
  mk (output_devices_ a) (input_devices_ a) (streams_ a)
     (default_output_device_ a) (default_input_device_ a) (initialized_ a)
     (master_volume_ a) (is_muted_ a) (is_3d_audio_enabled_ a) v.

Definition InitializePS5AudioSystem (mode : BuildMode) : Prog t bool :=
  match mode with
  | PS5_BUILD =>
      cout [Str "[PS5AudioManager] Initializing PS5 native audio system..."] ;;
      ret true
  | Development =>
      cout [Str "[PS5AudioManager] PS5 audio system initialized (development mode)"] ;;
      ret true
  end.

Definition ShutdownPS5AudioSystem (mode : BuildMode) : Prog t unit := ret tt.

Definition size {A} (l : list A) : Z := Z.of_nat (List.length l).
Definition empty {A} (l : list A) : bool :=
  match l with [] => true | _ => false end.

Definition EnumerateAudioDevices (mode : BuildMode) : Prog t bool :=
  cout [Str "[PS5AudioManager] Enumerating audio devices..."] ;;
  modify (fun a =>
    set_devices [] [] (default_output_device_ a) (default_input_device_ a) a) ;;
  match mode with
  | PS5_BUILD =>
      let main_output := mkDevice Output 0 "Main Output (HDMI)" true in
      let headphone_output := mkDevice Output 1 "Headphones" false in
      let mic_input := mkDevice Input 0 "Microphone" true in
      modify (set_devices [main_output; headphone_output] [mic_input]
                          (Some main_output) (Some mic_input))
  | Development =>
      let mock_output := mkDevice Output 0 "Mock Output" true in
      let mock_input := mkDevice Input 0 "Mock Input" true in
      modify (set_devices [mock_output] [mock_input]
                          (Some mock_output) (Some mock_input))
  end ;;
  outs <- gets output_devices_ ;;
  ins <- gets input_devices_ ;;
  cout [Str "[PS5AudioManager] Found "; Num (size outs);
        Str " output devices"] ;;
  cout [Str "[PS5AudioManager] Found "; Num (size ins);
        Str " input devices"] ;;
  ret (negb (empty outs)).

Definition CleanupAudioDevices : Prog t unit :=
  modify (set_devices [] [] None None).

Definition Initialize (mode : BuildMode) : Prog t bool :=
  init <- gets initialized_ ;;
  if init then ret true else
  cout [Str "[PS5AudioManager] Initializing PS5 Audio System..."] ;;
  ok <- InitializePS5AudioSystem mode ;;
  if negb ok then
    cout [Str "[PS5AudioManager] Failed to initialize PS5 audio system"] ;;
    ret false
  else
  ok <- EnumerateAudioDevices mode ;;
  if negb ok then
    cout [Str "[PS5AudioManager] Failed to enumerate audio devices"] ;;
    ret false
  else
  modify (set_3d_audio_available
            match mode with PS5_BUILD => true | Development => false end) ;;
  modify (set_initialized true) ;;
  cout [Str "[PS5AudioManager] Audio system initialized successfully"] ;;
  outs <- gets output_devices_ ;;
  cout [Str "[PS5AudioManager] Output devices: "; Num (size outs)] ;;
  ins <- gets input_devices_ ;;
  cout [Str "[PS5AudioManager] Input devices: "; Num (size ins)] ;;
  avail <- gets is_3d_audio_available_ ;;
  cout [Str "[PS5AudioManager] 3D Audio available: ";
        Str (if avail then "Yes" else "No")] ;;
  ret true.

Fixpoint stop_all (streams : list Z) : Prog t unit :=
  match streams with
  | [] => ret tt
  | stream :: rest => call (Stream_Stop stream) ;; stop_all rest
  end.

Definition Shutdown (mode : BuildMode) : Prog t unit :=
  init <- gets initialized_ ;;
  if negb init then ret tt else
  cout [Str "[PS5AudioManager] Shutting down PS5 Audio System..."] ;;
  streams <- gets streams_ ;;
  stop_all streams ;;
  modify (set_streams []) ;;
  CleanupAudioDevices ;;
  ShutdownPS5AudioSystem mode ;;
  modify (set_initialized false).

(** *** Devices, streams and switches *)

Definition set_muted (v : bool) (a : t) : t :=
  mk (output_devices_ a) (input_devices_ a) (streams_ a)
     (default_output_device_ a) (default_input_device_ a) (initialized_ a)
     (master_volume_ a) v (is_3d_audio_enabled_ a)
     (is_3d_audio_available_ a).
Definition set_3d_audio_enabled (v : bool) (a : t) : t :=
  mk (output_devices_ a) (input_devices_ a) (streams_ a)
     (default_output_device_ a) (default_input_device_ a) (initialized_ a)
     (master_volume_ a) (is_muted_ a) v (is_3d_audio_available_ a).

Definition GetOutputDevices : Prog t (list PS5AudioDevice) :=
  gets output_devices_.
Definition GetInputDevices : Prog t (list PS5AudioDevice) :=
  gets input_devices_.
Definition GetDefaultOutputDevice : Prog t (option PS5AudioDevice) :=
  gets default_output_device_.
Definition GetDefaultInputDevice : Prog t (option PS5AudioDevice) :=
  gets default_input_device_.

(** What building a [PS5AudioStream] gives: the address of the new
    object and the result of its [Initialize]. *)
Record StreamEnv : Type := mkStreamEnv {
  stream_ptr : Z;
  stream_ok : bool
}.

Definition is_null {A} (o : option A) : bool :=
  match o with Some _ => false | None => true end.

(** The result is the pointer returned; [None] is [nullptr]. *)
Definition CreateOutputStream (env : StreamEnv)
    (sample_rate channels buffer_size : Z) : Prog t (option Z) :=
  init <- gets initialized_ ;;
  dev <- gets default_output_device_ ;;
  if negb init || is_null dev then ret None else
  if negb (stream_ok env) then
    cout [Str "[PS5AudioManager] Failed to create output stream"] ;;
    ret None
  else
  modify (fun a => set_streams (streams_ a ++ [stream_ptr env]) a) ;;
  cout [Str "[PS5AudioManager] Created output stream: "; Num sample_rate;
        Str "Hz, "; Num channels; Str " channels"] ;;
  ret (Some (stream_ptr env)).

Definition CreateInputStream (env : StreamEnv)
    (sample_rate channels buffer_size : Z) : Prog t (option Z) :=
  init <- gets initialized_ ;;
  dev <- gets default_input_device_ ;;
  if negb init || is_null dev then ret None else
  if negb (stream_ok env) then
    cout [Str "[PS5AudioManager] Failed to create input stream"] ;;
    ret None
  else
  modify (fun a => set_streams (streams_ a ++ [stream_ptr env]) a) ;;
  cout [Str "[PS5AudioManager] Created input stream: "; Num sample_rate;
        Str "Hz, "; Num channels; Str " channels"] ;;
  ret (Some (stream_ptr env)).

(** [std::find_if] for the stream at address [stream], then [erase]:
    the first stream at that address is taken out. *)
Fixpoint erase_first (stream : Z) (streams : list Z) : option (list Z) :=
  match streams with
  | [] => None
  | s :: rest =>
      if s =? stream then Some rest
      else match erase_first stream rest with
           | Some rest' => Some (s :: rest')
           | None => None
           end
  end.

(** [stream] is the pointer argument; the streams held are never null. *)
Definition DestroyStream (stream : option Z) : Prog t unit :=
  match stream with
  | None => ret tt
  | Some ptr =>
      streams <- gets streams_ ;;
      match erase_first ptr streams with
      | Some streams' =>
          call (Stream_Stop ptr) ;;
          modify (set_streams streams') ;;
          cout [Str "[PS5AudioManager] Stream destroyed"]
      | None => ret tt
      end
  end.

Definition SetMute (mode : BuildMode) (muted : bool) : Prog t unit :=
  modify (set_muted muted) ;;
  cout [Str "[PS5AudioManager] Audio ";
        Str (if muted then "muted" else "unmuted")].

Definition IsMuted : Prog t bool := gets is_muted_.

Definition Is3DAudioAvailable : Prog t bool := gets is_3d_audio_available_.

Definition Enable3DAudio (mode : BuildMode) (enable : bool) : Prog t unit :=
  avail <- gets is_3d_audio_available_ ;;
  if negb avail then
    cout [Str "[PS5AudioManager] 3D Audio not available on this system"]
  else
  modify (set_3d_audio_enabled enable) ;;
  cout [Str "[PS5AudioManager] 3D Audio ";
        Str (if enable then "enabled" else "disabled")].

Definition Is3DAudioEnabled : Prog t bool := gets is_3d_audio_enabled_.

Definition GetOutputLatency (mode : BuildMode) : Z :=
  match mode with PS5_BUILD => 20 | Development => 50 end.

Definition GetInputLatency (mode : BuildMode) : Z :=
  match mode with PS5_BUILD => 15 | Development => 40 end.

(** The public members modelled here, with what the outside world
    answers to each. *)
Inductive Op : Type :=
| OpInitialize
| OpShutdown
| OpCreateOutputStream (env : StreamEnv) (sample_rate channels buffer_size : Z)
| OpCreateInputStream (env : StreamEnv) (sample_rate channels buffer_size : Z)
| OpDestroyStream (stream : option Z)
| OpSetMute (muted : bool)
| OpEnable3DAudio (enable : bool).

Definition run_op (mode : BuildMode) (op : Op) : Prog t unit :=
  match op with
  | OpInitialize => _ <- Initialize mode ;; ret tt
  | OpShutdown => Shutdown mode
  | OpCreateOutputStream env r c b =>
      _ <- CreateOutputStream env r c b ;; ret tt
  | OpCreateInputStream env r c b =>
      _ <- CreateInputStream env r c b ;; ret tt
  | OpDestroyStream stream => DestroyStream stream
  | OpSetMute muted => SetMute mode muted
  | OpEnable3DAudio enable => Enable3DAudio mode enable
  end.

Fixpoint run_ops (mode : BuildMode) (ops : list Op) : Prog t unit :=
  match ops with
  | [] => ret tt
  | op :: rest => run_op mode op ;; run_ops mode rest
  end.

End PS5AudioManager.

(** ** PS5System (ps5_platform/ps5_system.h) *)

Module PS5System.

(** The static data members. *)
Record t : Type := mk {
  initialized_ : bool;
  etahen_available_ : bool;
  high_performance_mode_ : bool
}.

Definition static_init : t := mk false false false.

Definition set_initialized (v : bool) (s : t) : t :=
  mk v (etahen_available_ s) (high_performance_mode_ s).
Definition set_etahen_available (v : bool) (s : t) : t :=
  mk (initialized_ s) v (high_performance_mode_ s).
Definition set_high_performance_mode (v : bool) (s : t) : t :=
  mk (initialized_ s) (etahen_available_ s) v.

Definition InitializeEtaHEN (mode : BuildMode) : Prog t bool :=
  match mode with
  | PS5_BUILD =>
      cout [Str "[PS5System] Attempting etaHEN initialization..."] ;;
      ret false
  | Development => ret false
  end.

Definition Initialize (mode : BuildMode) : Prog t bool :=
  init <- gets initialized_ ;;
  if init then ret true else
  cout [Str "[PS5System] Initializing PS5 Platform Layer..."] ;;
  match mode with
  | PS5_BUILD =>
      avail <- InitializeEtaHEN mode ;;
      modify (set_etahen_available avail)
  | Development =>
      cout [Str "[PS5System] Running in development mode (not on actual PS5)"] ;;
      modify (set_etahen_available false)
  end ;;
  modify (set_initialized true) ;;
  cout [Str "[PS5System] Platform layer initialized successfully"] ;;
  avail <- gets etahen_available_ ;;
  cout [Str "[PS5System] etaHEN Available: ";
        Str (if avail then "Yes" else "No")] ;;
  ret true.

Definition ReleaseHighPerformanceMode (mode : BuildMode) : Prog t unit :=
  h <- gets high_performance_mode_ ;;
  if negb h then ret tt else
  match mode with
  | PS5_BUILD =>
      cout [Str "[PS5System] Releasing high performance mode..."]
  | Development => ret tt
  end ;;
  modify (set_high_performance_mode false).

Definition Shutdown (mode : BuildMode) : Prog t unit :=
  init <- gets initialized_ ;;
  if negb init then ret tt else
  cout [Str "[PS5System] Shutting down PS5 Platform Layer..."] ;;
  h <- gets high_performance_mode_ ;;
  when h (ReleaseHighPerformanceMode mode) ;;
  modify (set_initialized false).

Definition GetSystemVersion (mode : BuildMode) : string :=
  match mode with
  | PS5_BUILD => "PS5 System Version 5.50"
  | Development => "PS5 Development Environment"
  end.

Definition GetAvailableMemory (mode : BuildMode) : Z :=
  match mode with
  | PS5_BUILD => u64 (12 * 1024 * 1024 * 1024)
  | Development => u64 (8 * 1024 * 1024 * 1024)
  end.

Definition GetCPUCoreCount : Z := 8.

Definition IsJailbroken : Prog t bool := gets etahen_available_.

Definition IsEtaHENAvailable : Prog t bool := gets etahen_available_.

Definition PreventSleep (mode : BuildMode) : Prog t unit :=
  match mode with
  | PS5_BUILD => cout [Str "[PS5System] Preventing system sleep..."]
  | Development => ret tt
  end.

Definition AllowSleep (mode : BuildMode) : Prog t unit :=
  match mode with
  | PS5_BUILD => cout [Str "[PS5System] Allowing system sleep..."]
  | Development => ret tt
  end.

Definition RequestHighPerformanceMode (mode : BuildMode) : Prog t bool :=
  h <- gets high_performance_mode_ ;;
  if h then ret true else
  match mode with
  | PS5_BUILD =>
      cout [Str "[PS5System] Requesting high performance mode..."] ;;
      modify (set_high_performance_mode true) ;;
      ret true
  | Development =>
      cout [Str "[PS5System] High performance mode requested (dev environment)"] ;;
      modify (set_high_performance_mode true) ;;
      ret true
  end.

(** The public static members. *)
Inductive Op : Type :=
| OpInitialize
| OpShutdown
| OpInitializeEtaHEN
| OpPreventSleep
| OpAllowSleep
| OpRequestHighPerformanceMode
| OpReleaseHighPerformanceMode.

Definition run_op (mode : BuildMode) (op : Op) : Prog t unit :=
  match op with
  | OpInitialize => _ <- Initialize mode ;; ret tt
  | OpShutdown => Shutdown mode
  | OpInitializeEtaHEN => _ <- InitializeEtaHEN mode ;; ret tt
  | OpPreventSleep => PreventSleep mode
  | OpAllowSleep => AllowSleep mode
  | OpRequestHighPerformanceMode =>
      _ <- RequestHighPerformanceMode mode ;; ret tt
  | OpReleaseHighPerformanceMode => ReleaseHighPerformanceMode mode
  end.

Fixpoint run_ops (mode : BuildMode) (ops : list Op) : Prog t unit :=
  match ops with
  | [] => ret tt
  | op :: rest => run_op mode op ;; run_ops mode rest
  end.

End PS5System.

(** ** PS5Application (main_ps5/ps5_application.cpp) *)

Module PS5Application.

(** The five [unique_ptr] members are kept as "holds an object": the
    application never looks inside a subsystem, it only calls it. *)
Record t : Type := mk {
  renderer_ : bool;
  audio_manager_ : bool;
  input_manager_ : bool;
  frontend_ : bool;
  eden_core_ : bool;
  shutdown_requested_ : bool;
  initialized_ : bool;
  game_loaded_ : bool;
  emulation_running_ : bool;
  emulation_paused_ : bool;
  current_fps_ : Float;
  emulation_speed_ : Float;
  config_path_ : string;
  game_path_ : string
}.

Definition new : t :=
  mk false false false false false false false false false false
     (FLit "0.0f") (FLit "1.0f") "/data/eden/config" "".

Definition set_subsystem (which : Subsystem) (v : bool) (a : t) : t :=
  mk (match which with Renderer => v | _ => renderer_ a end)
     (match which with Audio => v | _ => audio_manager_ a end)
     (match which with Input => v | _ => input_manager_ a end)
     (match which with Frontend => v | _ => frontend_ a end)
     (match which with Core => v | _ => eden_core_ a end)
     (shutdown_requested_ a) (initialized_ a) (game_loaded_ a)
     (emulation_running_ a) (emulation_paused_ a) (current_fps_ a)
     (emulation_speed_ a) (config_path_ a) (game_path_ a).
Definition subsystem (which : Subsystem) (a : t) : bool :=
  match which with
  | Renderer => renderer_ a
  | Audio => audio_manager_ a
  | Input => input_manager_ a
  | Frontend => frontend_ a
  | Core => eden_core_ a
  end.
Definition set_shutdown_requested (v : bool) (a : t) : t :=
  mk (renderer_ a) (audio_manager_ a) (input_manager_ a) (frontend_ a)
     (eden_core_ a) v (initialized_ a) (game_loaded_ a)
     (emulation_running_ a) (emulation_paused_ a) (current_fps_ a)
     (emulation_speed_ a) (config_path_ a) (game_path_ a).
Definition set_initialized (v : bool) (a : t) : t :=
  mk (renderer_ a) (audio_manager_ a) (input_manager_ a) (frontend_ a)
     (eden_core_ a) (shutdown_requested_ a) v (game_loaded_ a)
     (emulation_running_ a) (emulation_paused_ a) (current_fps_ a)
     (emulation_speed_ a) (config_path_ a) (game_path_ a).
Definition set_game_loaded (v : bool) (a : t) : t :=
  mk (renderer_ a) (audio_manager_ a) (input_manager_ a) (frontend_ a)
     (eden_core_ a) (shutdown_requested_ a) (initialized_ a) v
     (emulation_running_ a) (emulation_paused_ a) (current_fps_ a)
     (emulation_speed_ a) (config_path_ a) (game_path_ a).
Definition set_emulation_running (v : bool) (a : t) : t :=
  mk (renderer_ a) (audio_manager_ a) (input_manager_ a) (frontend_ a)
     (eden_core_ a) (shutdown_requested_ a) (initialized_ a)
     (game_loaded_ a) v (emulation_paused_ a) (current_fps_ a)
     (emulation_speed_ a) (config_path_ a) (game_path_ a).
Definition set_emulation_paused (v : bool) (a : t) : t :=
  mk (renderer_ a) (audio_manager_ a) (input_manager_ a) (frontend_ a)
     (eden_core_ a) (shutdown_requested_ a) (initialized_ a)
     (game_loaded_ a) (emulation_running_ a) v (current_fps_ a)
     (emulation_speed_ a) (config_path_ a) (game_path_ a).
Definition set_current_fps (v : Float) (a : t) : t :=
  mk (renderer_ a) (audio_manager_ a) (input_manager_ a) (frontend_ a)
     (eden_core_ a) (shutdown_requested_ a) (initialized_ a)
     (game_loaded_ a) (emulation_running_ a) (emulation_paused_ a) v
     (emulation_speed_ a) (config_path_ a) (game_path_ a).
Definition set_config_path (v : string) (a : t) : t :=
  mk (renderer_ a) (audio_manager_ a) (input_manager_ a) (frontend_ a)
     (eden_core_ a) (shutdown_requested_ a) (initialized_ a)
     (game_loaded_ a) (emulation_running_ a) (emulation_paused_ a)
     (current_fps_ a) (emulation_speed_ a) v (game_path_ a).
Definition set_game_path (v : string) (a : t) : t :=
  mk (renderer_ a) (audio_manager_ a) (input_manager_ a) (frontend_ a)
     (eden_core_ a) (shutdown_requested_ a) (initialized_ a)
     (game_loaded_ a) (emulation_running_ a) (emulation_paused_ a)
     (current_fps_ a) (emulation_speed_ a) (config_path_ a) v.

(** [ptr = std::make_unique<T>(...)]: the new object is built, then the
    one held so far is destroyed. *)
Definition make_unique (which : Subsystem) : Prog t unit :=
  old <- gets (subsystem which) ;;
  call (Sub which mNew) ;;
  modify (set_subsystem which true) ;;
  when old (call (Sub which mDelete)).

(** [if (ptr) { ptr->Shutdown(); ptr.reset(); }] *)
Definition shutdown_and_reset (which : Subsystem) : Prog t unit :=
  p <- gets (subsystem which) ;;
  when p
    (call (Sub which mShutdown) ;;
     call (Sub which mDelete) ;;
     modify (set_subsystem which false)).

(** The results of the five [Initialize] calls on the subsystems. *)
Record SubsysEnv : Type := mkSubsysEnv {
  renderer_ok : bool;
  audio_ok : bool;
  input_ok : bool;
  frontend_ok : bool;
  core_ok : bool
}.

Definition InitializeSubsystems (env : SubsysEnv) : Prog t bool :=
  cout [Str "[PS5Application] Initializing subsystems..."] ;;
  cout [Str "[PS5Application] Initializing graphics renderer..."] ;;
  make_unique Renderer ;;
  call (Sub Renderer mInitialize) ;;
  if negb (renderer_ok env) then
    cout [Str "[PS5Application] Failed to initialize graphics renderer"] ;;
    ret false
  else
  cout [Str "[PS5Application] Initializing audio manager..."] ;;
  make_unique Audio ;;
  call (Sub Audio mInitialize) ;;
  if negb (audio_ok env) then
    cout [Str "[PS5Application] Failed to initialize audio manager"] ;;
    ret false
  else
  cout [Str "[PS5Application] Initializing input manager..."] ;;
  make_unique Input ;;
  call (Sub Input mInitialize) ;;
  if negb (input_ok env) then
    cout [Str "[PS5Application] Failed to initialize input manager"] ;;
    ret false
  else
  cout [Str "[PS5Application] Initializing frontend..."] ;;
  make_unique Frontend ;;
  call (Sub Frontend mInitialize) ;;
  if negb (frontend_ok env) then
    cout [Str "[PS5Application] Failed to initialize frontend"] ;;
    ret false
  else
  cout [Str "[PS5Application] Initializing Eden core..."] ;;
  make_unique Core ;;
  call (Sub Core mInitialize) ;;
  if negb (core_ok env) then
    cout [Str "[PS5Application] Failed to initialize Eden core"] ;;
    ret false
  else
  cout [Str "[PS5Application] All subsystems initialized successfully"] ;;
  ret true.

Definition ShutdownSubsystems : Prog t unit :=
  cout [Str "[PS5Application] Shutting down subsystems..."] ;;
  shutdown_and_reset Core ;;
  shutdown_and_reset Frontend ;;
  shutdown_and_reset Input ;;
  shutdown_and_reset Audio ;;
  shutdown_and_reset Renderer ;;
  cout [Str "[PS5Application] Subsystems shutdown complete"].

(** The loop of [ProcessCommandLine] over [argv[1..]]; [argv0] is
    [argv[0]].  An option that takes a value consumes the next entry. *)
Fixpoint ProcessCommandLine_from (argv0 : string) (args : list string)
    : Prog t bool :=
  match args with
  | [] => ret true
  | arg :: rest =>
      match (arg =? "--game")%string, (arg =? "--config")%string, rest with
      | true, _, value :: rest' =>
          modify (set_game_path value) ;;
          cout [Str "[PS5Application] Game path specified: "; Str value] ;;
          ProcessCommandLine_from argv0 rest'
      | false, true, value :: rest' =>
          modify (set_config_path value) ;;
          cout [Str "[PS5Application] Config path specified: "; Str value] ;;
          ProcessCommandLine_from argv0 rest'
      | _, _, _ =>
          if ((arg =? "--help") || (arg =? "-h"))%string then
            cout [Str "Eden Nintendo Switch Emulator - PS5 Port"] ;;
            cout [Str "Usage: "; Str argv0; Str " [options]"] ;;
            cout [Str "Options:"] ;;
            cout [Str "  --game <path>    Load game from path"] ;;
            cout [Str "  --config <path>  Use config directory"] ;;
            cout [Str "  --help, -h       Show this help message"] ;;
            ret false
          else ProcessCommandLine_from argv0 rest
      end
  end.

(** [argv] has [argc] entries. *)
Definition ProcessCommandLine (argv : list string) : Prog t bool :=
  match argv with
  | [] => ret true
  | argv0 :: args => ProcessCommandLine_from argv0 args
  end.

Definition LoadSettings : Prog t unit :=
  p <- gets config_path_ ;;
  cout [Str "[PS5Application] Loading settings from: "; Str p].

Definition SaveSettings : Prog t unit :=
  p <- gets config_path_ ;;
  cout [Str "[PS5Application] Saving settings to: "; Str p].

Definition Initialize (argv : list string) (env : SubsysEnv) : Prog t bool :=
  init <- gets initialized_ ;;
  if init then ret true else
  cout [Str "[PS5Application] Initializing application..."] ;;
  ok <- ProcessCommandLine argv ;;
  if negb ok then
    cout [Str "[PS5Application] Failed to process command line"] ;;
    ret false
  else
  LoadSettings ;;
  ok <- InitializeSubsystems env ;;
  if negb ok then
    cout [Str "[PS5Application] Failed to initialize subsystems"] ;;
    ret false
  else
  modify (set_initialized true) ;;
  cout [Str "[PS5Application] Application initialized successfully"] ;;
  ret true.

Definition StopEmulation : Prog t unit :=
  running <- gets emulation_running_ ;;
  if negb running then ret tt else
  cout [Str "[PS5Application] Stopping emulation..."] ;;
  core <- gets eden_core_ ;;
  when core (call (Sub Core mStopEmulation)) ;;
  modify (set_emulation_running false) ;;
  modify (set_emulation_paused false).

Definition UnloadGame : Prog t unit :=
  loaded <- gets game_loaded_ ;;
  if negb loaded then ret tt else
  cout [Str "[PS5Application] Unloading game..."] ;;
  running <- gets emulation_running_ ;;
  when running StopEmulation ;;
  core <- gets eden_core_ ;;
  when core (call (Sub Core mUnloadGame)) ;;
  modify (set_game_loaded false) ;;
  modify (set_game_path "").

Definition Shutdown : Prog t unit :=
  init <- gets initialized_ ;;
  if negb init then ret tt else
  cout [Str "[PS5Application] Shutting down application..."] ;;
  running <- gets emulation_running_ ;;
  when running StopEmulation ;;
  loaded <- gets game_loaded_ ;;
  when loaded UnloadGame ;;
  SaveSettings ;;
  ShutdownSubsystems ;;
  modify (set_initialized false).

(** [core_result] is what [eden_core_->LoadGame] answers, if asked. *)
Definition LoadGame (core_result : bool) (game_path : string)
    : Prog t bool :=
  core <- gets eden_core_ ;;
  if negb core then
    cout [Str "[PS5Application] Cannot load game - Eden core not initialized"] ;;
    ret false
  else
  cout [Str "[PS5Application] Loading game: "; Str game_path] ;;
  call (Sub Core (mLoadGame game_path)) ;;
  if core_result then
    modify (set_game_loaded true) ;;
    modify (set_game_path game_path) ;;
    cout [Str "[PS5Application] Game loaded successfully"] ;;
    ret true
  else
  cout [Str "[PS5Application] Failed to load game"] ;;
  ret false.

(** [core_result] is what [eden_core_->StartEmulation] answers, if
    asked. *)
Definition StartEmulation (core_result : bool) : Prog t unit :=
  loaded <- gets game_loaded_ ;;
  running <- gets emulation_running_ ;;
  if negb loaded || running then ret tt else
  cout [Str "[PS5Application] Starting emulation..."] ;;
  core <- gets eden_core_ ;;
  started <- (if core then call (Sub Core mStartEmulation) ;; ret core_result
              else ret false) ;;
  if started then
    modify (set_emulation_running true) ;;
    modify (set_emulation_paused false) ;;
    cout [Str "[PS5Application] Emulation started"]
  else
    cout [Str "[PS5Application] Failed to start emulation"].

Definition PauseEmulation : Prog t unit :=
  running <- gets emulation_running_ ;;
  paused <- gets emulation_paused_ ;;
  if negb running || paused then ret tt else
  cout [Str "[PS5Application] Pausing emulation..."] ;;
  modify (set_emulation_paused true).

Definition ResumeEmulation : Prog t unit :=
  running <- gets emulation_running_ ;;
  paused <- gets emulation_paused_ ;;
  if negb running || negb paused then ret tt else
  cout [Str "[PS5Application] Resuming emulation..."] ;;
  modify (set_emulation_paused false).

Definition RequestShutdown : Prog t unit :=
  cout [Str "[PS5Application] Shutdown requested"] ;;
  modify (set_shutdown_requested true).

(** What one pass through the loop of [MainLoop] reads from outside:
    the three readings of [steady_clock::now()], in ticks of one
    nanosecond, and the signal, if any, whose handler ran during the
    pass. *)
Record IterEnv : Type := mkIterEnv {
  t_frame_start : Z;
  t_now : Z;
  t_frame_end : Z;
  signal : option Z
}.

(** [duration_cast] truncates towards zero. *)
Definition to_milliseconds (ticks : Z) : Z := Z.quot ticks 1000000.
Definition to_microseconds (ticks : Z) : Z := Z.quot ticks 1000.

Definition target_frame_time : Z := 16667. (* ~60 FPS *)

Definition frame_duration (e : IterEnv) : Z :=
  to_microseconds (t_frame_end e - t_frame_start e).

Section MainLoop.

(** The handler installed for SIGINT and SIGTERM, acting on this
    application. *)
Variable SignalHandler : Z -> Prog t unit.

(** The body of the [while] loop.  [last_fps_time] and [frame_count]
    are the two locals that live across iterations. *)
Definition MainLoop_body (e : IterEnv) (last_fps_time frame_count : Z)
    : Prog t (Z * Z) :=
  let frame_start := t_frame_start e in
  input <- gets input_manager_ ;;
  when input (call (Sub Input mUpdate)) ;;
  frontend <- gets frontend_ ;;
  when frontend (call (Sub Frontend mUpdate)) ;;
  core <- gets eden_core_ ;;
  running <- gets emulation_running_ ;;
  paused <- gets emulation_paused_ ;;
  when (core && running && negb paused) (call (Sub Core mUpdate)) ;;
  renderer <- gets renderer_ ;;
  when renderer
    (call (Sub Renderer mBeginFrame) ;;
     core <- gets eden_core_ ;;
     running <- gets emulation_running_ ;;
     when (core && running) (call (Sub Core mRender)) ;;
     frontend <- gets frontend_ ;;
     when frontend (call (Sub Frontend mRender)) ;;
     call (Sub Renderer mEndFrame) ;;
     call (Sub Renderer mPresent)) ;;
  let frame_count := u32 (frame_count + 1) in
  let now := t_now e in
  let fps_elapsed := to_milliseconds (now - last_fps_time) in
  locals <-
    (if fps_elapsed >=? 1000 then
       modify (set_current_fps (FFrameRate frame_count fps_elapsed)) ;;
       ret (now, 0)
     else ret (last_fps_time, frame_count)) ;;
  let frame_end := t_frame_end e in
  let frame_duration := to_microseconds (frame_end - frame_start) in
  when (frame_duration <? target_frame_time)
    (call (SleepFor (target_frame_time - frame_duration))) ;;
  match signal e with
  | Some n => SignalHandler n
  | None => ret tt
  end ;;
  ret locals.

(** The loop, for as long as the script [envs] of the outside world
    goes.  The result tells whether the loop was left. *)
Fixpoint MainLoop_from (envs : list IterEnv) (last_fps_time frame_count : Z)
    : Prog t bool :=
  stop <- gets shutdown_requested_ ;;
  if stop then ret true else
  match envs with
  | [] => ret false
  | e :: rest =>
      locals <- MainLoop_body e last_fps_time frame_count ;;
      MainLoop_from rest (fst locals) (snd locals)
  end.

(** [t0] is the reading of the clock before the loop. *)
Definition MainLoop (t0 : Z) (envs : list IterEnv) : Prog t bool :=
  MainLoop_from envs t0 0.

(** What [Run] reads from outside. *)
Record RunEnv : Type := mkRunEnv {
  load_result : bool;
  start_result : bool;
  t_loop_start : Z;
  iterations : list IterEnv
}.

(** [None]: the main loop is still running when the script ends. *)
Definition Run (env : RunEnv) : Prog t (option Z) :=
  init <- gets initialized_ ;;
  if negb init then
    cout [Str "[PS5Application] Cannot run - not initialized"] ;;
    ret (Some (-1))
  else
  cout [Str "[PS5Application] Starting main loop..."] ;;
  path <- gets game_path_ ;;
  when (negb (path =? "")%string)
    (ok <- LoadGame (load_result env) path ;;
     if ok then
       cout [Str "[PS5Application] Game loaded successfully, starting emulation..."] ;;
       StartEmulation (start_result env)
     else
       cout [Str "[PS5Application] Failed to load game: "; Str path]) ;;
  left <- MainLoop (t_loop_start env) (iterations env) ;;
  if negb left then ret None else
  cout [Str "[PS5Application] Main loop finished"] ;;
  ret (Some 0).

End MainLoop.

(** The public operations on the emulation state machine, with what the
    outside world answers to each. *)
Inductive Op : Type :=
| OpInitialize (argv : list string) (env : SubsysEnv)
| OpLoadGame (core_result : bool) (game_path : string)
| OpUnloadGame
| OpStartEmulation (core_result : bool)
| OpPauseEmulation
| OpResumeEmulation
| OpStopEmulation
| OpShutdown.

Definition run_op (op : Op) : Prog t unit :=
  match op with
  | OpInitialize argv env => _ <- Initialize argv env ;; ret tt
  | OpLoadGame r p => _ <- LoadGame r p ;; ret tt
  | OpUnloadGame => UnloadGame
  | OpStartEmulation r => StartEmulation r
  | OpPauseEmulation => PauseEmulation
  | OpResumeEmulation => ResumeEmulation
  | OpStopEmulation => StopEmulation
  | OpShutdown => Shutdown
  end.

Fixpoint run_ops (ops : list Op) : Prog t unit :=
  match ops with
  | [] => ret tt
  | op :: rest => run_op op ;; run_ops rest
  end.

(** Paused only while running, running only with a game loaded. *)
Definition emulation_inv (a : t) : Prop :=
  (emulation_paused_ a = true -> emulation_running_ a = true) /\
  (emulation_running_ a = true -> game_loaded_ a = true).

End PS5Application.

(** ** main (main_ps5/main.cpp) *)

Module Main.

(** The objects with static storage duration. *)
Record Globals : Type := mkGlobals {
  g_ps5_app : option PS5Application.t;
  g_etahen_plugin : option EtaHENPlugin.t;
  ps5_system : PS5System.t
}.

Definition startup : Globals := mkGlobals None None PS5System.static_init.

Definition set_app (v : option PS5Application.t) (g : Globals) : Globals :=
  mkGlobals v (g_etahen_plugin g) (ps5_system g).
Definition set_plugin (v : option EtaHENPlugin.t) (g : Globals) : Globals :=
  mkGlobals (g_ps5_app g) v (ps5_system g).
Definition set_system (v : PS5System.t) (g : Globals) : Globals :=
  mkGlobals (g_ps5_app g) (g_etahen_plugin g) v.

Definition on_app {A} (m : Prog PS5Application.t A) (dflt : Prog Globals A)
    : Prog Globals A :=
  through g_ps5_app set_app m dflt.

Definition on_system {A} (m : Prog PS5System.t A) : Prog Globals A :=
  zoom ps5_system set_system m.

(** [GetEtaHENPlugin()]: the instance is created on first use;
    [etahen.f()] then runs [f] on it. *)
Definition GetEtaHENPlugin : Prog Globals unit :=
  p <- gets g_etahen_plugin ;;
  match p with
  | Some _ => ret tt
  | None => modify (set_plugin (Some EtaHENPlugin.new))
  end.

Definition the_plugin (g : Globals) : EtaHENPlugin.t :=
  match g_etahen_plugin g with
  | Some p => p
  | None => EtaHENPlugin.new
  end.

Definition on_etahen {A} (m : Prog EtaHENPlugin.t A) : Prog Globals A :=
  zoom the_plugin (fun p => set_plugin (Some p)) m.

(** [SignalHandler], seen from the application [g_ps5_app] points at. *)
Definition SignalHandler (signal : Z) : Prog PS5Application.t unit :=
  cout [Str "[Main] Received signal "; Num signal; Str ", shutting down..."] ;;
  PS5Application.RequestShutdown.

Definition PrintBanner (build_date build_time : string) : Prog Globals unit :=
  cout [Str "============================================"] ;;
  cout [Str "     Eden Nintendo Switch Emulator"] ;;
  cout [Str "           PlayStation 5 Port"] ;;
  cout [Str "============================================"] ;;
  cout [Str "Version: 1.0.0-PS5"] ;;
  cout [Str "Build Date: "; Str build_date; Str " "; Str build_time] ;;
  cout [Str "Platform: PlayStation 5 (Homebrew)"] ;;
  cout [Str "============================================"] ;;
  cout [].

(** Everything [main] reads from outside, in the order it is used. *)
Record MainEnv : Type := mkMainEnv {
  build_date : string;
  build_time : string;
  connect_io : EtaHENPlugin.ConnIO;
  register_io : EtaHENPlugin.IpcIO;
  own_pid : Z;
  jailbreak_io : EtaHENPlugin.IpcIO;
  data_access_io : EtaHENPlugin.IpcIO;
  subsystems : PS5Application.SubsysEnv;
  run_env : PS5Application.RunEnv;
  plugin_shutdown_io : EtaHENPlugin.ShutdownIO
}.

Section Main.

Variable mode : BuildMode.
(** Members of the plugin defined in another translation unit. *)
Variable StopKlogServer : Prog EtaHENPlugin.t unit.
Variable DisablePS5Debug : Prog EtaHENPlugin.t unit.

(** Lines 60 to 74: what [main] does once [etahen.Initialize()] has
    returned [ok]. *)
Definition main_after_etahen_init (ok : bool) (env : MainEnv)
    : Prog Globals unit :=
  when (negb ok)
    (cout [Str "[Main] Warning: etaHEN integration failed, continuing anyway..."]) ;;
  avail <- on_etahen EtaHENPlugin.IsEtaHENAvailable ;;
  if avail then
    cout [Str "[Main] etaHEN detected - requesting jailbreak..."] ;;
    jb <- on_etahen (EtaHENPlugin.RequestJailbreak (jailbreak_io env)
                                                  (own_pid env) (-1)) ;;
    if jb then
      cout [Str "[Main] Jailbreak successful!"] ;;
      _ <- on_etahen (EtaHENPlugin.EnableDataAccess (data_access_io env)) ;;
      ret tt
    else
      cout [Str "[Main] Warning: Jailbreak failed, limited functionality"]
  else
    cout [Str "[Main] Warning: etaHEN not detected - running with limited functionality"].

(** Lines 56 to 74: etaHEN integration and the jailbreak request. *)
Definition main_etahen (env : MainEnv) : Prog Globals unit :=
  cout [Str "[Main] Initializing etaHEN integration..."] ;;
  GetEtaHENPlugin ;;
  ok <- on_etahen (EtaHENPlugin.Initialize mode (connect_io env)
                                           (register_io env)) ;;
  main_after_etahen_init ok env.

(** Lines 76 to 109: the application is created, initialised, run and
    taken down.  [None]: the main loop is still running when the
    script of the outside world ends. *)
Definition main_application (argv : list string) (env : MainEnv)
    : Prog Globals (option Z) :=
  cout [Str "[Main] Creating PS5 application..."] ;;
  modify (set_app (Some PS5Application.new)) ;;
  ok <- on_app (PS5Application.Initialize argv (subsystems env))
               (ret false) ;;
  if negb ok then
    cerr [Str "[Main] Failed to initialize PS5 application"] ;;
    ret (Some (-1))
  else
  cout [Str "[Main] Eden PS5 initialized successfully!"] ;;
  cout [Str "[Main] Starting emulator..."] ;;
  r <- on_app (PS5Application.Run SignalHandler (run_env env))
              (ret None) ;;
  match r with
  | None => ret None
  | Some result =>
      cout [Str "[Main] Application finished with result: "; Num result] ;;
      cout [Str "[Main] Shutting down..."] ;;
      on_app PS5Application.Shutdown (ret tt) ;;
      modify (set_app None) ;;
      on_etahen (EtaHENPlugin.Shutdown StopKlogServer DisablePS5Debug
                                       (plugin_shutdown_io env)) ;;
      on_system (PS5System.Shutdown mode) ;;
      cout [Str "[Main] Eden PS5 shutdown complete"] ;;
      ret (Some result)
  end.

Definition main (argv : list string) (env : MainEnv)
    : Prog Globals (option Z) :=
  PrintBanner (build_date env) (build_time env) ;;
  match mode with
  | PS5_BUILD => cout [Str "[Main] Running on PlayStation 5"]
  | Development => cout [Str "[Main] Running in development environment"]
  end ;;
  cout [Str "[Main] Initializing PS5 platform..."] ;;
  ok <- on_system (PS5System.Initialize mode) ;;
  if negb ok then
    cerr [Str "[Main] Failed to initialize PS5 platform"] ;;
    ret (Some (-1))
  else
  main_etahen env ;;
  main_application argv env.

End Main.

End Main.

(** ** PS5InputManager (ps5_input/ps5_input_manager.cpp) *)

Module PS5InputManager.

Inductive InputEventType : Type :=
| ButtonPress
| ButtonRelease
| AxisMove
| TouchpadTouch
| TouchpadRelease
| MotionUpdate.

Record InputEvent : Type := mkInputEvent {
  type : InputEventType;
  controller_id : Z;
  button_id : Z;
  value : Float;
  x : Float;
  y : Float;
  timestamp : Z
}.

Record SwitchButtonMapping : Type := mkSwitchButtonMapping {
  ps5_button : Z;
  switch_button : Z
}.

(** A controller is known by the address of its [PS5Controller] object;
    a callback member by whether a callable is installed. *)
Record t : Type := mk {
  controllers_ : list (option Z);
  button_mapping_ : list SwitchButtonMapping;
  input_event_callback_ : bool;
  controller_connected_callback_ : bool;
  controller_disconnected_callback_ : bool;
  initialized_ : bool;
  last_update_time_ : Z
}.

Definition new : t := mk [] [] false false false false 0.

Definition set_controllers (v : list (option Z)) (m : t) : t :=
  mk v (button_mapping_ m) (input_event_callback_ m)
     (controller_connected_callback_ m) (controller_disconnected_callback_ m)
     (initialized_ m) (last_update_time_ m).
Definition set_button_mapping (v : list SwitchButtonMapping) (m : t) : t :=
  mk (controllers_ m) v (input_event_callback_ m)
     (controller_connected_callback_ m) (controller_disconnected_callback_ m)
     (initialized_ m) (last_update_time_ m).
Definition set_input_event_callback (v : bool) (m : t) : t :=
  mk (controllers_ m) (button_mapping_ m) v
     (controller_connected_callback_ m) (controller_disconnected_callback_ m)
     (initialized_ m) (last_update_time_ m).
Definition set_controller_connected_callback (v : bool) (m : t) : t :=
  mk (controllers_ m) (button_mapping_ m) (input_event_callback_ m)
     v (controller_disconnected_callback_ m)
     (initialized_ m) (last_update_time_ m).
Definition set_controller_disconnected_callback (v : bool) (m : t) : t :=
  mk (controllers_ m) (button_mapping_ m) (input_event_callback_ m)
     (controller_connected_callback_ m) v
     (initialized_ m) (last_update_time_ m).
Definition set_initialized (v : bool) (m : t) : t :=
  mk (controllers_ m) (button_mapping_ m) (input_event_callback_ m)
     (controller_connected_callback_ m) (controller_disconnected_callback_ m)
     v (last_update_time_ m).
Definition set_last_update_time (v : Z) (m : t) : t :=
  mk (controllers_ m) (button_mapping_ m) (input_event_callback_ m)
     (controller_connected_callback_ m) (controller_disconnected_callback_ m)
     (initialized_ m) v.

Definition set_button_id (v : Z) (e : InputEvent) : InputEvent :=
  mkInputEvent (type e) (controller_id e) v (value e) (x e) (y e)
               (timestamp e).

(** What the manager calls that is not its own code: the controllers'
    [Update] and the three callbacks, each with its argument. *)
Inductive Outcall : Type :=
| Controller_Update (controller : Z)
| ControllerConnected (controller_id : Z)
| ControllerDisconnected (controller_id : Z)
| InputEventCallback (event : InputEvent).

Definition size {A} (l : list A) : Z := Z.of_nat (List.length l).

(** [std::vector::resize]: cut down to [n] entries, or filled up to [n]
    entries with null pointers. *)
Definition resize (n : Z) (l : list (option Z)) : list (option Z) :=
  firstn (Z.to_nat n) l ++ repeat None (Z.to_nat n - List.length l).

(** [v[i] = p]. *)
Fixpoint assign (i : nat) (p : option Z) (l : list (option Z))
    : list (option Z) :=
  match l, i with
  | [], _ => []
  | _ :: l', O => p :: l'
  | c :: l', S i' => c :: assign i' p l'
  end.

Definition InitializePS5InputSystem (mode : BuildMode) : Prog t bool :=
  match mode with
  | PS5_BUILD =>
      cout [Str "[PS5InputManager] Initializing PS5 native input system..."] ;;
      ret true
  | Development =>
      cout [Str "[PS5InputManager] PS5 input system initialized (development mode)"] ;;
      ret true
  end.

Definition ShutdownPS5InputSystem (mode : BuildMode) : Prog t unit := ret tt.

Definition SetSwitchButtonMapping (mapping : list SwitchButtonMapping)
    : Prog t unit :=
  modify (set_button_mapping mapping) ;;
  cout [Str "[PS5InputManager] Button mapping updated with ";
        Num (size mapping); Str " mappings"].

(** The table [Initialize] installs. *)
Definition default_mapping : list SwitchButtonMapping :=
  [ mkSwitchButtonMapping 0x0001 0x0001;   (* Cross -> A *)
    mkSwitchButtonMapping 0x0002 0x0002;   (* Circle -> B *)
    mkSwitchButtonMapping 0x0004 0x0004;   (* Square -> Y *)
    mkSwitchButtonMapping 0x0008 0x0008;   (* Triangle -> X *)
    mkSwitchButtonMapping 0x0010 0x0010;   (* L1 -> L *)
    mkSwitchButtonMapping 0x0020 0x0020;   (* R1 -> R *)
    mkSwitchButtonMapping 0x0040 0x0040;   (* L2 -> ZL *)
    mkSwitchButtonMapping 0x0080 0x0080;   (* R2 -> ZR *)
    mkSwitchButtonMapping 0x0100 0x0100;   (* Share -> Minus *)
    mkSwitchButtonMapping 0x0200 0x0200;   (* Options -> Plus *)
    mkSwitchButtonMapping 0x0400 0x0400;   (* L3 -> Left Stick *)
    mkSwitchButtonMapping 0x0800 0x0800;   (* R3 -> Right Stick *)
    mkSwitchButtonMapping 0x1000 0x1000;   (* PS Button -> Home *)
    mkSwitchButtonMapping 0x2000 0x2000 ]. (* Touchpad -> Capture *)

Definition Initialize (mode : BuildMode) : Prog t bool :=
  init <- gets initialized_ ;;
  if init then ret true else
  cout [Str "[PS5InputManager] Initializing PS5 Input System..."] ;;
  ok <- InitializePS5InputSystem mode ;;
  if negb ok then
    cout [Str "[PS5InputManager] Failed to initialize PS5 input system"] ;;
    ret false
  else
  SetSwitchButtonMapping default_mapping ;;
  modify (set_initialized true) ;;
  cout [Str "[PS5InputManager] Input system initialized successfully"] ;;
  ret true.

Definition Shutdown (mode : BuildMode) : Prog t unit :=
  init <- gets initialized_ ;;
  if negb init then ret tt else
  cout [Str "[PS5InputManager] Shutting down PS5 Input System..."] ;;
  modify (set_controllers []) ;;
  ShutdownPS5InputSystem mode ;;
  modify (set_initialized false).

(** The loop of [MapPS5ToSwitchInput] over the table, with its
    [break]. *)
Fixpoint map_button (mappings : list SwitchButtonMapping)
    (ps5_event switch_event : InputEvent) : InputEvent :=
  match mappings with
  | [] => switch_event
  | mapping :: rest =>
      if ps5_button mapping =? button_id ps5_event
      then set_button_id (switch_button mapping) switch_event
      else map_button rest ps5_event switch_event
  end.

Definition is_button (ty : InputEventType) : bool :=
  match ty with
  | ButtonPress | ButtonRelease => true
  | _ => false
  end.

(** The result is [switch_event], the reference argument, after the
    call. *)
Definition MapPS5ToSwitchInput (ps5_event : InputEvent) : Prog t InputEvent :=
  let switch_event := ps5_event in
  if is_button (type ps5_event) then
    mapping <- gets button_mapping_ ;;
    ret (map_button mapping ps5_event switch_event)
  else ret switch_event.

(** What building a [PS5Controller] gives: the address of the new object
    and the result of its [Initialize]. *)
Record ControllerEnv : Type := mkControllerEnv {
  controller_ptr : Z;
  controller_ok : bool
}.

(** The result lists the calls made out of the manager, in order.
    [controller_id + 1] is computed in [uint32_t]. *)
Definition OnControllerConnected (env : ControllerEnv) (controller_id : Z)
    : Prog t (list Outcall) :=
  cout [Str "[PS5InputManager] Controller "; Num controller_id;
        Str " connected"] ;;
  cs <- gets controllers_ ;;
  when (controller_id >=? size cs)
    (modify (set_controllers (resize (u32 (controller_id + 1)) cs))) ;;
  if controller_ok env then
    modify (fun m =>
      set_controllers
        (assign (Z.to_nat controller_id) (Some (controller_ptr env))
                (controllers_ m)) m) ;;
    cb <- gets controller_connected_callback_ ;;
    if cb then ret [ControllerConnected controller_id] else ret []
  else ret [].

Definition is_some {A} (o : option A) : bool :=
  match o with Some _ => true | None => false end.

Definition OnControllerDisconnected (controller_id : Z)
    : Prog t (list Outcall) :=
  cout [Str "[PS5InputManager] Controller "; Num controller_id;
        Str " disconnected"] ;;
  cs <- gets controllers_ ;;
  if (controller_id <? size cs)
     && is_some (nth (Z.to_nat controller_id) cs None) then
    modify (set_controllers (assign (Z.to_nat controller_id) None cs)) ;;
    cb <- gets controller_disconnected_callback_ ;;
    if cb then ret [ControllerDisconnected controller_id] else ret []
  else ret [].

Definition GetController (controller_id : Z) : Prog t (option Z) :=
  cs <- gets controllers_ ;;
  if controller_id <? size cs
  then ret (nth (Z.to_nat controller_id) cs None)
  else ret None.

Definition empty {A} (l : list A) : bool :=
  match l with [] => true | _ => false end.

Definition PollControllers (mode : BuildMode) (env : ControllerEnv)
    : Prog t (list Outcall) :=
  match mode with
  | PS5_BUILD => ret []
  | Development =>
      cs <- gets controllers_ ;;
      if empty cs then OnControllerConnected env 0 else ret []
  end.

Section Controllers.

(** What the controller at an address answers. *)
Variable IsConnected : Z -> bool.
Variable GetInputEvents : Z -> list InputEvent.

Definition live (controller : option Z) : bool :=
  match controller with
  | Some c => IsConnected c
  | None => false
  end.

Fixpoint connected_from (controllers : list (option Z)) : list Z :=
  match controllers with
  | [] => []
  | Some c :: rest =>
      if IsConnected c then c :: connected_from rest
      else connected_from rest
  | None :: rest => connected_from rest
  end.

Definition GetConnectedControllers : Prog t (list Z) :=
  cs <- gets controllers_ ;;
  ret (connected_from cs).

(** [count] is a [uint32_t]. *)
Fixpoint count_from (controllers : list (option Z)) (count : Z) : Z :=
  match controllers with
  | [] => count
  | controller :: rest =>
      count_from rest (if live controller then u32 (count + 1) else count)
  end.

Definition GetControllerCount : Prog t Z :=
  cs <- gets controllers_ ;;
  ret (count_from cs 0).

(** The inner loop of [ProcessControllerEvents]: the events of one
    controller. *)
Fixpoint deliver (events : list InputEvent) : Prog t (list Outcall) :=
  match events with
  | [] => ret []
  | event :: rest =>
      cb <- gets input_event_callback_ ;;
      here <- (if cb then
                 switch_event <- MapPS5ToSwitchInput event ;;
                 ret [InputEventCallback switch_event]
               else ret []) ;;
      later <- deliver rest ;;
      ret (here ++ later)
  end.

(** The outer loop, over the controllers still to be visited. *)
Fixpoint process_from (controllers : list (option Z))
    : Prog t (list Outcall) :=
  match controllers with
  | [] => ret []
  | controller :: rest =>
      here <- match controller with
              | Some c =>
                  if IsConnected c then
                    out <- deliver (GetInputEvents c) ;;
                    ret (Controller_Update c :: out)
                  else ret []
              | None => ret []
              end ;;
      later <- process_from rest ;;
      ret (here ++ later)
  end.

Definition ProcessControllerEvents : Prog t (list Outcall) :=
  cs <- gets controllers_ ;;
  process_from cs.

(** [now_us] is the reading of the clock, in microseconds since its
    epoch. *)
Definition Update (mode : BuildMode) (now_us : Z) (env : ControllerEnv)
    : Prog t (list Outcall) :=
  init <- gets initialized_ ;;
  if negb init then ret [] else
  modify (set_last_update_time (u64 now_us)) ;;
  polled <- PollControllers mode env ;;
  processed <- ProcessControllerEvents ;;
  ret (polled ++ processed).

End Controllers.

Definition SetControllerConnectedCallback (callback : bool) : Prog t unit :=
  modify (set_controller_connected_callback callback).

Definition SetControllerDisconnectedCallback (callback : bool)
    : Prog t unit :=
  modify (set_controller_disconnected_callback callback).

Definition SetInputEventCallback (callback : bool) : Prog t unit :=
  modify (set_input_event_callback callback).

End PS5InputManager.

(** ** Vocabulary of the properties *)

(** The two address ranges [[a, a + n)] and [[b, b + m)] share a byte. *)
Definition overlap (a n b m : Z) : Prop :=
  exists x, a <= x < a + n /\ b <= x < b + m.

(** [o] rounded up to a multiple of [a]. *)
Definition round_up (o a : Z) : Z := (o + a - 1) / a * a.

(** The alignments a [uint32_t] can hold that are powers of two. *)
Definition power_of_two (a : Z) : Prop := exists k, 0 <= k < 32 /\ a = 2 ^ k.

(** The requests [(size, alignment)], served by a bump allocator from
    offset [o] on, keep the offset and its rounding below 4 GiB before
    each request, and below 2^64 after it. *)
Fixpoint below_4GiB (reqs : list (Z * Z)) (o : Z) : Prop :=
  match reqs with
  | [] => True
  | (size, a) :: rest =>
      power_of_two a /\ 0 <= size /\ o + a - 1 < 2 ^ 32 /\
      round_up o a + size < 2 ^ 64 /\
      below_4GiB rest (round_up o a + size)
  end.

(** The ranges [(address, size)] lie one after the other, in order and
    without overlap, between [lo] and [hi]. *)
Fixpoint stacked (lo : Z) (ranges : list (Z * Z)) (hi : Z) : Prop :=
  match ranges with
  | [] => lo <= hi
  | (addr, size) :: rest => lo <= addr /\ stacked (addr + size) rest hi
  end.

(** Every address is a multiple of the alignment it was asked with. *)
Fixpoint all_aligned (reqs : list (Z * Z)) (addrs : list Z) : Prop :=
  match reqs, addrs with
  | (_, a) :: reqs', addr :: addrs' =>
      addr mod a = 0 /\ all_aligned reqs' addrs'
  | [], [] => True
  | _, _ => False
  end.

(** The three flags of the emulation state machine agree in two states. *)
Definition same_flags (a b : PS5Application.t) : Prop :=
  PS5Application.game_loaded_ b = PS5Application.game_loaded_ a /\
  PS5Application.emulation_running_ b = PS5Application.emulation_running_ a /\
  PS5Application.emulation_paused_ b = PS5Application.emulation_paused_ a.

(** The calls on subsystems recorded in a trace, in order. *)
Fixpoint subsystem_calls (tr : list Event) : list (Subsystem * Method) :=
  match tr with
  | [] => []
  | Ext (Sub s m) :: rest => (s, m) :: subsystem_calls rest
  | _ :: rest => subsystem_calls rest
  end.


(** The order of one pass through the main loop, as the design notes give
    it: input, frontend, core (when running and not paused), then
    BeginFrame, core (when running), frontend, EndFrame, Present. *)
Definition frame_calls (running paused : bool) : list (Subsystem * Method) :=
  [(Input, mUpdate); (Frontend, mUpdate)]
  ++ (if running && negb paused then [(Core, mUpdate)] else [])
  ++ [(Renderer, mBeginFrame)]
  ++ (if running then [(Core, mRender)] else [])
  ++ [(Frontend, mRender); (Renderer, mEndFrame); (Renderer, mPresent)].

(** The number of passes the main loop makes: none once shutdown has been
    requested, otherwise one more for as long as no signal has come in. *)
Fixpoint passes (envs : list PS5Application.IterEnv) (stop : bool) : nat :=
  if stop then O else
  match envs with
  | [] => O
  | e :: rest =>
      S (passes rest (match PS5Application.signal e with
                      | Some _ => true
                      | None => false
                      end))
  end.

(** Programs that hand the object back as they found it. *)
Definition keeps_state {St A} (m : Prog St A) : Prop :=
  forall s, state (m s) = s.


(** All five subsystem pointers of the application are set. *)
Definition all_subsystems (a : PS5Application.t) : Prop :=
  PS5Application.renderer_ a = true /\
  PS5Application.audio_manager_ a = true /\
  PS5Application.input_manager_ a = true /\
  PS5Application.frontend_ a = true /\
  PS5Application.eden_core_ a = true.

(** Sample inputs. *)
Definition all_ok : PS5Application.SubsysEnv :=
  PS5Application.mkSubsysEnv true true true true true.

Definition help_argv : list string := ["eden"; "--help"]%string.

(** The renderer fails to initialise. *)
Definition renderer_fails : PS5Application.SubsysEnv :=
  PS5Application.mkSubsysEnv false true true true true.

(** The daemon accepts the connection and answers ["OK"]. *)
Definition daemon_ok : EtaHENPlugin.IpcIO := EtaHENPlugin.mkIpcIO 0 2 "OK".

(** [send] fails. *)
Definition daemon_gone : EtaHENPlugin.IpcIO := EtaHENPlugin.mkIpcIO (-1) 0 "".

(** The globals once the plugin has connected on socket 3 and
    registered. *)
Definition connected_globals : Main.Globals :=
  Main.mkGlobals None
    (Some (state (EtaHENPlugin.Initialize PS5_BUILD
                    (EtaHENPlugin.mkConnIO 3 0) daemon_ok EtaHENPlugin.new)))
    PS5System.static_init.

(** An application that has been initialised and is running a game. *)
Definition running_app : PS5Application.t :=
  state (PS5Application.run_ops
           [PS5Application.OpInitialize ["eden"%string] all_ok;
            PS5Application.OpLoadGame true "game.nsp";
            PS5Application.OpStartEmulation true]
           PS5Application.new).

(** A pass whose work took 6 ms, without a signal. *)
Definition short_pass : PS5Application.IterEnv :=
  PS5Application.mkIterEnv 1000 5000000 6001000 None.

(** An outside world in which the daemon disappears before the jailbreak
    request and the main loop is interrupted during its first pass, which
    took 6 ms. *)
Definition jailbreak_refused_env : Main.MainEnv :=
  Main.mkMainEnv "Jan  1 2025" "00:00:00"
    (EtaHENPlugin.mkConnIO 3 0) daemon_ok 4242 daemon_gone daemon_gone
    all_ok
    (PS5Application.mkRunEnv true true 0
       [PS5Application.mkIterEnv 1000 5000000 6001000 (Some 2)])
    (EtaHENPlugin.mkShutdownIO daemon_gone daemon_gone).

(** *** Observations on traces *)

(** The events of a trace that [f] picks, in order, each as what [f]
    makes of it. *)
Definition observe {B} (f : Event -> option B) (tr : list Event) : list B :=
  flat_map (fun e => match f e with Some b => [b] | None => [] end) tr.

(** Programs that produce no event [f] picks. *)
Definition silent {St A B} (f : Event -> option B) (m : Prog St A) : Prop :=
  forall s, observe f (trace (m s)) = [].

(** Programs that leave the part [f] of the object as they found it. *)
Definition preserves {St A B} (f : St -> B) (m : Prog St A) : Prop :=
  forall s, f (state (m s)) = f s.

(** The calls into collaborators and the operating system. *)
Definition call_of (e : Event) : option Call :=
  match e with
  | Ext c => Some c
  | _ => None
  end.

Definition calls : list Event -> list Call := observe call_of.

(** The calls on the socket layer. *)
Definition socket_call_of (e : Event) : option Call :=
  match e with
  | Ext Sys_socket => Some Sys_socket
  | Ext (Sys_connect fd port) => Some (Sys_connect fd port)
  | Ext (Sys_close fd) => Some (Sys_close fd)
  | Ext (Sys_send fd buf len) => Some (Sys_send fd buf len)
  | Ext (Sys_recv fd len) => Some (Sys_recv fd len)
  | _ => None
  end.

Definition socket_calls : list Event -> list Call := observe socket_call_of.

(** The descriptors passed to [close]. *)
Definition closed_of (e : Event) : option Z :=
  match e with
  | Ext (Sys_close fd) => Some fd
  | _ => None
  end.

Definition closed : list Event -> list Z := observe closed_of.

(** The streams [Stop] was called on. *)
Definition stopped_of (e : Event) : option Z :=
  match e with
  | Ext (Stream_Stop stream) => Some stream
  | _ => None
  end.

Definition stopped : list Event -> list Z := observe stopped_of.

(** Everything that is not a line of log. *)
Definition not_log (e : Event) : option Event :=
  match e with
  | Cout _ | Cerr _ => None
  | _ => Some e
  end.

Definition without_log : list Event -> list Event := observe not_log.

(** *** The renderer *)

(** The renderer holds a wrapper whose GPU memory starts at the base the
    wrapper's constructor sets. *)
Definition has_base (r : PS5Renderer.t) : Prop :=
  exists w, PS5Renderer.gnm_wrapper_ r = Some w /\
            GNMWrapper.gpu_memory_base (GNMWrapper.impl_ w) = 0x100000000.

(** The renderer holds an initialised wrapper. *)
Definition wrapper_up (r : PS5Renderer.t) : bool :=
  match PS5Renderer.gnm_wrapper_ r with
  | Some w => GNMWrapper.initialized_ w
  | None => false
  end.

(** Everything but the frame buffers and the allocator agrees. *)
Definition untouched (r r' : PS5Renderer.t) : Prop :=
  wrapper_up r' = wrapper_up r /\
  PS5Renderer.initialized_ r' = PS5Renderer.initialized_ r /\
  PS5Renderer.command_buffer_ r' = PS5Renderer.command_buffer_ r /\
  PS5Renderer.texture_manager_ r' = PS5Renderer.texture_manager_ r /\
  PS5Renderer.shader_compiler_ r' = PS5Renderer.shader_compiler_ r /\
  PS5Renderer.display_width_ r' = PS5Renderer.display_width_ r /\
  PS5Renderer.display_height_ r' = PS5Renderer.display_height_ r.

(** A frame buffer whose two addresses have been cleared. *)
Definition zero_addrs (fb : PS5Renderer.FrameBuffer)
    : PS5Renderer.FrameBuffer :=
  PS5Renderer.mkFrameBuffer 0 0 (PS5Renderer.width fb)
                            (PS5Renderer.height fb).

(** A renderer that has been initialised in development mode. *)
Definition initialized_renderer : PS5Renderer.t :=
  state (PS5Renderer.Initialize Development
           (PS5Renderer.mkInitEnv 1 true 2 true 3 true)
           (PS5Renderer.new [PS5Renderer.mkFrameBuffer 7 7 7 7;
                             PS5Renderer.mkFrameBuffer 8 8 8 8;
                             PS5Renderer.mkFrameBuffer 9 9 9 9])).

(** One frame, as the main loop drives the renderer. *)
Definition frame (mode : BuildMode) : Prog PS5Renderer.t unit :=
  PS5Renderer.BeginFrame ;; PS5Renderer.EndFrame ;; PS5Renderer.Present mode.

(** *** The plugin *)

(** A member of the plugin that leaves the connection alone: it makes no
    call on the socket layer and changes neither [connected_] nor
    [ipc_socket_]. *)
Definition leaves_connection (m : Prog EtaHENPlugin.t unit) : Prop :=
  forall p,
    socket_calls (trace (m p)) = [] /\
    EtaHENPlugin.connected_ (state (m p)) = EtaHENPlugin.connected_ p /\
    EtaHENPlugin.ipc_socket_ (state (m p)) = EtaHENPlugin.ipc_socket_ p.

(** Not connected, no socket. *)
Definition offline (p : EtaHENPlugin.t) : Prop :=
  EtaHENPlugin.connected_ p = false /\ EtaHENPlugin.ipc_socket_ p = -1.

(** The connection state of the plugin. *)
Definition connection (p : EtaHENPlugin.t) : bool * Z * bool :=
  (EtaHENPlugin.connected_ p, EtaHENPlugin.ipc_socket_ p,
   EtaHENPlugin.initialized_ p).

(** A connected plugin holds a descriptor, and only an initialised
    plugin is connected. *)
Definition connection_inv (p : EtaHENPlugin.t) : Prop :=
  (EtaHENPlugin.connected_ p = true -> 0 <= EtaHENPlugin.ipc_socket_ p) /\
  (EtaHENPlugin.initialized_ p = false -> EtaHENPlugin.connected_ p = false).

Definition is_connect (op : EtaHENPlugin.Op) : bool :=
  match op with
  | EtaHENPlugin.OpConnectToEtaHEN _ => true
  | _ => false
  end.

(** A plugin that has connected on descriptor 3 and registered. *)
Definition connected_plugin : EtaHENPlugin.t :=
  state (EtaHENPlugin.Initialize PS5_BUILD (EtaHENPlugin.mkConnIO 3 0)
           daemon_ok EtaHENPlugin.new).

(** The FTP server was started, then the connection was dropped. *)
Definition dropped_plugin : EtaHENPlugin.t :=
  state ((EtaHENPlugin.StartFTPServer daemon_ok 2121 ;;
          EtaHENPlugin.DisconnectFromEtaHEN) connected_plugin).

(** *** The audio manager *)

(** The two switches of 3D audio. *)
Definition audio_3d (a : PS5AudioManager.t) : bool * bool :=
  (PS5AudioManager.is_3d_audio_available_ a,
   PS5AudioManager.is_3d_audio_enabled_ a).

(** While the manager is not initialised it holds no stream and no
    device; while it is, its default devices are the first output and
    the first input device, and there is one of each. *)
Definition audio_inv (a : PS5AudioManager.t) : Prop :=
  (PS5AudioManager.initialized_ a = false ->
   PS5AudioManager.streams_ a = [] /\
   PS5AudioManager.output_devices_ a = [] /\
   PS5AudioManager.input_devices_ a = [] /\
   PS5AudioManager.default_output_device_ a = None /\
   PS5AudioManager.default_input_device_ a = None) /\
  (PS5AudioManager.initialized_ a = true ->
   PS5AudioManager.default_output_device_ a
     = hd_error (PS5AudioManager.output_devices_ a) /\
   PS5AudioManager.default_input_device_ a
     = hd_error (PS5AudioManager.input_devices_ a) /\
   PS5AudioManager.default_output_device_ a <> None /\
   PS5AudioManager.default_input_device_ a <> None).

(** With PS5_BUILD, 3D audio is enabled only where it is available;
    without, it is neither. *)
Definition audio_3d_inv (mode : BuildMode) (a : PS5AudioManager.t) : Prop :=
  match mode with
  | PS5_BUILD => snd (audio_3d a) = true -> fst (audio_3d a) = true
  | Development => audio_3d a = (false, false)
  end.

(** *** The application *)

(** The subsystems [InitializeSubsystems] gets to, given which of them
    initialise: each one is created and initialised only if all the
    ones before it initialised. *)
Fixpoint attempted (oks : list (Subsystem * bool)) : list Subsystem :=
  match oks with
  | [] => []
  | (s, ok) :: rest => s :: (if ok then attempted rest else [])
  end.

Definition init_order (env : PS5Application.SubsysEnv)
    : list (Subsystem * bool) :=
  [(Renderer, PS5Application.renderer_ok env);
   (Audio, PS5Application.audio_ok env);
   (Input, PS5Application.input_ok env);
   (Frontend, PS5Application.frontend_ok env);
   (Core, PS5Application.core_ok env)].

Definition Subsystem_eqb (s s' : Subsystem) : bool :=
  match s, s' with
  | Renderer, Renderer | Audio, Audio | Input, Input
  | Frontend, Frontend | Core, Core => true
  | _, _ => false
  end.

(** The parts of the application the command line has no say in. *)
Definition held (a : PS5Application.t)
    : bool * bool * bool * bool * bool * bool * bool :=
  (PS5Application.renderer_ a, PS5Application.audio_manager_ a,
   PS5Application.input_manager_ a, PS5Application.frontend_ a,
   PS5Application.eden_core_ a, PS5Application.initialized_ a,
   PS5Application.shutdown_requested_ a).

(** A signal came in during the pass. *)
Definition signalled (e : PS5Application.IterEnv) : bool :=
  match PS5Application.signal e with
  | Some _ => true
  | None => false
  end.

(** The argument asks for the usage text. *)
Definition is_help (arg : string) : bool :=
  ((arg =? "--help") || (arg =? "-h"))%string.

(** *** main *)

(** What is up when [main] returns: the platform layer, the plugin, and
    the application object. *)
Definition up (g : Main.Globals) : bool * bool * option PS5Application.t :=
  (PS5System.initialized_ (Main.ps5_system g),
   EtaHENPlugin.initialized_ (Main.the_plugin g),
   Main.g_ps5_app g).

(** * Properties *)

Ltac unfold_prog :=
  unfold bind, ret, gets, modify, emit, cout, cerr, call, when, zoom, through,
         destroy, result, state, trace in *.

(** ** Sequencing *)

Lemma bind_result {St A B} (m : Prog St A) (k : A -> Prog St B) (s : St) :
  result (bind m k s) = result (k (result (m s)) (state (m s))).
Proof.
  unfold bind, result, state.
  destruct (m s) as [[a s1] t1]. cbn [fst snd].
  destruct (k a s1) as [[b s2] t2]. reflexivity.
Qed.

Lemma bind_state {St A B} (m : Prog St A) (k : A -> Prog St B) (s : St) :
  state (bind m k s) = state (k (result (m s)) (state (m s))).
Proof.
  unfold bind, result, state.
  destruct (m s) as [[a s1] t1]. cbn [fst snd].
  destruct (k a s1) as [[b s2] t2]. reflexivity.
Qed.

Lemma bind_trace {St A B} (m : Prog St A) (k : A -> Prog St B) (s : St) :
  trace (bind m k s) =
    trace (m s) ++ trace (k (result (m s)) (state (m s))).
Proof.
  unfold bind, result, state, trace.
  destruct (m s) as [[a s1] t1]. cbn [fst snd].
  destruct (k a s1) as [[b s2] t2]. reflexivity.
Qed.

Lemma run_eta {St A} (r : A * St * list Event) :
  r = (result r, state r, trace r).
Proof. destruct r as [[a s] t]. reflexivity. Qed.

Lemma keeps_gets {St A} (f : St -> A) : keeps_state (gets f).
Proof. intros s. reflexivity. Qed.

Lemma keeps_ret {St A} (a : A) : keeps_state (@ret St A a).
Proof. intros s. reflexivity. Qed.

Lemma keeps_emit {St} (e : Event) : keeps_state (@emit St e).
Proof. intros s. reflexivity. Qed.

Lemma keeps_call {St} (c : Call) : keeps_state (@call St c).
Proof. intros s. reflexivity. Qed.

Lemma keeps_cout {St} (l : list Frag) : keeps_state (@cout St l).
Proof. intros s. reflexivity. Qed.

Lemma keeps_when {St} (b : bool) (m : Prog St unit) :
  keeps_state m -> keeps_state (when b m).
Proof. intros H s. destruct b; [apply H | reflexivity]. Qed.

Lemma keeps_bind {St A B} (m : Prog St A) (k : A -> Prog St B) :
  keeps_state m -> (forall a, keeps_state (k a)) -> keeps_state (bind m k).
Proof. intros Hm Hk s. rewrite bind_state, Hm. apply Hk. Qed.

Lemma bind_state_keeps {St A B} (m : Prog St A) (k : A -> Prog St B) (s : St) :
  keeps_state m -> state (bind m k s) = state (k (result (m s)) s).
Proof. intros Hm. rewrite bind_state, Hm. reflexivity. Qed.

Ltac keeps :=
  repeat first
    [ apply keeps_gets | apply keeps_ret | apply keeps_emit
    | apply keeps_call | apply keeps_cout
    | apply keeps_when
    | apply keeps_bind; [| intros ?] ].

(** A call that returns at once when its guard says so is idempotent as
    soon as it always leaves the guard set. *)
Lemma guarded_twice {St A} (m : Prog St A) (done : St -> bool) (a : A) :
  (forall s, done s = true -> m s = (a, s, [])) ->
  forall s, done (state (m s)) = true -> result (m s) = a ->
  (m ;; m) s = m s.
Proof.
  intros Hguard s Hdone Hres.
  rewrite (run_eta ((m ;; m) s)), (run_eta (m s)).
  rewrite bind_result, bind_state, bind_trace.
  rewrite (Hguard _ Hdone). unfold result, state, trace. cbn [fst snd].
  rewrite app_nil_r. fold (result (m s)). rewrite Hres. reflexivity.
Qed.

(** ** Sub-objects *)

Lemma zoom_result_eq {St T A} (getf : St -> T) (setf : T -> St -> St)
    (m : Prog T A) (s : St) :
  result (zoom getf setf m s) = result (m (getf s)).
Proof.
  unfold zoom, result. destruct (m (getf s)) as [[a t'] ev]. reflexivity.
Qed.

Lemma zoom_state_eq {St T A} (getf : St -> T) (setf : T -> St -> St)
    (m : Prog T A) (s : St) :
  state (zoom getf setf m s) = setf (state (m (getf s))) s.
Proof.
  unfold zoom, state. destruct (m (getf s)) as [[a t'] ev]. reflexivity.
Qed.

Lemma zoom_trace_eq {St T A} (getf : St -> T) (setf : T -> St -> St)
    (m : Prog T A) (s : St) :
  trace (zoom getf setf m s) = trace (m (getf s)).
Proof.
  unfold zoom, trace. destruct (m (getf s)) as [[a t'] ev]. reflexivity.
Qed.

(** ** Machine integers *)

Lemma u32_range (x : Z) : 0 <= u32 x < 2 ^ 32.
Proof. unfold u32. apply Z.mod_pos_bound. reflexivity. Qed.

Lemma u64_range (x : Z) : 0 <= u64 x < 2 ^ 64.
Proof. unfold u64. apply Z.mod_pos_bound. reflexivity. Qed.

Lemma u32_small (x : Z) : 0 <= x < 2 ^ 32 -> u32 x = x.
Proof. intros H. unfold u32. apply Z.mod_small. exact H. Qed.

Lemma u64_small (x : Z) : 0 <= x < 2 ^ 64 -> u64 x = x.
Proof. intros H. unfold u64. apply Z.mod_small. exact H. Qed.

(** ** The graphics wrapper in development mode *)

Section GNMWrapperFacts.

Import GNMWrapper.

Lemma InitializeDevice_succeeds (mode : BuildMode) (w : t) :
  result (InitializeDevice mode w) = true /\
  device_handle (impl_ (state (InitializeDevice mode w))) = 1 /\
  context_handle (impl_ (state (InitializeDevice mode w))) = 1 /\
  initialized_ (state (InitializeDevice mode w)) = initialized_ w.
Proof. destruct mode; repeat split. Qed.

Lemma CreateCommandQueue_succeeds (mode : BuildMode) (w : t) :
  result (CreateCommandQueue mode w) = true /\
  command_queue_handle (impl_ (state (CreateCommandQueue mode w))) = 1.
Proof. destruct mode; split; reflexivity. Qed.

Lemma Initialize_succeeds (mode : BuildMode) (w : t) :
  result (Initialize mode w) = true /\
  initialized_ (state (Initialize mode w)) = true.
Proof.
  destruct w as [i init]. destruct init, mode; split; reflexivity.
Qed.

(** C7.  Compiled without PS5_BUILD, [InitializeDevice] and
    [CreateCommandQueue] set the device, context and command-queue
    handles to the placeholder 1 and return true, whatever the wrapper
    held before; their only other effect is one line of log.
    [Initialize] therefore always returns true, and [Present] returns
    true for every colour buffer address and every width and height,
    leaving the wrapper as it was. *)
Theorem development_mode_graphics_always_succeed :
  (forall w : GNMWrapper.t,
     GNMWrapper.InitializeDevice Development w =
       (true,
        GNMWrapper.mk
          (GNMWrapper.mkImpl 1 1
             (GNMWrapper.command_queue_handle (GNMWrapper.impl_ w))
             (GNMWrapper.gpu_memory_base (GNMWrapper.impl_ w))
             (GNMWrapper.gpu_memory_offset (GNMWrapper.impl_ w)))
          (GNMWrapper.initialized_ w),
        [Cout [Str "[GNMWrapper] GNM device initialization (development mode)"]])) /\
  (forall w : GNMWrapper.t,
     GNMWrapper.CreateCommandQueue Development w =
       (true,
        GNMWrapper.mk
          (GNMWrapper.mkImpl
             (GNMWrapper.device_handle (GNMWrapper.impl_ w))
             (GNMWrapper.context_handle (GNMWrapper.impl_ w))
             1
             (GNMWrapper.gpu_memory_base (GNMWrapper.impl_ w))
             (GNMWrapper.gpu_memory_offset (GNMWrapper.impl_ w)))
          (GNMWrapper.initialized_ w),
        [Cout [Str "[GNMWrapper] Command queue created (development mode)"]])) /\
  (forall w : GNMWrapper.t,
     result (GNMWrapper.Initialize Development w) = true) /\
  (forall (w : GNMWrapper.t) (color_buffer_addr width height : Z),
     result (GNMWrapper.Present Development color_buffer_addr width height w)
       = true /\
     state (GNMWrapper.Present Development color_buffer_addr width height w)
       = w).
Proof.
  split; [| split; [| split]].
  - intros w. reflexivity.
  - intros w. reflexivity.
  - intros w. apply Initialize_succeeds.
  - intros w a wd ht. split; reflexivity.
Qed.

End GNMWrapperFacts.

(** ** The GPU memory allocator *)

Section AllocatorFacts.

Import GNMWrapper.

(** C1, on the code.  A fresh wrapper creates sixty-five textures of
    4096 x 4096 texels, 64 MiB each.  Sixty-four of them move the offset
    up to 4 GiB.  The sixty-fifth is rounded with a mask that is only 32
    bits wide, so the offset falls back to 0: the call returns the
    address of the first texture again, the two allocations overlap, and
    the offset afterwards is lower than before. *)
Theorem AllocateMemory_reuses_addresses_past_4GiB :
  let before := create_textures 64 4096 4096 new in
  let after := create_textures 65 4096 4096 new in
  nth 0 (result after) 0 = 0x100000000 /\
  nth 64 (result after) 0 = 0x100000000 /\
  overlap (nth 0 (result after) 0) 0x4000000
          (nth 64 (result after) 0) 0x4000000 /\
  gpu_memory_offset (impl_ (state before)) = 0x100000000 /\
  gpu_memory_offset (impl_ (state after)) = 0x4000000.
Proof.
  intros before after.
  assert (H0 : nth 0 (result after) 0 = 0x100000000)
    by (vm_compute; reflexivity).
  assert (H64 : nth 64 (result after) 0 = 0x100000000)
    by (vm_compute; reflexivity).
  split; [exact H0 |]. split; [exact H64 |].
  split.
  - rewrite H0, H64. exists 0x100000000. lia.
  - split; vm_compute; reflexivity.
Qed.

Lemma not32_ones (k : Z) :
  0 <= k < 32 -> not32 (u32 (2 ^ k - 1)) = Z.ldiff (Z.ones 32) (Z.ones k).
Proof.
  intros Hk. unfold not32, u32.
  assert (H2k : 0 < 2 ^ k <= 2 ^ 31).
  { split; [apply Z.pow_pos_nonneg; lia |].
    apply Z.pow_le_mono_r; lia. }
  rewrite (Z.mod_small (2 ^ k - 1)) by lia.
  rewrite <- Z.land_ones by lia.
  rewrite Z.ldiff_land, Z.land_comm.
  rewrite (Z.ones_equiv k). reflexivity.
Qed.

(** The mask keeps bits [k] to 31 and clears all the others. *)
Lemma land_not32_ones (x k : Z) :
  0 <= k < 32 ->
  Z.land x (not32 (u32 (2 ^ k - 1))) = 2 ^ k * ((x mod 2 ^ 32) / 2 ^ k).
Proof.
  intros Hk. rewrite not32_ones by exact Hk.
  rewrite Z.ldiff_land, Z.land_assoc, Z.land_ones by lia.
  rewrite <- Z.ldiff_land, Z.ldiff_ones_r by lia.
  rewrite Z.shiftl_mul_pow2, Z.shiftr_div_pow2 by lia.
  lia.
Qed.

Lemma round_up_bounds (o a : Z) :
  0 < a -> o <= round_up o a < o + a /\ round_up o a mod a = 0.
Proof.
  intros Ha. unfold round_up.
  pose proof (Z.div_mod (o + a - 1) a ltac:(lia)) as Hdm.
  pose proof (Z.mod_pos_bound (o + a - 1) a Ha) as Hm.
  split; [nia |]. apply Z.mod_mul. lia.
Qed.

(** Whatever the offset, the address returned for a power-of-two
    alignment is a multiple of it, as long as the base is. *)
Lemma AllocateMemory_aligned (size k : Z) (i : Impl) :
  0 <= k < 32 ->
  gpu_memory_base i mod 2 ^ k = 0 ->
  result (AllocateMemory size (2 ^ k) i) mod 2 ^ k = 0.
Proof.
  intros Hk Hbase.
  assert (H2k : 0 < 2 ^ k) by (apply Z.pow_pos_nonneg; lia).
  unfold AllocateMemory. unfold_prog. cbn [fst snd].
  rewrite land_not32_ones by exact Hk.
  unfold u64 at 1.
  assert (Hdiv : (2 ^ k | 2 ^ 64)).
  { exists (2 ^ (64 - k)). rewrite <- Z.pow_add_r by lia. f_equal. lia. }
  rewrite (Z.mod_mod_divide _ _ _ Hdiv).
  rewrite Z.mul_comm, Z.mod_add by lia. exact Hbase.
Qed.

(** Below 4 GiB the function is the bump allocator of the design
    notes. *)
Lemma AllocateMemory_below_4GiB (size k : Z) (i : Impl) :
  0 <= k < 32 ->
  gpu_memory_base i = 0x100000000 ->
  0 <= gpu_memory_offset i ->
  gpu_memory_offset i + 2 ^ k - 1 < 2 ^ 32 ->
  0 <= size ->
  round_up (gpu_memory_offset i) (2 ^ k) + size < 2 ^ 64 ->
  AllocateMemory size (2 ^ k) i =
    (0x100000000 + round_up (gpu_memory_offset i) (2 ^ k),
     set_gpu_memory_offset (round_up (gpu_memory_offset i) (2 ^ k) + size) i,
     []).
Proof.
  intros Hk Hbase Ho Hfit Hsize Hend.
  assert (H2k : 0 < 2 ^ k) by (apply Z.pow_pos_nonneg; lia).
  destruct (round_up_bounds (gpu_memory_offset i) (2 ^ k) H2k) as [Hru _].
  unfold AllocateMemory. unfold_prog. cbn [fst snd].
  rewrite land_not32_ones by exact Hk.
  rewrite Hbase.
  assert (Hsum : u64 (u64 (gpu_memory_offset i + 2 ^ k) - 1)
                 = gpu_memory_offset i + 2 ^ k - 1).
  { rewrite (u64_small (gpu_memory_offset i + 2 ^ k)) by lia.
    apply u64_small. lia. }
  rewrite Hsum.
  rewrite (Z.mod_small (gpu_memory_offset i + 2 ^ k - 1)) by lia.
  replace (2 ^ k * ((gpu_memory_offset i + 2 ^ k - 1) / 2 ^ k))
    with (round_up (gpu_memory_offset i) (2 ^ k))
    by (unfold round_up; lia).
  rewrite (u64_small (round_up _ _ + size)) by lia.
  rewrite (u64_small (0x100000000 + _)) by lia.
  reflexivity.
Qed.

(** The claim of C1 in the range where the code meets it: for requests
    that stay below 4 GiB, the offset does not decrease, every address
    is aligned as asked, and the allocations lie one after the other
    without overlap. *)
Lemma allocate_all_below_4GiB (reqs : list (Z * Z)) :
  forall w : t,
    gpu_memory_base (impl_ w) = 0x100000000 ->
    0 <= gpu_memory_offset (impl_ w) ->
    below_4GiB reqs (gpu_memory_offset (impl_ w)) ->
    gpu_memory_base (impl_ (state (allocate_all reqs w))) = 0x100000000 /\
    all_aligned reqs (result (allocate_all reqs w)) /\
    stacked (0x100000000 + gpu_memory_offset (impl_ w))
            (combine (result (allocate_all reqs w)) (map fst reqs))
            (0x100000000
             + gpu_memory_offset (impl_ (state (allocate_all reqs w)))).
Proof.
  induction reqs as [| [size a] rest IH]; intros w Hbase Ho Hfit.
  - cbn [allocate_all ret result state fst snd map combine all_aligned
         stacked].
    split; [exact Hbase |]. split; [exact I | lia].
  - cbn [below_4GiB] in Hfit.
    destruct Hfit as ((k & Hk & ->) & Hsize & Hlow & Hend & Hrest).
    assert (H2k : 0 < 2 ^ k) by (apply Z.pow_pos_nonneg; lia).
    destruct (round_up_bounds (gpu_memory_offset (impl_ w)) (2 ^ k) H2k)
      as [Hru Hmod].
    cbn [allocate_all].
    rewrite bind_result, bind_state. rewrite bind_result, bind_state.
    unfold AllocateGPUMemory, on_impl. rewrite zoom_result_eq, zoom_state_eq.
    rewrite (AllocateMemory_below_4GiB size k (impl_ w) Hk Hbase Ho Hlow
               Hsize Hend).
    cbn [result state fst snd].
    set (w1 := set_impl _ w).
    assert (Ho1 : 0 <= gpu_memory_offset (impl_ w1))
      by (change (0 <= round_up (gpu_memory_offset (impl_ w)) (2 ^ k) + size);
          lia).
    specialize (IH w1 Hbase Ho1 Hrest).
    destruct IH as (Hb & Hal & Hst).
    change (gpu_memory_offset (impl_ w1))
      with (round_up (gpu_memory_offset (impl_ w)) (2 ^ k) + size) in Hst.
    cbn [ret result state fst snd map combine all_aligned stacked].
    split; [exact Hb |]. split; [| split].
    + split; [| exact Hal].
      assert (Hb0 : 0x100000000 mod 2 ^ k = 0).
      { assert (Hp : 0x100000000 = 2 ^ (32 - k) * 2 ^ k).
        { rewrite <- Z.pow_add_r by lia.
          replace (32 - k + k) with 32 by lia. reflexivity. }
        rewrite Hp. apply Z.mod_mul. lia. }
      rewrite Z.add_mod, Hb0, Hmod by lia. reflexivity.
    + lia.
    + rewrite <- Z.add_assoc. exact Hst.
Qed.

End AllocatorFacts.

(** ** Frame management *)

Section FrameFacts.

Import PS5Renderer.

Lemma BeginFrame_state (r : t) :
  current_frame_ (state (BeginFrame r)) = u32 (current_frame_ r + 1) /\
  current_frame_buffer_ (state (BeginFrame r)) =
    u32 (current_frame_ r + 1) mod MAX_FRAME_BUFFERS.
Proof.
  unfold BeginFrame. unfold_prog.
  destruct (is_some (command_buffer_ _)); split; reflexivity.
Qed.

Lemma BeginFrames_succ (n : N) (r : t) :
  BeginFrames (N.succ n) r = state (BeginFrame (BeginFrames n r)).
Proof. unfold BeginFrames. rewrite N.iter_succ. reflexivity. Qed.

(** The counter after [n] frames, for a counter that starts in range. *)
Lemma BeginFrames_current_frame (n : N) (r : t) :
  0 <= current_frame_ r < 2 ^ 32 ->
  current_frame_ (BeginFrames n r) = u32 (current_frame_ r + Z.of_N n).
Proof.
  intros Hr. induction n as [| n IH] using N.peano_ind.
  - cbn [BeginFrames N.iter Z.of_N]. rewrite Z.add_0_r.
    symmetry. apply u32_small. exact Hr.
  - rewrite BeginFrames_succ.
    destruct (BeginFrame_state (BeginFrames n r)) as [Hc _].
    rewrite Hc, IH. unfold u32.
    rewrite N2Z.inj_succ.
    rewrite Zplus_mod_idemp_l. f_equal. lia.
Qed.

Lemma BeginFrames_current_frame_buffer (n : N) (r : t) :
  0 <= current_frame_ r < 2 ^ 32 ->
  current_frame_buffer_ (BeginFrames (N.succ n) r) =
    u32 (current_frame_ r + Z.of_N (N.succ n)) mod MAX_FRAME_BUFFERS.
Proof.
  intros Hr. rewrite BeginFrames_succ.
  destruct (BeginFrame_state (BeginFrames n r)) as [_ Hb].
  rewrite Hb, (BeginFrames_current_frame n r Hr). unfold u32.
  rewrite N2Z.inj_succ, Zplus_mod_idemp_l.
  do 2 f_equal. lia.
Qed.

(** The index is always one of 0, 1, 2. *)
Lemma BeginFrame_index_in_range (r : t) :
  0 <= current_frame_buffer_ (state (BeginFrame r)) < MAX_FRAME_BUFFERS.
Proof.
  destruct (BeginFrame_state r) as [_ Hb]. rewrite Hb.
  apply Z.mod_pos_bound. reflexivity.
Qed.

Lemma BeginFrames_index_in_range (n : N) (r : t) :
  0 <= current_frame_buffer_ r < MAX_FRAME_BUFFERS ->
  0 <= current_frame_buffer_ (BeginFrames n r) < MAX_FRAME_BUFFERS.
Proof.
  intros Hr. induction n as [| n IH] using N.peano_ind.
  - exact Hr.
  - rewrite BeginFrames_succ. apply BeginFrame_index_in_range.
Qed.

(** As long as the counter does not wrap, [BeginFrame] adds one to it
    and moves the index to the next of the three frame buffers. *)
Lemma BeginFrame_cycles_before_wrap (r : t) :
  0 <= current_frame_ r < 2 ^ 32 - 1 ->
  current_frame_buffer_ r = current_frame_ r mod MAX_FRAME_BUFFERS ->
  current_frame_ (state (BeginFrame r)) = current_frame_ r + 1 /\
  current_frame_buffer_ (state (BeginFrame r)) =
    (current_frame_buffer_ r + 1) mod MAX_FRAME_BUFFERS.
Proof.
  intros Hc Hidx. destruct (BeginFrame_state r) as [Hc' Hb'].
  rewrite Hc', Hb', Hidx.
  rewrite (u32_small (current_frame_ r + 1)) by lia.
  split; [reflexivity |].
  rewrite Zplus_mod_idemp_l. reflexivity.
Qed.

(** With a wrapper in place, [Present] ends by presenting the colour
    buffer of the frame buffer at the current index, at the display
    size. *)
Lemma Present_presents_current_frame_buffer (mode : BuildMode) (r : t)
    (w : GNMWrapper.t) :
  gnm_wrapper_ r = Some w ->
  exists pre line,
    trace (Present mode r) =
      pre ++ [GnmPresent
                (color_buffer_addr (frame_buffer_at (current_frame_buffer_ r) r))
                (display_width_ r) (display_height_ r);
              Cout line].
Proof.
  intros Hw. destruct r as [gnm cb tm sc i dw dh cf fbs idx].
  cbn in Hw. subst gnm.
  destruct cb as [cb |], mode.
  - exists [GnmSubmit cb;
            Cout [Str "[GNMWrapper] Submitting command buffer to GPU..."]].
    eexists. reflexivity.
  - exists [GnmSubmit cb;
            Cout [Str "[GNMWrapper] Command buffer submitted (development mode)"]].
    eexists. reflexivity.
  - exists []. eexists. reflexivity.
  - exists []. eexists. reflexivity.
Qed.

Lemma BeginFrame_at_wrap (r : t) :
  current_frame_ r = 4294967295 ->
  current_frame_ (state (BeginFrame r)) = 0 /\
  current_frame_buffer_ (state (BeginFrame r)) = 0.
Proof.
  intros Hc. destruct (BeginFrame_state r) as [Hc' Hb'].
  rewrite Hc in Hc', Hb'. split; [exact Hc' | exact Hb'].
Qed.

(** C2, on the code.  [current_frame_] is a 32-bit counter and 2^32 is
    not a multiple of 3.  After 4294967295 frames on a renderer fresh
    from its constructor the counter is 0xFFFFFFFF and the index is 0;
    the next [BeginFrame] wraps the counter to 0 and the index is 0
    again: two consecutive frames use the same frame buffer. *)
Theorem BeginFrame_repeats_frame_buffer_at_wrap (garbage : list FrameBuffer) :
  current_frame_ (BeginFrames 4294967295 (new garbage)) = 4294967295 /\
  current_frame_buffer_ (BeginFrames 4294967295 (new garbage)) = 0 /\
  current_frame_ (state (BeginFrame (BeginFrames 4294967295 (new garbage))))
    = 0 /\
  current_frame_buffer_
    (state (BeginFrame (BeginFrames 4294967295 (new garbage)))) = 0.
Proof.
  assert (H0 : 0 <= current_frame_ (new garbage) < 2 ^ 32).
  { split; [discriminate | reflexivity]. }
  pose proof (BeginFrames_current_frame 4294967295 _ H0) as Hc.
  pose proof (BeginFrames_current_frame_buffer 4294967294 _ H0) as Hb.
  change (N.succ 4294967294) with 4294967295%N in Hb.
  change (u32 (current_frame_ (new garbage) + Z.of_N 4294967295))
    with 4294967295 in Hc, Hb.
  change (4294967295 mod MAX_FRAME_BUFFERS) with 0 in Hb.
  split; [exact Hc |]. split; [exact Hb |].
  exact (BeginFrame_at_wrap _ Hc).
Qed.

End FrameFacts.

(** ** Command-buffer submission *)

(** C8.  [PS5Renderer::SubmitCommandBuffer] leaves the renderer exactly
    as it was: frame counter, frame-buffer index, frame buffers and the
    wrapper with its allocator offset.  What it produces is what
    [GNMWrapper::SubmitCommandBuffer] produces for the same command
    buffer when the renderer has a wrapper, and nothing otherwise.  The
    wrapper's function never changes the wrapper, returns at once
    without any effect for the null pointer, and otherwise records the
    submission and logs one line. *)
Theorem SubmitCommandBuffer_is_pass_through :
  (forall (mode : BuildMode) (cmd_buffer : option Z) (r : PS5Renderer.t),
     state (PS5Renderer.SubmitCommandBuffer mode cmd_buffer r) = r /\
     trace (PS5Renderer.SubmitCommandBuffer mode cmd_buffer r) =
       match PS5Renderer.gnm_wrapper_ r with
       | Some w => trace (GNMWrapper.SubmitCommandBuffer mode cmd_buffer w)
       | None => []
       end) /\
  (forall (mode : BuildMode) (w : GNMWrapper.t),
     GNMWrapper.SubmitCommandBuffer mode None w = (tt, w, [])) /\
  (forall (mode : BuildMode) (cb : Z) (w : GNMWrapper.t),
     state (GNMWrapper.SubmitCommandBuffer mode (Some cb) w) = w /\
     exists line,
       trace (GNMWrapper.SubmitCommandBuffer mode (Some cb) w) =
         [GnmSubmit cb; Cout line]).
Proof.
  split; [| split].
  - intros mode cb r. destruct r as [gnm c tm sc i dw dh cf fbs idx].
    destruct gnm as [w |], cb as [cb |], mode; split; reflexivity.
  - intros mode w. reflexivity.
  - intros mode cb w. split.
    + destruct mode; reflexivity.
    + destruct mode; eexists; reflexivity.
Qed.

(** ** The emulation state machine *)

Section EmulationFacts.

Import PS5Application.

Ltac flags a :=
  destruct a as [re au inp fe co sd ini gl er ep fps sp cfg gp];
  unfold emulation_inv; cbn [emulation_paused_ emulation_running_ game_loaded_].

Lemma StopEmulation_inv (a : t) :
  emulation_inv a -> emulation_inv (state (StopEmulation a)).
Proof.
  flags a. destruct er, co; cbn; intuition congruence.
Qed.

Lemma UnloadGame_inv (a : t) :
  emulation_inv a -> emulation_inv (state (UnloadGame a)).
Proof.
  flags a. destruct gl, er, co; cbn; intuition congruence.
Qed.

Lemma LoadGame_inv (core_result : bool) (game_path : string) (a : t) :
  emulation_inv a ->
  emulation_inv (state (LoadGame core_result game_path a)).
Proof.
  flags a. destruct co, core_result; cbn; intuition congruence.
Qed.

Lemma StartEmulation_inv (core_result : bool) (a : t) :
  emulation_inv a -> emulation_inv (state (StartEmulation core_result a)).
Proof.
  flags a. destruct gl, er, co, core_result; cbn; intuition congruence.
Qed.

Lemma PauseEmulation_inv (a : t) :
  emulation_inv a -> emulation_inv (state (PauseEmulation a)).
Proof.
  flags a. destruct er, ep; cbn; intuition congruence.
Qed.

Lemma ResumeEmulation_inv (a : t) :
  emulation_inv a -> emulation_inv (state (ResumeEmulation a)).
Proof.
  flags a. destruct er, ep; cbn; intuition congruence.
Qed.

Lemma Shutdown_inv (a : t) :
  emulation_inv a -> emulation_inv (state (Shutdown a)).
Proof.
  flags a.
  destruct ini; [| cbn; intuition congruence].
  destruct gl, er, co, fe, inp, au, re; cbn; intuition congruence.
Qed.

Lemma same_flags_refl (a : t) : same_flags a a.
Proof. repeat split. Qed.

Lemma same_flags_trans (a b c : t) :
  same_flags a b -> same_flags b c -> same_flags a c.
Proof.
  unfold same_flags. intros (H1 & H2 & H3) (H4 & H5 & H6).
  repeat split; congruence.
Qed.

Lemma same_flags_inv (a b : t) :
  same_flags a b -> emulation_inv a -> emulation_inv b.
Proof.
  unfold same_flags, emulation_inv. intros (H1 & H2 & H3) [H4 H5].
  rewrite H1, H2, H3. split; assumption.
Qed.

Lemma ProcessCommandLine_from_flags (argv0 : string) (n : nat) :
  forall (args : list string) (a : t),
    (List.length args <= n)%nat ->
    same_flags a (state (ProcessCommandLine_from argv0 args a)).
Proof.
  induction n as [| n IH]; intros args a Hlen.
  - destruct args; [apply same_flags_refl | cbn in Hlen; lia].
  - destruct args as [| arg rest]; [apply same_flags_refl |].
    cbn [List.length] in Hlen.
    assert (Hrest : forall b, same_flags b
              (state (ProcessCommandLine_from argv0 rest b)))
      by (intros b; apply IH; lia).
    assert (Hskip : forall value rest' b, rest = value :: rest' ->
              same_flags b (state (ProcessCommandLine_from argv0 rest' b))).
    { intros value rest' b ->. apply IH. cbn [List.length] in Hlen. lia. }
    cbn [ProcessCommandLine_from].
    destruct (arg =? "--game")%string, (arg =? "--config")%string,
             rest as [| value rest'];
      try (destruct ((arg =? "--help") || (arg =? "-h"))%string;
           [ repeat rewrite bind_state; apply same_flags_refl
           | apply Hrest ]);
      repeat rewrite bind_state;
      (eapply same_flags_trans;
       [| apply (Hskip value rest' _ eq_refl)]);
      destruct a; repeat split.
Qed.

Lemma InitializeSubsystems_flags (env : SubsysEnv) (a : t) :
  same_flags a (state (InitializeSubsystems env a)).
Proof.
  destruct env as [r au i f c].
  destruct a as [re aud inp fe co sd ini gl er ep fps sp cfg gp].
  destruct re, aud, inp, fe, co, r, au, i, f, c; repeat split.
Qed.

Lemma Initialize_flags (argv : list string) (env : SubsysEnv) (a : t) :
  same_flags a (state (Initialize argv env a)).
Proof.
  unfold Initialize. rewrite bind_state.
  change (result (gets initialized_ a)) with (initialized_ a).
  change (state (gets initialized_ a)) with a.
  destruct (initialized_ a); [apply same_flags_refl |].
  repeat rewrite bind_state.
  change (state (cout [Str "[PS5Application] Initializing application..."] a))
    with a.
  assert (Hp : same_flags a (state (ProcessCommandLine argv a))).
  { destruct argv as [| argv0 args]; [apply same_flags_refl |].
    apply (ProcessCommandLine_from_flags argv0 (List.length args)). lia. }
  destruct (result (ProcessCommandLine argv a)); cbn [negb].
  - repeat rewrite bind_state.
    set (a1 := state (ProcessCommandLine argv a)) in *.
    change (state (LoadSettings a1)) with a1.
    pose proof (InitializeSubsystems_flags env a1) as Hs.
    destruct (result (InitializeSubsystems env a1)); cbn [negb].
    + repeat rewrite bind_state.
      set (a2 := state (InitializeSubsystems env a1)) in *.
      apply (same_flags_trans _ a1 _ Hp).
      apply (same_flags_trans _ a2 _ Hs).
      destruct a2; repeat split.
    + repeat rewrite bind_state.
      apply (same_flags_trans _ a1 _ Hp). exact Hs.
  - repeat rewrite bind_state. exact Hp.
Qed.

Lemma run_op_inv (op : Op) (a : t) :
  emulation_inv a -> emulation_inv (state (run_op op a)).
Proof.
  destruct op as [argv env | r p | | r | | | |]; cbn [run_op].
  - intros H. rewrite bind_state.
    apply (same_flags_inv a); [apply Initialize_flags | exact H].
  - intros H. rewrite bind_state. apply (LoadGame_inv r p a H).
  - apply UnloadGame_inv.
  - apply StartEmulation_inv.
  - apply PauseEmulation_inv.
  - apply ResumeEmulation_inv.
  - apply StopEmulation_inv.
  - apply Shutdown_inv.
Qed.

Lemma run_ops_inv (ops : list Op) :
  forall a : t, emulation_inv a -> emulation_inv (state (run_ops ops a)).
Proof.
  induction ops as [| op rest IH]; intros a H.
  - exact H.
  - cbn [run_ops]. rewrite bind_state. apply IH. apply run_op_inv. exact H.
Qed.

Lemma new_inv : emulation_inv new.
Proof. split; intros H; discriminate H. Qed.

(** C9.  Each of LoadGame, UnloadGame, StartEmulation, PauseEmulation,
    ResumeEmulation, StopEmulation and Shutdown (and Initialize, which
    does not touch the three flags), whatever the subsystems answer,
    takes a state in which paused implies running and running implies
    game-loaded to a state in which both still hold; hence after any
    sequence of these operations on an application fresh from its
    constructor, the application is not paused without running and not
    running without a loaded game. *)
Theorem emulation_state_machine_invariant :
  (forall (op : Op) (a : t),
     emulation_inv a -> emulation_inv (state (run_op op a))) /\
  (forall ops : list Op,
     (emulation_paused_ (state (run_ops ops new)) = true ->
      emulation_running_ (state (run_ops ops new)) = true) /\
     (emulation_running_ (state (run_ops ops new)) = true ->
      game_loaded_ (state (run_ops ops new)) = true)).
Proof.
  split.
  - exact run_op_inv.
  - intros ops. exact (run_ops_inv ops new new_inv).
Qed.

(** A running, paused application with a game loaded; unloading the game
    from there keeps the invariant. *)
Lemma emulation_state_machine_invariant_witness :
  emulation_inv
    (mk true true true true true false true true true true
        (FLit "0.0f") (FLit "1.0f") "/data/eden/config" "game.nsp") /\
  emulation_inv
    (state (run_op OpUnloadGame
       (mk true true true true true false true true true true
           (FLit "0.0f") (FLit "1.0f") "/data/eden/config" "game.nsp"))).
Proof.
  split.
  - split; intros _; reflexivity.
  - apply (proj1 emulation_state_machine_invariant).
    split; intros _; reflexivity.
Defined.

End EmulationFacts.

(** ** Initialize and Shutdown, called twice *)

Section LifecycleFacts.

Lemma GNMWrapper_Initialize_guard (mode : BuildMode) (w : GNMWrapper.t) :
  GNMWrapper.initialized_ w = true ->
  GNMWrapper.Initialize mode w = (true, w, []).
Proof. destruct w as [i init]. cbn. intros ->. reflexivity. Qed.

Lemma GNMWrapper_Shutdown_guard (mode : BuildMode) (w : GNMWrapper.t) :
  negb (GNMWrapper.initialized_ w) = true ->
  GNMWrapper.Shutdown mode w = (tt, w, []).
Proof. destruct w as [i init]. cbn. destruct init; [discriminate | reflexivity]. Qed.

Lemma GNMWrapper_Shutdown_done (mode : BuildMode) (w : GNMWrapper.t) :
  negb (GNMWrapper.initialized_ (state (GNMWrapper.Shutdown mode w))) = true.
Proof.
  unfold GNMWrapper.Shutdown. rewrite bind_state.
  change (result (gets GNMWrapper.initialized_ w))
    with (GNMWrapper.initialized_ w).
  change (state (gets GNMWrapper.initialized_ w)) with w.
  destruct (GNMWrapper.initialized_ w) eqn:Hi; cbn [negb].
  - repeat rewrite bind_state. reflexivity.
  - cbn. rewrite Hi. reflexivity.
Qed.

Lemma PS5AudioManager_Initialize_guard (mode : BuildMode)
    (a : PS5AudioManager.t) :
  PS5AudioManager.initialized_ a = true ->
  PS5AudioManager.Initialize mode a = (true, a, []).
Proof.
  destruct a as [o i s dout din init v m e av]. cbn. intros ->. reflexivity.
Qed.

Lemma PS5AudioManager_Initialize_succeeds (mode : BuildMode)
    (a : PS5AudioManager.t) :
  result (PS5AudioManager.Initialize mode a) = true /\
  PS5AudioManager.initialized_ (state (PS5AudioManager.Initialize mode a))
    = true.
Proof.
  destruct a as [o i s dout din init v m e av].
  destruct init, mode; split; reflexivity.
Qed.

Lemma PS5AudioManager_Shutdown_guard (mode : BuildMode)
    (a : PS5AudioManager.t) :
  negb (PS5AudioManager.initialized_ a) = true ->
  PS5AudioManager.Shutdown mode a = (tt, a, []).
Proof.
  destruct a as [o i s dout din init v m e av]. cbn.
  destruct init; [discriminate | reflexivity].
Qed.

Lemma stop_all_state (streams : list Z) (a : PS5AudioManager.t) :
  state (PS5AudioManager.stop_all streams a) = a.
Proof.
  induction streams as [| x rest IH]; [reflexivity |].
  cbn [PS5AudioManager.stop_all]. rewrite bind_state. exact IH.
Qed.

Lemma PS5AudioManager_Shutdown_done (mode : BuildMode)
    (a : PS5AudioManager.t) :
  negb (PS5AudioManager.initialized_
          (state (PS5AudioManager.Shutdown mode a))) = true.
Proof.
  unfold PS5AudioManager.Shutdown. rewrite bind_state.
  change (result (gets PS5AudioManager.initialized_ a))
    with (PS5AudioManager.initialized_ a).
  change (state (gets PS5AudioManager.initialized_ a)) with a.
  destruct (PS5AudioManager.initialized_ a) eqn:Hi; cbn [negb].
  - repeat rewrite bind_state. reflexivity.
  - cbn. rewrite Hi. reflexivity.
Qed.

Lemma PS5Application_Initialize_guard (argv : list string)
    (env : PS5Application.SubsysEnv) (a : PS5Application.t) :
  PS5Application.initialized_ a = true ->
  PS5Application.Initialize argv env a = (true, a, []).
Proof.
  intros H. unfold PS5Application.Initialize, bind, gets.
  rewrite H. reflexivity.
Qed.

Lemma PS5Application_Initialize_done (argv : list string)
    (env : PS5Application.SubsysEnv) (a : PS5Application.t) :
  result (PS5Application.Initialize argv env a) = true ->
  PS5Application.initialized_ (state (PS5Application.Initialize argv env a))
    = true.
Proof.
  unfold PS5Application.Initialize.
  rewrite bind_result, bind_state.
  change (result (gets PS5Application.initialized_ a))
    with (PS5Application.initialized_ a).
  change (state (gets PS5Application.initialized_ a)) with a.
  destruct (PS5Application.initialized_ a) eqn:Hi; [intros _; exact Hi |].
  repeat rewrite bind_result. repeat rewrite bind_state.
  destruct (result (PS5Application.ProcessCommandLine argv _)); cbn [negb].
  - repeat rewrite bind_result. repeat rewrite bind_state.
    destruct (result (PS5Application.InitializeSubsystems env _)); cbn [negb].
    + intros _. repeat rewrite bind_state. reflexivity.
    + repeat rewrite bind_result. intros H. discriminate H.
  - repeat rewrite bind_result. intros H. discriminate H.
Qed.

Lemma PS5Application_Shutdown_guard (a : PS5Application.t) :
  negb (PS5Application.initialized_ a) = true ->
  PS5Application.Shutdown a = (tt, a, []).
Proof.
  intros H. unfold PS5Application.Shutdown, bind, gets.
  rewrite H. reflexivity.
Qed.

Lemma PS5Application_Shutdown_done (a : PS5Application.t) :
  negb (PS5Application.initialized_ (state (PS5Application.Shutdown a)))
    = true.
Proof.
  destruct a as [re au inp fe co sd ini gl er ep fps sp cfg gp].
  destruct ini; [| reflexivity].
  destruct gl, er, co, fe, inp, au, re; reflexivity.
Qed.

(** C10, as the code has it.  For [GNMWrapper], [PS5AudioManager] and
    [PS5Application]: [Initialize] on an initialised object returns true
    with no effect and no change of state; [Shutdown] on an object that
    is not initialised returns with no effect and no change of state;
    [Shutdown] twice is [Shutdown] once.  [Initialize] twice is
    [Initialize] once for the wrapper and the audio manager, whose
    [Initialize] cannot fail, and for the application whenever the first
    call returned true. *)
Theorem Initialize_Shutdown_twice :
  (forall mode w,
     (GNMWrapper.initialized_ w = true ->
      GNMWrapper.Initialize mode w = (true, w, [])) /\
     (GNMWrapper.initialized_ w = false ->
      GNMWrapper.Shutdown mode w = (tt, w, [])) /\
     (GNMWrapper.Initialize mode ;; GNMWrapper.Initialize mode) w =
       GNMWrapper.Initialize mode w /\
     (GNMWrapper.Shutdown mode ;; GNMWrapper.Shutdown mode) w =
       GNMWrapper.Shutdown mode w) /\
  (forall mode a,
     (PS5AudioManager.initialized_ a = true ->
      PS5AudioManager.Initialize mode a = (true, a, [])) /\
     (PS5AudioManager.initialized_ a = false ->
      PS5AudioManager.Shutdown mode a = (tt, a, [])) /\
     (PS5AudioManager.Initialize mode ;; PS5AudioManager.Initialize mode) a =
       PS5AudioManager.Initialize mode a /\
     (PS5AudioManager.Shutdown mode ;; PS5AudioManager.Shutdown mode) a =
       PS5AudioManager.Shutdown mode a) /\
  (forall argv env a,
     (PS5Application.initialized_ a = true ->
      PS5Application.Initialize argv env a = (true, a, [])) /\
     (PS5Application.initialized_ a = false ->
      PS5Application.Shutdown a = (tt, a, [])) /\
     (result (PS5Application.Initialize argv env a) = true ->
      (PS5Application.Initialize argv env ;;
       PS5Application.Initialize argv env) a =
        PS5Application.Initialize argv env a) /\
     (PS5Application.Shutdown ;; PS5Application.Shutdown) a =
       PS5Application.Shutdown a).
Proof.
  split; [| split].
  - intros mode w. split; [| split; [| split]].
    + apply GNMWrapper_Initialize_guard.
    + intros H. apply GNMWrapper_Shutdown_guard. rewrite H. reflexivity.
    + apply (guarded_twice _ GNMWrapper.initialized_ true).
      * intros s. apply GNMWrapper_Initialize_guard.
      * apply Initialize_succeeds.
      * apply Initialize_succeeds.
    + apply (guarded_twice _ (fun s => negb (GNMWrapper.initialized_ s)) tt).
      * intros s. apply GNMWrapper_Shutdown_guard.
      * apply GNMWrapper_Shutdown_done.
      * destruct (result _). reflexivity.
  - intros mode a. split; [| split; [| split]].
    + apply PS5AudioManager_Initialize_guard.
    + intros H. apply PS5AudioManager_Shutdown_guard. rewrite H. reflexivity.
    + apply (guarded_twice _ PS5AudioManager.initialized_ true).
      * intros s. apply PS5AudioManager_Initialize_guard.
      * apply PS5AudioManager_Initialize_succeeds.
      * apply PS5AudioManager_Initialize_succeeds.
    + apply (guarded_twice _
               (fun s => negb (PS5AudioManager.initialized_ s)) tt).
      * intros s. apply PS5AudioManager_Shutdown_guard.
      * apply PS5AudioManager_Shutdown_done.
      * destruct (result _). reflexivity.
  - intros argv env a. split; [| split; [| split]].
    + apply PS5Application_Initialize_guard.
    + intros H. apply PS5Application_Shutdown_guard. rewrite H. reflexivity.
    + intros Hres.
      apply (guarded_twice _ PS5Application.initialized_ true).
      * intros s. apply PS5Application_Initialize_guard.
      * apply PS5Application_Initialize_done. exact Hres.
      * exact Hres.
    + apply (guarded_twice _
               (fun s => negb (PS5Application.initialized_ s)) tt).
      * intros s. apply PS5Application_Shutdown_guard.
      * apply PS5Application_Shutdown_done.
      * destruct (result _). reflexivity.
Qed.

Lemma Initialize_Shutdown_twice_witness :
  result (PS5Application.Initialize ["eden"%string] all_ok
            PS5Application.new) = true /\
  (PS5Application.Initialize ["eden"%string] all_ok ;;
   PS5Application.Initialize ["eden"%string] all_ok) PS5Application.new =
    PS5Application.Initialize ["eden"%string] all_ok PS5Application.new.
Proof.
  split; [reflexivity |].
  apply (proj2 (proj2 Initialize_Shutdown_twice)
           ["eden"%string] all_ok PS5Application.new).
  reflexivity.
Defined.

(** C10, as stated, fails for the application.  With [--help] on the
    command line [Initialize] prints the usage and returns false, leaving
    [initialized_] false; a second [Initialize] does not return at once:
    it processes the command line again, prints the same lines again and
    returns false again.  The two calls together are not one call.
    Likewise after a renderer that failed to initialise: the second call
    builds the subsystems again and, if they now succeed, returns true
    and leaves the application initialised, which the first call alone
    did not. *)
Lemma PS5Application_Initialize_twice_is_not_once :
  result (PS5Application.Initialize ["eden"%string] renderer_fails
            PS5Application.new) = false /\
  result ((PS5Application.Initialize ["eden"%string] renderer_fails ;;
           PS5Application.Initialize ["eden"%string] all_ok)
            PS5Application.new) = true /\
  PS5Application.initialized_
    (state (PS5Application.Initialize ["eden"%string] renderer_fails
              PS5Application.new)) = false /\
  PS5Application.initialized_
    (state ((PS5Application.Initialize ["eden"%string] renderer_fails ;;
             PS5Application.Initialize ["eden"%string] all_ok)
              PS5Application.new)) = true /\
  result (PS5Application.Initialize help_argv all_ok
            (state (PS5Application.Initialize help_argv all_ok
                      PS5Application.new))) = false /\
  trace (PS5Application.Initialize help_argv all_ok
           (state (PS5Application.Initialize help_argv all_ok
                     PS5Application.new))) =
    trace (PS5Application.Initialize help_argv all_ok PS5Application.new) /\
  List.length
    (trace (PS5Application.Initialize help_argv all_ok PS5Application.new))
    = 8%nat /\
  (PS5Application.Initialize help_argv all_ok ;;
   PS5Application.Initialize help_argv all_ok) PS5Application.new <>
    PS5Application.Initialize help_argv all_ok PS5Application.new.
Proof.
  do 7 (split; [reflexivity |]).
  intros H.
  apply (f_equal (fun r => List.length (trace r))) in H.
  vm_compute in H. discriminate H.
Qed.

End LifecycleFacts.

(** ** The command channel to etaHEN *)

Section IpcFacts.

Import EtaHENPlugin.

Lemma c_str_terminated (s : string) :
  c_str (s ++ String Ascii.zero EmptyString) = c_str s.
Proof.
  induction s as [| c s IH]; cbn.
  - reflexivity.
  - destruct (Ascii.eqb c Ascii.zero); [reflexivity | rewrite IH; reflexivity].
Qed.

Lemma append_length (s1 s2 : string) :
  String.length (s1 ++ s2) = (String.length s1 + String.length s2)%nat.
Proof.
  induction s1 as [| c s1 IH]; cbn; [reflexivity | rewrite IH; reflexivity].
Qed.

(** C3, as the code has it.  [SendIPCCommand] never changes the plugin.
    With the socket at -1 it returns false and touches neither the
    socket nor [response].  Otherwise it passes to [send] the characters
    of the command and nothing else, with their number as the length
    argument.  If [send] returns a negative value it logs and returns
    false without receiving.  Otherwise it calls [recv] exactly once, for
    at most 1023 bytes; a negative result is logged and gives false; any
    other result gives true, with [response] the received bytes up to
    the first NUL. *)
Theorem SendIPCCommand_request_response
    (io : IpcIO) (command response : string) (p : t) :
  state (SendIPCCommand io command response p) = p /\
  (ipc_socket_ p = -1 ->
   result (SendIPCCommand io command response p) = (false, response) /\
   trace (SendIPCCommand io command response p) = []) /\
  (ipc_socket_ p <> -1 ->
   exists rest,
     trace (SendIPCCommand io command response p) =
       Ext (Sys_send (ipc_socket_ p) command
                     (Z.of_nat (String.length command))) :: rest /\
     (send_ret io < 0 ->
      result (SendIPCCommand io command response p) = (false, response) /\
      rest = [Cout [Str "[EtaHENPlugin] Failed to send IPC command"]]) /\
     (0 <= send_ret io -> recv_ret io < 0 ->
      result (SendIPCCommand io command response p) = (false, response) /\
      rest = [Ext (Sys_recv (ipc_socket_ p) 1023);
              Cout [Str "[EtaHENPlugin] Failed to receive IPC response"]]) /\
     (0 <= send_ret io -> 0 <= recv_ret io ->
      result (SendIPCCommand io command response p) =
        (true,
         c_str (String.substring 0 (Z.to_nat (recv_ret io)) (recv_buf io))) /\
      rest = [Ext (Sys_recv (ipc_socket_ p) 1023)])).
Proof.
  unfold SendIPCCommand. unfold_prog. cbn [fst snd].
  destruct (Z.eqb_spec (ipc_socket_ p) (-1)) as [Hfd | Hfd].
  - cbn. split; [reflexivity |]. split; [intros _; split; reflexivity |].
    intros H. contradiction.
  - destruct (Z.ltb_spec (send_ret io) 0) as [Hs | Hs].
    + cbn. split; [reflexivity |]. split; [intros H; contradiction |].
      intros _. eexists. split; [reflexivity |].
      split; [intros _; split; reflexivity |].
      split; intros H; lia.
    + destruct (Z.ltb_spec (recv_ret io) 0) as [Hr | Hr].
      * cbn. split; [reflexivity |]. split; [intros H; contradiction |].
        intros _. eexists. split; [reflexivity |].
        split; [intros H; lia |].
        split; [intros _ _; split; reflexivity | intros _ H; lia].
      * cbn. split; [reflexivity |]. split; [intros H; contradiction |].
        intros _. eexists. split; [reflexivity |].
        split; [intros H; lia |].
        split; [intros _ H; lia |].
        intros _ _. rewrite c_str_terminated. split; reflexivity.
Qed.

(** The daemon answers ["1.0.0"] to ["GET_VERSION"] on socket 3. *)
Lemma SendIPCCommand_request_response_witness :
  ipc_socket_ (set_ipc_socket 3 new) <> -1 /\
  0 <= send_ret (mkIpcIO 11 5 "1.0.0") /\
  0 <= recv_ret (mkIpcIO 11 5 "1.0.0") /\
  result (SendIPCCommand (mkIpcIO 11 5 "1.0.0") "GET_VERSION" ""
            (set_ipc_socket 3 new)) = (true, "1.0.0"%string).
Proof.
  assert (Hfd : ipc_socket_ (set_ipc_socket 3 new) <> -1)
    by (cbn; discriminate).
  assert (Hs : 0 <= send_ret (mkIpcIO 11 5 "1.0.0")) by (cbn; lia).
  assert (Hr : 0 <= recv_ret (mkIpcIO 11 5 "1.0.0")) by (cbn; lia).
  split; [exact Hfd |]. split; [exact Hs |]. split; [exact Hr |].
  destruct (SendIPCCommand_request_response
              (mkIpcIO 11 5 "1.0.0") "GET_VERSION" "" (set_ipc_socket 3 new))
    as (_ & _ & H).
  destruct (H Hfd) as (rest & _ & _ & _ & Hok).
  exact (proj1 (Hok Hs Hr)).
Defined.

(** C3, as stated, fails: nothing is put in front of the command.  For
    ["GET_VERSION"] on socket 3 the only [send] carries the eleven
    characters of the command; no [send] in the trace carries a
    non-empty header followed by the command. *)
Lemma SendIPCCommand_sends_no_length_prefix :
  trace (SendIPCCommand (mkIpcIO 11 5 "1.0.0") "GET_VERSION" ""
           (set_ipc_socket 3 new)) =
    [Ext (Sys_send 3 "GET_VERSION" 11); Ext (Sys_recv 3 1023)] /\
  ~ (exists (header : string) (len : Z),
       header <> EmptyString /\
       In (Ext (Sys_send 3 (header ++ "GET_VERSION") len))
          (trace (SendIPCCommand (mkIpcIO 11 5 "1.0.0") "GET_VERSION" ""
                    (set_ipc_socket 3 new)))).
Proof.
  split; [reflexivity |].
  intros (header & len & Hne & Hin).
  change (trace _) with
    [Ext (Sys_send 3 "GET_VERSION" 11); Ext (Sys_recv 3 1023)] in Hin.
  destruct Hin as [H | [H | []]]; [| discriminate H].
  injection H as Hbuf _.
  apply (f_equal String.length) in Hbuf.
  rewrite append_length in Hbuf. cbn in Hbuf.
  destruct header as [| c h]; [apply Hne; reflexivity | cbn in Hbuf; lia].
Qed.

End IpcFacts.

(** ** Running programs step by step *)

Lemma result_gets {St A} (f : St -> A) (s : St) : result (gets f s) = f s.
Proof. reflexivity. Qed.
Lemma state_gets {St A} (f : St -> A) (s : St) : state (gets f s) = s.
Proof. reflexivity. Qed.
Lemma state_modify {St} (f : St -> St) (s : St) : state (modify f s) = f s.
Proof. reflexivity. Qed.
Lemma result_ret {St A} (a : A) (s : St) : result (ret a s) = a.
Proof. reflexivity. Qed.
Lemma state_ret {St A} (a : A) (s : St) : state (ret a s) = s.
Proof. reflexivity. Qed.
Lemma state_cout {St} (l : list Frag) (s : St) : state (cout l s) = s.
Proof. reflexivity. Qed.
Lemma state_cerr {St} (l : list Frag) (s : St) : state (cerr l s) = s.
Proof. reflexivity. Qed.
Lemma state_call {St} (c : Call) (s : St) : state (call c s) = s.
Proof. reflexivity. Qed.
Lemma state_emit {St} (e : Event) (s : St) : state (emit e s) = s.
Proof. reflexivity. Qed.
Lemma trace_gets {St A} (f : St -> A) (s : St) : trace (gets f s) = [].
Proof. reflexivity. Qed.
Lemma trace_modify {St} (f : St -> St) (s : St) : trace (modify f s) = [].
Proof. reflexivity. Qed.
Lemma trace_ret {St A} (a : A) (s : St) : trace (ret a s) = [].
Proof. reflexivity. Qed.
Lemma trace_cout {St} (l : list Frag) (s : St) :
  trace (cout l s) = [Cout l].
Proof. reflexivity. Qed.
Lemma trace_cerr {St} (l : list Frag) (s : St) :
  trace (cerr l s) = [Cerr l].
Proof. reflexivity. Qed.
Lemma trace_call {St} (c : Call) (s : St) : trace (call c s) = [Ext c].
Proof. reflexivity. Qed.
Lemma trace_emit {St} (e : Event) (s : St) : trace (emit e s) = [e].
Proof. reflexivity. Qed.

Ltac run :=
  repeat first
    [ rewrite bind_result | rewrite bind_state | rewrite bind_trace
    | rewrite result_gets | rewrite state_gets | rewrite state_modify
    | rewrite result_ret | rewrite state_ret | rewrite state_cout
    | rewrite state_cerr | rewrite state_call | rewrite state_emit
    | rewrite trace_gets | rewrite trace_modify | rewrite trace_ret
    | rewrite trace_cout | rewrite trace_cerr | rewrite trace_call
    | rewrite trace_emit
    | progress cbv beta ].

Lemma result_destroy {St T} (dtor : Prog T unit) (old : option T) (s : St) :
  result (destroy dtor old s) = tt.
Proof. destruct (result _). reflexivity. Qed.

Lemma state_destroy {St T} (dtor : Prog T unit) (old : option T) (s : St) :
  state (destroy dtor old s) = s.
Proof.
  unfold destroy. destruct old as [x |]; [| reflexivity].
  destruct (dtor x) as [[u x'] ev]. reflexivity.
Qed.


(** ** Programs that leave a part of the object alone *)

Lemma preserves_gets {St A B} (f : St -> B) (g : St -> A) :
  preserves f (gets g).
Proof. intros s. reflexivity. Qed.

Lemma preserves_ret {St A B} (f : St -> B) (a : A) : preserves f (@ret St A a).
Proof. intros s. reflexivity. Qed.

Lemma preserves_emit {St B} (f : St -> B) (e : Event) :
  preserves f (@emit St e).
Proof. intros s. reflexivity. Qed.

Lemma preserves_cout {St B} (f : St -> B) (l : list Frag) :
  preserves f (@cout St l).
Proof. intros s. reflexivity. Qed.

Lemma preserves_call {St B} (f : St -> B) (c : Call) :
  preserves f (@call St c).
Proof. intros s. reflexivity. Qed.

Lemma preserves_modify {St B} (f : St -> B) (g : St -> St) :
  (forall s, f (g s) = f s) -> preserves f (modify g).
Proof. intros H s. apply H. Qed.

Lemma preserves_bind {St A B C} (f : St -> C) (m : Prog St A)
    (k : A -> Prog St B) :
  preserves f m -> (forall a, preserves f (k a)) -> preserves f (bind m k).
Proof. intros Hm Hk s. rewrite bind_state, Hk, Hm. reflexivity. Qed.

Lemma preserves_when {St B} (f : St -> B) (b : bool) (m : Prog St unit) :
  preserves f m -> preserves f (when b m).
Proof. intros H. destruct b; [exact H | apply preserves_ret]. Qed.

Lemma preserves_if {St A B} (f : St -> B) (b : bool) (m1 m2 : Prog St A) :
  preserves f m1 -> preserves f m2 -> preserves f (if b then m1 else m2).
Proof. intros H1 H2. destruct b; assumption. Qed.

Ltac preserves :=
  repeat first
    [ apply preserves_gets | apply preserves_ret | apply preserves_emit
    | apply preserves_cout | apply preserves_call
    | apply preserves_when | apply preserves_if
    | apply preserves_modify; intros []; reflexivity
    | apply preserves_bind; [| intros ?] ].

(** ** Observations on traces *)

Lemma observe_app {B} (f : Event -> option B) (t1 t2 : list Event) :
  observe f (t1 ++ t2) = observe f t1 ++ observe f t2.
Proof. unfold observe. apply flat_map_app. Qed.

Lemma silent_gets {St A B} (f : Event -> option B) (g : St -> A) :
  silent f (gets g).
Proof. intros s. reflexivity. Qed.

Lemma silent_ret {St A B} (f : Event -> option B) (a : A) :
  silent f (@ret St A a).
Proof. intros s. reflexivity. Qed.

Lemma silent_modify {St B} (f : Event -> option B) (g : St -> St) :
  silent f (modify g).
Proof. intros s. reflexivity. Qed.

Lemma silent_cout {St B} (f : Event -> option B) (l : list Frag) :
  f (Cout l) = None -> silent f (@cout St l).
Proof. intros H s. unfold observe. cbn. rewrite H. reflexivity. Qed.

Lemma silent_call {St B} (f : Event -> option B) (c : Call) :
  f (Ext c) = None -> silent f (@call St c).
Proof. intros H s. unfold observe. cbn. rewrite H. reflexivity. Qed.

Lemma silent_bind {St A B C} (f : Event -> option C) (m : Prog St A)
    (k : A -> Prog St B) :
  silent f m -> (forall a, silent f (k a)) -> silent f (bind m k).
Proof.
  intros Hm Hk s. rewrite bind_trace, observe_app, Hm, Hk. reflexivity.
Qed.

Lemma silent_when {St B} (f : Event -> option B) (b : bool)
    (m : Prog St unit) :
  silent f m -> silent f (when b m).
Proof. intros H. destruct b; [exact H | apply silent_ret]. Qed.

Lemma silent_if {St A B} (f : Event -> option B) (b : bool)
    (m1 m2 : Prog St A) :
  silent f m1 -> silent f m2 -> silent f (if b then m1 else m2).
Proof. intros H1 H2. destruct b; assumption. Qed.

Ltac silent :=
  repeat first
    [ apply silent_gets | apply silent_ret | apply silent_modify
    | apply silent_cout; reflexivity | apply silent_call; reflexivity
    | apply silent_when | apply silent_if
    | apply silent_bind; [| intros ?] ].

(** ** Failures of the etaHEN integration *)

Section MainFacts.

Import Main.

Variable mode : BuildMode.
Variable StopKlogServer : Prog EtaHENPlugin.t unit.
Variable DisablePS5Debug : Prog EtaHENPlugin.t unit.

Ltac unit_result :=
  match goal with
  | |- (?u, _, _) = (tt, _, _) => destruct u
  end.

Lemma through_some {St T A} (getf : St -> option T)
    (setf : option T -> St -> St) (m : Prog T A) (dflt : Prog St A)
    (s : St) (t : T) :
  getf s = Some t ->
  through getf setf m dflt s =
    (result (m t), setf (Some (state (m t))) s, trace (m t)).
Proof.
  intros H. unfold through. rewrite H.
  destruct (m t) as [[a t'] ev]. reflexivity.
Qed.

Lemma on_app_some {A} (m : Prog PS5Application.t A) (dflt : Prog Globals A)
    (g : Globals) (a : PS5Application.t) :
  g_ps5_app g = Some a ->
  on_app m dflt g
  = (result (m a), set_app (Some (state (m a))) g, trace (m a)).
Proof. intros H. unfold on_app. apply through_some. exact H. Qed.

Lemma on_etahen_run {A} (m : Prog EtaHENPlugin.t A) (g : Globals) :
  on_etahen m g
  = (result (m (the_plugin g)),
     set_plugin (Some (state (m (the_plugin g)))) g,
     trace (m (the_plugin g))).
Proof.
  unfold on_etahen, zoom. destruct (m (the_plugin g)) as [[a p] ev].
  reflexivity.
Qed.

Lemma on_system_run {A} (m : Prog PS5System.t A) (g : Globals) :
  on_system m g
  = (result (m (ps5_system g)), set_system (state (m (ps5_system g))) g,
     trace (m (ps5_system g))).
Proof.
  unfold on_system, zoom. destruct (m (ps5_system g)) as [[a p] ev].
  reflexivity.
Qed.

Lemma EtaHENPlugin_Initialize_succeeds (conn : EtaHENPlugin.ConnIO)
    (reg : EtaHENPlugin.IpcIO) (p : EtaHENPlugin.t) :
  result (EtaHENPlugin.Initialize mode conn reg p) = true /\
  EtaHENPlugin.initialized_ (state (EtaHENPlugin.Initialize mode conn reg p))
    = true.
Proof.
  unfold EtaHENPlugin.Initialize.
  rewrite bind_result, bind_state.
  change (result (gets EtaHENPlugin.initialized_ p))
    with (EtaHENPlugin.initialized_ p).
  change (state (gets EtaHENPlugin.initialized_ p)) with p.
  destruct (EtaHENPlugin.initialized_ p) eqn:Hi; [split; [reflexivity | exact Hi] |].
  rewrite bind_result, bind_state.
  rewrite bind_result, bind_state.
  assert (Hipc : forall q, result (EtaHENPlugin.InitializeIPC mode q) = true)
    by (intros q; destruct mode; reflexivity).
  rewrite Hipc. cbn [negb].
  repeat rewrite bind_result. repeat rewrite bind_state.
  split; reflexivity.
Qed.

Lemma PS5System_Initialize_succeeds (s : PS5System.t) :
  result (PS5System.Initialize mode s) = true.
Proof. destruct s as [i e h]. destruct i, mode; reflexivity. Qed.

Lemma SendIPCCommand_keeps (io : EtaHENPlugin.IpcIO)
    (command response : string) :
  keeps_state (EtaHENPlugin.SendIPCCommand io command response).
Proof.
  unfold EtaHENPlugin.SendIPCCommand.
  apply keeps_bind; [apply keeps_gets | intros fd].
  destruct (fd =? -1); [apply keeps_ret |].
  apply keeps_bind; [apply keeps_call | intros _].
  destruct (EtaHENPlugin.send_ret io <? 0); [keeps |].
  apply keeps_bind; [apply keeps_call | intros _].
  destruct (EtaHENPlugin.recv_ret io <? 0); keeps.
Qed.

Lemma RequestJailbreak_keeps (io : EtaHENPlugin.IpcIO) (own_pid pid : Z) :
  keeps_state (EtaHENPlugin.RequestJailbreak io own_pid pid).
Proof.
  unfold EtaHENPlugin.RequestJailbreak.
  apply keeps_bind; [apply keeps_gets | intros c].
  destruct (negb c); [keeps |].
  apply keeps_bind; [destruct (pid =? -1); keeps | intros pid'].
  apply keeps_bind; [apply keeps_cout | intros _].
  apply keeps_bind; [apply SendIPCCommand_keeps | intros r].
  destruct (fst r); keeps.
Qed.

Lemma EnableDataAccess_keeps (io : EtaHENPlugin.IpcIO) :
  keeps_state (EtaHENPlugin.EnableDataAccess io).
Proof.
  unfold EtaHENPlugin.EnableDataAccess.
  apply keeps_bind; [apply keeps_gets | intros c].
  destruct (negb c); [keeps |].
  apply keeps_bind; [apply keeps_cout | intros _].
  apply keeps_bind; [apply SendIPCCommand_keeps | intros r].
  apply keeps_ret.
Qed.

Ltac plugin_cbn :=
  cbn [fst snd app negb andb orb ret emit
       EtaHENPlugin.initialized_ EtaHENPlugin.etahen_available_
       EtaHENPlugin.connected_ EtaHENPlugin.registered_
       EtaHENPlugin.plugin_name_ EtaHENPlugin.plugin_version_
       EtaHENPlugin.ipc_socket_ EtaHENPlugin.etahen_port_
       EtaHENPlugin.ftp_server_running_ EtaHENPlugin.klog_server_running_
       EtaHENPlugin.ps5_debug_enabled_ EtaHENPlugin.cheats_enabled_
       EtaHENPlugin.status_callback_ EtaHENPlugin.message_callback_
       EtaHENPlugin.set_initialized EtaHENPlugin.set_etahen_available
       EtaHENPlugin.set_connected EtaHENPlugin.set_registered
       EtaHENPlugin.set_plugin EtaHENPlugin.set_ipc_socket
       EtaHENPlugin.set_ftp_server_running
       EtaHENPlugin.socket_ret EtaHENPlugin.connect_ret
       EtaHENPlugin.send_ret EtaHENPlugin.recv_ret EtaHENPlugin.recv_buf].

(** [EtaHENPlugin::Initialize] on a plugin that is not initialised, in
    terms of the connection and the registration it attempts. *)
Lemma EtaHENPlugin_Initialize_run (conn : EtaHENPlugin.ConnIO)
    (reg : EtaHENPlugin.IpcIO) (p : EtaHENPlugin.t) :
  EtaHENPlugin.initialized_ p = false ->
  let c := EtaHENPlugin.ConnectToEtaHEN mode conn p in
  let p1 := EtaHENPlugin.set_etahen_available (result c) (state c) in
  let r := EtaHENPlugin.RegisterWithEtaHEN reg
             (EtaHENPlugin.plugin_name_ p1) (EtaHENPlugin.plugin_version_ p1)
             p1 in
  EtaHENPlugin.Initialize mode conn reg p
  = (true,
     EtaHENPlugin.set_initialized true (if result c then state r else p1),
     Cout [Str "[EtaHENPlugin] Initializing etaHEN integration..."]
     :: trace (EtaHENPlugin.InitializeIPC mode p) ++ trace c
     ++ (if result c then
           trace r
           ++ [Cout [Str (if result r
                          then "[EtaHENPlugin] Successfully registered with etaHEN"
                          else "[EtaHENPlugin] Failed to register with etaHEN, but continuing...")]]
         else
           [Cout [Str "[EtaHENPlugin] etaHEN not detected, running in standalone mode"]])
     ++ [Cout [Str "[EtaHENPlugin] etaHEN integration initialized"];
         Cout [Str "[EtaHENPlugin] etaHEN Available: ";
               Str (if result c then "Yes" else "No")]]).
Proof.
  intros Hinit c p1 r. subst r p1 c.
  destruct p as [init avail con regd name ver sock port ftp klog dbg
                 cheats scb mcb].
  cbn in Hinit. subst init.
  destruct conn as [s c]. destruct reg as [sr rr rb].
  destruct mode.
  - unfold EtaHENPlugin.Initialize, EtaHENPlugin.InitializeIPC,
      EtaHENPlugin.ConnectToEtaHEN, EtaHENPlugin.RegisterWithEtaHEN,
      EtaHENPlugin.SendIPCCommand.
    unfold_prog. unfold emit. plugin_cbn.
    destruct (s <? 0); plugin_cbn; [reflexivity |].
    destruct (c <? 0); plugin_cbn; [reflexivity |].
    destruct scb; plugin_cbn;
      (destruct (s =? -1); plugin_cbn; [reflexivity |]);
      (destruct (sr <? 0); plugin_cbn; [reflexivity |]);
      destruct (rr <? 0); plugin_cbn; reflexivity.
  - reflexivity.
Qed.

(** What [main] does once [etahen.Initialize()] has returned: nothing
    but logging and the two requests. *)
Lemma main_after_etahen_init_run (ok : bool) (env : MainEnv) (g : Globals) :
  let p := the_plugin g in
  let jb := EtaHENPlugin.RequestJailbreak (jailbreak_io env) (own_pid env)
              (-1) p in
  main_after_etahen_init ok env g
  = (tt, set_plugin (Some p) g,
     (if ok then []
      else [Cout [Str "[Main] Warning: etaHEN integration failed, continuing anyway..."]])
     ++ (if EtaHENPlugin.etahen_available_ p then
           Cout [Str "[Main] etaHEN detected - requesting jailbreak..."]
           :: trace jb
           ++ (if result jb then
                 Cout [Str "[Main] Jailbreak successful!"]
                 :: trace (EtaHENPlugin.EnableDataAccess (data_access_io env)
                                                         p)
               else
                 [Cout [Str "[Main] Warning: Jailbreak failed, limited functionality"]])
         else
           [Cout [Str "[Main] Warning: etaHEN not detected - running with limited functionality"]])).
Proof.
  intros p jb.
  rewrite (run_eta (main_after_etahen_init ok env g)).
  unfold main_after_etahen_init. run.
  assert (Hw : forall l, state (when (negb ok) (cout l) g) = g)
    by (intros l; destruct ok; reflexivity).
  assert (Htw : forall l, trace (when (negb ok) (cout l) g)
                          = if ok then [] else [Cout l])
    by (intros l; destruct ok; reflexivity).
  rewrite Hw, Htw. rewrite on_etahen_run.
  cbn [result state trace fst snd].
  unfold EtaHENPlugin.IsEtaHENAvailable. run. fold p.
  assert (Hp : forall g0, the_plugin (set_plugin (Some p) g0) = p)
    by reflexivity.
  assert (Hss : forall q g0,
            set_plugin (Some q) (set_plugin (Some p) g0)
            = set_plugin (Some q) g0) by reflexivity.
  destruct (EtaHENPlugin.etahen_available_ p).
  - run. rewrite on_etahen_run. cbn [result state trace fst snd].
    rewrite Hp, Hss. fold jb.
    assert (Hjb : state jb = p) by apply RequestJailbreak_keeps.
    rewrite Hjb.
    destruct (result jb).
    + run. rewrite on_etahen_run. cbn [result state trace fst snd].
      rewrite Hp, Hss. rewrite EnableDataAccess_keeps.
      cbn [app]. rewrite ?app_nil_r. reflexivity.
    + run. unit_result. reflexivity.
  - run. unit_result. reflexivity.
Qed.

(** The etaHEN block of [main]: the plugin is initialised, and whatever
    it returns [main] goes on. *)
Lemma main_etahen_run (env : MainEnv) (g : Globals) :
  let i := EtaHENPlugin.Initialize mode (connect_io env) (register_io env)
             (the_plugin g) in
  let after := main_after_etahen_init (result i) env
                 (set_plugin (Some (state i)) g) in
  main_etahen mode env g
  = (tt, state after,
     Cout [Str "[Main] Initializing etaHEN integration..."]
     :: trace i ++ trace after).
Proof.
  intros i after.
  rewrite (run_eta (main_etahen mode env g)).
  unfold main_etahen. run.
  set (g0 := state (GetEtaHENPlugin g)).
  assert (Hg0 : the_plugin g0 = the_plugin g)
    by (subst g0; destruct g as [a [q |] s]; reflexivity).
  assert (Hs0 : forall q, set_plugin (Some q) g0 = set_plugin (Some q) g)
    by (intros q; subst g0; destruct g as [a [q' |] s]; reflexivity).
  assert (Ht0 : trace (GetEtaHENPlugin g) = [])
    by (destruct g as [a [q |] s]; reflexivity).
  rewrite Ht0, on_etahen_run. cbn [result state trace fst snd].
  rewrite Hg0, Hs0. fold i. fold after.
  unit_result. reflexivity.
Qed.

(** The application block of [main]. *)
Lemma main_application_run (argv : list string) (env : MainEnv)
    (g : Globals) :
  let init := PS5Application.Initialize argv (subsystems env)
                PS5Application.new in
  let run := PS5Application.Run SignalHandler (run_env env) (state init) in
  (result init = false ->
   main_application mode StopKlogServer DisablePS5Debug argv env g
   = (Some (-1), set_app (Some (state init)) g,
      Cout [Str "[Main] Creating PS5 application..."]
      :: trace init
      ++ [Cerr [Str "[Main] Failed to initialize PS5 application"]])) /\
  (result init = true ->
   result (main_application mode StopKlogServer DisablePS5Debug argv env g)
     = result run /\
   trace (main_application mode StopKlogServer DisablePS5Debug argv env g)
     = Cout [Str "[Main] Creating PS5 application..."]
       :: trace init
       ++ Cout [Str "[Main] Eden PS5 initialized successfully!"]
          :: Cout [Str "[Main] Starting emulator..."]
          :: trace run
       ++ match result run with
          | None => []
          | Some code =>
              Cout [Str "[Main] Application finished with result: ";
                    Num code]
              :: Cout [Str "[Main] Shutting down..."]
              :: trace (PS5Application.Shutdown (state run))
              ++ trace (EtaHENPlugin.Shutdown StopKlogServer DisablePS5Debug
                          (plugin_shutdown_io env) (the_plugin g))
              ++ trace (PS5System.Shutdown mode (ps5_system g))
              ++ [Cout [Str "[Main] Eden PS5 shutdown complete"]]
          end).
Proof.
  intros init run0.
  assert (Hg1 : forall g0 a, g_ps5_app (set_app (Some a) g0) = Some a)
    by reflexivity.
  split; intros Hres.
  - rewrite (run_eta (main_application _ _ _ argv env g)).
    unfold main_application. run.
    rewrite (on_app_some _ _ _ _ (Hg1 g PS5Application.new)).
    cbn [result state trace fst snd]. fold init. rewrite Hres.
    cbn [negb]. run. reflexivity.
  - unfold main_application. run.
    rewrite (on_app_some _ _ _ _ (Hg1 g PS5Application.new)).
    cbn [result state trace fst snd]. fold init. rewrite Hres.
    cbn [negb]. run.
    rewrite (on_app_some _ _ _ _ (Hg1 _ (state init))).
    cbn [result state trace fst snd]. fold run0.
    destruct (result run0) as [code |].
    + run.
      rewrite !(on_app_some _ _ _ _ (Hg1 _ (state run0))).
      cbn [result state trace fst snd]. run.
      rewrite on_etahen_run. cbn [result state trace fst snd]. run.
      rewrite on_system_run. cbn [result state trace fst snd].
      split; [reflexivity |].
      cbn [app]. rewrite <- ?app_assoc. reflexivity.
    + run. split; [reflexivity |]. cbn [app]. rewrite app_nil_r.
      reflexivity.
Qed.

(** [main] is the platform layer, the etaHEN block and the application
    block, one after the other: the etaHEN block has no way out of
    [main]. *)
Lemma main_run (argv : list string) (env : MainEnv) (g : Globals) :
  let sys := PS5System.Initialize mode (ps5_system g) in
  let etahen := main_etahen mode env (set_system (state sys) g) in
  let application := main_application mode StopKlogServer DisablePS5Debug argv env
               (state etahen) in
  main mode StopKlogServer DisablePS5Debug argv env g
  = (result application, state application,
     trace (PrintBanner (build_date env) (build_time env) g)
     ++ [Cout [Str (match mode with
                    | PS5_BUILD => "[Main] Running on PlayStation 5"
                    | Development =>
                        "[Main] Running in development environment"
                    end)];
         Cout [Str "[Main] Initializing PS5 platform..."]]
     ++ trace sys ++ trace etahen ++ trace application).
Proof.
  intros sys etahen application.
  rewrite (run_eta (main _ _ _ argv env g)).
  unfold main. run.
  assert (Hb : state (PrintBanner (build_date env) (build_time env) g) = g)
    by reflexivity.
  rewrite Hb.
  assert (Hm : forall g0,
            state (match mode with
                   | PS5_BUILD => @cout Globals [Str "[Main] Running on PlayStation 5"]
                   | Development =>
                       cout [Str "[Main] Running in development environment"]
                   end g0) = g0)
    by (intros g0; destruct mode; reflexivity).
  assert (Hmt : forall g0,
            trace (match mode with
                   | PS5_BUILD => @cout Globals [Str "[Main] Running on PlayStation 5"]
                   | Development =>
                       cout [Str "[Main] Running in development environment"]
                   end g0)
            = [Cout [Str (match mode with
                          | PS5_BUILD => "[Main] Running on PlayStation 5"
                          | Development =>
                              "[Main] Running in development environment"
                          end)]])
    by (intros g0; destruct mode; reflexivity).
  rewrite Hm, Hmt. rewrite on_system_run.
  cbn [result state trace fst snd].
  rewrite PS5System_Initialize_succeeds. cbn [negb].
  run. fold sys. fold etahen. fold application.
  cbn [app]. rewrite <- ?app_assoc. reflexivity.
Qed.

(** C6.  Failure handling is log-and-continue.
    [EtaHENPlugin::Initialize] returns true and leaves the plugin
    initialised whatever [socket], [connect], [send] and [recv] answer.
    On a plugin that is not initialised it is the attempt to connect
    followed, when that succeeds, by the attempt to register: a
    connection that fails and a registration that fails each change
    nothing but the line that is logged.
    In [main], what follows the plugin's [Initialize] changes nothing
    (the plugin is as [Initialize] left it): a false result of
    [Initialize] adds one warning in front, and a jailbreak request
    that fails is followed by one warning and nothing else.  The etaHEN
    block is the plugin's [Initialize] followed by this, and [main] is
    the platform layer, the etaHEN block and the application block one
    after the other, with the result of the application block: whatever
    the etaHEN block met, [main] logs that it creates the application,
    runs [PS5Application::Initialize] on a new application, returns -1
    if that fails and otherwise runs [PS5Application::Run] on it and
    returns what [Run] returns, after taking everything down. *)
Theorem etahen_failures_are_logged_and_main_continues :
  (forall (conn : EtaHENPlugin.ConnIO) (reg : EtaHENPlugin.IpcIO)
          (p : EtaHENPlugin.t),
     result (EtaHENPlugin.Initialize mode conn reg p) = true /\
     EtaHENPlugin.initialized_
       (state (EtaHENPlugin.Initialize mode conn reg p)) = true) /\
  (forall (conn : EtaHENPlugin.ConnIO) (reg : EtaHENPlugin.IpcIO)
          (p : EtaHENPlugin.t),
     EtaHENPlugin.initialized_ p = false ->
     let c := EtaHENPlugin.ConnectToEtaHEN mode conn p in
     let p1 := EtaHENPlugin.set_etahen_available (result c) (state c) in
     let r := EtaHENPlugin.RegisterWithEtaHEN reg
                (EtaHENPlugin.plugin_name_ p1)
                (EtaHENPlugin.plugin_version_ p1) p1 in
     EtaHENPlugin.Initialize mode conn reg p
     = (true,
        EtaHENPlugin.set_initialized true (if result c then state r else p1),
        Cout [Str "[EtaHENPlugin] Initializing etaHEN integration..."]
        :: trace (EtaHENPlugin.InitializeIPC mode p) ++ trace c
        ++ (if result c then
              trace r
              ++ [Cout [Str (if result r
                             then "[EtaHENPlugin] Successfully registered with etaHEN"
                             else "[EtaHENPlugin] Failed to register with etaHEN, but continuing...")]]
            else
              [Cout [Str "[EtaHENPlugin] etaHEN not detected, running in standalone mode"]])
        ++ [Cout [Str "[EtaHENPlugin] etaHEN integration initialized"];
            Cout [Str "[EtaHENPlugin] etaHEN Available: ";
                  Str (if result c then "Yes" else "No")]])) /\
  (forall (ok : bool) (env : MainEnv) (g : Globals),
     let p := the_plugin g in
     let jb := EtaHENPlugin.RequestJailbreak (jailbreak_io env) (own_pid env)
                 (-1) p in
     main_after_etahen_init ok env g
     = (tt, set_plugin (Some p) g,
        (if ok then []
         else [Cout [Str "[Main] Warning: etaHEN integration failed, continuing anyway..."]])
        ++ (if EtaHENPlugin.etahen_available_ p then
              Cout [Str "[Main] etaHEN detected - requesting jailbreak..."]
              :: trace jb
              ++ (if result jb then
                    Cout [Str "[Main] Jailbreak successful!"]
                    :: trace (EtaHENPlugin.EnableDataAccess
                                (data_access_io env) p)
                  else
                    [Cout [Str "[Main] Warning: Jailbreak failed, limited functionality"]])
            else
              [Cout [Str "[Main] Warning: etaHEN not detected - running with limited functionality"]]))) /\
  (forall (env : MainEnv) (g : Globals),
     let i := EtaHENPlugin.Initialize mode (connect_io env) (register_io env)
                (the_plugin g) in
     let after := main_after_etahen_init (result i) env
                    (set_plugin (Some (state i)) g) in
     main_etahen mode env g
     = (tt, state after,
        Cout [Str "[Main] Initializing etaHEN integration..."]
        :: trace i ++ trace after)) /\
  (forall (argv : list string) (env : MainEnv) (g : Globals),
     let sys := PS5System.Initialize mode (ps5_system g) in
     let etahen := main_etahen mode env (set_system (state sys) g) in
     let application :=
       main_application mode StopKlogServer DisablePS5Debug argv env
                        (state etahen) in
     main mode StopKlogServer DisablePS5Debug argv env g
     = (result application, state application,
        trace (PrintBanner (build_date env) (build_time env) g)
        ++ [Cout [Str (match mode with
                       | PS5_BUILD => "[Main] Running on PlayStation 5"
                       | Development =>
                           "[Main] Running in development environment"
                       end)];
            Cout [Str "[Main] Initializing PS5 platform..."]]
        ++ trace sys ++ trace etahen ++ trace application)) /\
  (forall (argv : list string) (env : MainEnv) (g : Globals),
     let init := PS5Application.Initialize argv (subsystems env)
                   PS5Application.new in
     let run := PS5Application.Run SignalHandler (run_env env)
                  (state init) in
     (result init = false ->
      main_application mode StopKlogServer DisablePS5Debug argv env g
      = (Some (-1), set_app (Some (state init)) g,
         Cout [Str "[Main] Creating PS5 application..."]
         :: trace init
         ++ [Cerr [Str "[Main] Failed to initialize PS5 application"]])) /\
     (result init = true ->
      result (main_application mode StopKlogServer DisablePS5Debug argv env g)
        = result run /\
      trace (main_application mode StopKlogServer DisablePS5Debug argv env g)
        = Cout [Str "[Main] Creating PS5 application..."]
          :: trace init
          ++ Cout [Str "[Main] Eden PS5 initialized successfully!"]
             :: Cout [Str "[Main] Starting emulator..."]
             :: trace run
          ++ match result run with
             | None => []
             | Some code =>
                 Cout [Str "[Main] Application finished with result: ";
                       Num code]
                 :: Cout [Str "[Main] Shutting down..."]
                 :: trace (PS5Application.Shutdown (state run))
                 ++ trace (EtaHENPlugin.Shutdown StopKlogServer
                             DisablePS5Debug (plugin_shutdown_io env)
                             (the_plugin g))
                 ++ trace (PS5System.Shutdown mode (ps5_system g))
                 ++ [Cout [Str "[Main] Eden PS5 shutdown complete"]]
             end)).
Proof.
  split; [apply EtaHENPlugin_Initialize_succeeds |].
  split; [intros conn reg p Hp;
          exact (EtaHENPlugin_Initialize_run conn reg p Hp) |].
  split; [intros ok env g; exact (main_after_etahen_init_run ok env g) |].
  split; [intros env g; exact (main_etahen_run env g) |].
  split; [intros argv env g; exact (main_run argv env g) |].
  intros argv env g. exact (main_application_run argv env g).
Qed.

End MainFacts.

(** The daemon is gone when [main] asks for the jailbreak: the request
    is sent and fails, [main] logs its warning, and the globals are as
    they were. *)
Lemma etahen_failures_are_logged_and_main_continues_witness :
  Main.main_after_etahen_init true jailbreak_refused_env connected_globals
  = (tt, connected_globals,
     [Cout [Str "[Main] etaHEN detected - requesting jailbreak..."];
      Ext Sys_getpid;
      Cout [Str "[EtaHENPlugin] Requesting jailbreak for PID "; Num 4242];
      Ext (Sys_send 3 "JAILBREAK:4242" 14);
      Cout [Str "[EtaHENPlugin] Failed to send IPC command"];
      Cout [Str "[EtaHENPlugin] Jailbreak request failed"];
      Cout [Str "[Main] Warning: Jailbreak failed, limited functionality"]]).
Proof.
  exact (proj1 (proj2 (proj2
           (etahen_failures_are_logged_and_main_continues
              PS5_BUILD (ret tt) (ret tt))))
           true jailbreak_refused_env connected_globals).
Defined.

(** ** The main loop *)

Section LoopFacts.

Import PS5Application.

Lemma subsystem_calls_app (t1 t2 : list Event) :
  subsystem_calls (t1 ++ t2) = subsystem_calls t1 ++ subsystem_calls t2.
Proof.
  induction t1 as [| ev t1 IH]; [reflexivity |].
  destruct ev as [l | l | c | cb | a w h]; cbn; try exact IH.
  destruct c; cbn; try exact IH. rewrite IH. reflexivity.
Qed.

(** One pass with every subsystem in place. *)
Lemma MainLoop_body_calls (e : IterEnv) (last_fps_time frame_count : Z)
    (a : t) :
  all_subsystems a ->
  subsystem_calls
    (trace (MainLoop_body Main.SignalHandler e last_fps_time frame_count a))
  = frame_calls (emulation_running_ a) (emulation_paused_ a).
Proof.
  intros (Hr & Hau & Hi & Hf & Hc).
  destruct a as [re au inp fe co sd ini gl er ep fps sp cfg gp].
  cbn in Hr, Hau, Hi, Hf, Hc. subst re au inp fe co.
  destruct e as [ts tn te sig].
  unfold MainLoop_body. unfold_prog.
  cbn [input_manager_ frontend_ eden_core_ emulation_running_
       emulation_paused_ renderer_ t_frame_start t_now t_frame_end signal
       fst snd andb].
  destruct er, ep; cbn [andb negb fst snd app];
    destruct (to_milliseconds (tn - last_fps_time) >=? 1000);
    cbn [fst snd app set_current_fps];
    destruct (to_microseconds (te - ts) <? target_frame_time);
    destruct sig; reflexivity.
Qed.

Lemma MainLoop_body_state (e : IterEnv) (last_fps_time frame_count : Z)
    (a : t) :
  (all_subsystems a ->
   all_subsystems
     (state (MainLoop_body Main.SignalHandler e last_fps_time frame_count a)))
  /\
  emulation_running_
    (state (MainLoop_body Main.SignalHandler e last_fps_time frame_count a))
    = emulation_running_ a /\
  emulation_paused_
    (state (MainLoop_body Main.SignalHandler e last_fps_time frame_count a))
    = emulation_paused_ a /\
  shutdown_requested_
    (state (MainLoop_body Main.SignalHandler e last_fps_time frame_count a))
    = match signal e with
      | Some _ => true
      | None => shutdown_requested_ a
      end.
Proof.
  unfold MainLoop_body.
  do 9 (rewrite bind_state_keeps by keeps).
  rewrite bind_state_keeps by keeps.
  unfold all_subsystems.
  destruct (to_milliseconds (t_now e - last_fps_time) >=? 1000);
    destruct (to_microseconds (t_frame_end e - t_frame_start e)
              <? target_frame_time);
    destruct (signal e); cbn; intuition congruence.
Qed.

Lemma InitializeSubsystems_all (env : SubsysEnv) (a : t) :
  result (InitializeSubsystems env a) = true ->
  all_subsystems (state (InitializeSubsystems env a)).
Proof.
  destruct env as [r au i f c].
  destruct a as [re aud inp fe co sd ini gl er ep fps sp cfg gp].
  destruct re, aud, inp, fe, co, r, au, i, f, c; intros H;
    try discriminate H; repeat split.
Qed.

(** A successful [Initialize] on an application that was not initialised
    leaves all five subsystems in place; this is the state in which
    [Run] enters the main loop. *)
Lemma Initialize_all_subsystems (argv : list string) (env : SubsysEnv)
    (a : t) :
  initialized_ a = false ->
  result (Initialize argv env a) = true ->
  all_subsystems (state (Initialize argv env a)).
Proof.
  intros Hi. unfold Initialize.
  rewrite bind_result, bind_state.
  change (result (gets initialized_ a)) with (initialized_ a).
  change (state (gets initialized_ a)) with a.
  rewrite Hi.
  repeat rewrite bind_result. repeat rewrite bind_state.
  destruct (result (ProcessCommandLine argv _)); cbn [negb].
  - repeat rewrite bind_result. repeat rewrite bind_state.
    match goal with
    | |- context [InitializeSubsystems env ?x] =>
        pose proof (InitializeSubsystems_all env x) as Hall;
        destruct (result (InitializeSubsystems env x)); cbn [negb]
    end.
    + intros _. repeat rewrite bind_state.
      specialize (Hall eq_refl).
      match goal with
      | |- all_subsystems (state (ret true (state (cout _ (state (modify _ ?y)))))) =>
          change (all_subsystems (set_initialized true y))
      end.
      destruct Hall as (H1 & H2 & H3 & H4 & H5).
      repeat split; assumption.
    + repeat rewrite bind_result. intros H. discriminate H.
  - repeat rewrite bind_result. intros H. discriminate H.
Qed.

(** C4.  In every pass through the loop of [MainLoop] made with all
    subsystems in place (as they are once [Initialize] has returned
    true, which [Run] requires), the subsystems are called in this
    order: the input manager's Update, the frontend's Update, the core's
    Update when emulation is running and not paused, then the renderer's
    BeginFrame, the core's Render when emulation is running, the
    frontend's Render, the renderer's EndFrame and the renderer's
    Present.  The loop makes one such pass after the other until
    shutdown is requested, and none once it has been requested.  A
    successful [Initialize] of a new application puts all subsystems in
    place. *)
Theorem MainLoop_calls_subsystems_in_fixed_order :
  (forall (e : IterEnv) (last_fps_time frame_count : Z) (a : t),
     all_subsystems a ->
     subsystem_calls
       (trace (MainLoop_body Main.SignalHandler e last_fps_time frame_count a))
     = [(Input, mUpdate); (Frontend, mUpdate)]
       ++ (if emulation_running_ a && negb (emulation_paused_ a)
           then [(Core, mUpdate)] else [])
       ++ [(Renderer, mBeginFrame)]
       ++ (if emulation_running_ a then [(Core, mRender)] else [])
       ++ [(Frontend, mRender); (Renderer, mEndFrame);
           (Renderer, mPresent)]) /\
  (forall (envs : list IterEnv) (last_fps_time frame_count : Z) (a : t),
     all_subsystems a ->
     subsystem_calls
       (trace (MainLoop_from Main.SignalHandler envs last_fps_time
                             frame_count a))
     = List.concat
         (repeat (frame_calls (emulation_running_ a) (emulation_paused_ a))
                 (passes envs (shutdown_requested_ a)))) /\
  (forall (argv : list string) (env : SubsysEnv),
     result (Initialize argv env new) = true ->
     all_subsystems (state (Initialize argv env new))).
Proof.
  split; [| split].
  - intros e l f a H. apply (MainLoop_body_calls e l f a H).
  - induction envs as [| e rest IH]; intros l f a Hall.
    + cbn [MainLoop_from]. rewrite bind_trace.
      change (result (gets shutdown_requested_ a))
        with (shutdown_requested_ a).
      destruct (shutdown_requested_ a); reflexivity.
    + cbn [MainLoop_from]. rewrite bind_trace.
      change (result (gets shutdown_requested_ a))
        with (shutdown_requested_ a).
      change (state (gets shutdown_requested_ a)) with a.
      change (trace (gets shutdown_requested_ a)) with (@nil Event).
      cbn [app].
      destruct (shutdown_requested_ a) eqn:Hsd; [reflexivity |].
      rewrite bind_trace, subsystem_calls_app.
      rewrite (MainLoop_body_calls e l f a Hall).
      destruct (MainLoop_body_state e l f a) as (Hall' & Hr & Hp & Hs).
      rewrite (IH _ _ _ (Hall' Hall)).
      rewrite Hr, Hp, Hs, Hsd.
      cbn [passes]. destruct (signal e); reflexivity.
  - intros argv env. apply Initialize_all_subsystems. reflexivity.
Qed.

Lemma MainLoop_calls_subsystems_in_fixed_order_witness :
  all_subsystems running_app /\
  subsystem_calls
    (trace (MainLoop_body Main.SignalHandler short_pass 0 0 running_app))
  = [(Input, mUpdate); (Frontend, mUpdate); (Core, mUpdate);
     (Renderer, mBeginFrame); (Core, mRender); (Frontend, mRender);
     (Renderer, mEndFrame); (Renderer, mPresent)].
Proof.
  assert (H : all_subsystems running_app) by (repeat split).
  split; [exact H |].
  exact (proj1 MainLoop_calls_subsystems_in_fixed_order
           short_pass 0 0 running_app H).
Defined.











End LoopFacts.

(** ** Users of the allocator *)

Section AllocatorUse.

Import GNMWrapper.

Lemma AllocateGPUMemory_run (size alignment : Z) (w : t) :
  AllocateGPUMemory size alignment w =
    (result (AllocateMemory size alignment (impl_ w)),
     set_impl (state (AllocateMemory size alignment (impl_ w))) w,
     trace (AllocateMemory size alignment (impl_ w))).
Proof.
  unfold AllocateGPUMemory, on_impl, zoom.
  destruct (AllocateMemory size alignment (impl_ w)) as [[a i] ev].
  reflexivity.
Qed.

Lemma base_aligned (k : Z) : 0 <= k < 32 -> 0x100000000 mod 2 ^ k = 0.
Proof.
  intros Hk.
  assert (Hp : 0x100000000 = 2 ^ (32 - k) * 2 ^ k).
  { rewrite <- Z.pow_add_r by lia.
    replace (32 - k + k) with 32 by lia. reflexivity. }
  rewrite Hp. apply Z.mod_mul.
  apply Z.pow_nonzero; lia.
Qed.

(** X1.  Whatever the allocator offset is, also past 4 GiB where the
    32-bit mask makes it hand out addresses again, every address the
    wrapper returns is a multiple of the alignment asked for: of 256
    for a buffer, of 4096 for a texture, of [2 ^ k] for
    [AllocateGPUMemory] with that alignment.  The base address is the
    one the constructor sets; nothing changes it. *)
Theorem addresses_are_aligned_at_every_offset (w : t) :
  gpu_memory_base (impl_ w) = 0x100000000 ->
  (forall size usage_flags : Z,
     result (CreateBuffer size usage_flags w) mod 256 = 0) /\
  (forall width height format usage_flags : Z,
     result (CreateTexture width height format usage_flags w) mod 4096 = 0) /\
  (forall size k : Z,
     0 <= k < 32 ->
     result (AllocateGPUMemory size (2 ^ k) w) mod 2 ^ k = 0 /\
     gpu_memory_base (impl_ (state (AllocateGPUMemory size (2 ^ k) w)))
       = 0x100000000).
Proof.
  intros Hbase.
  assert (H : forall size k : Z,
            0 <= k < 32 ->
            result (AllocateGPUMemory size (2 ^ k) w) mod 2 ^ k = 0).
  { intros size k Hk. rewrite AllocateGPUMemory_run. cbn [result fst].
    apply AllocateMemory_aligned; [exact Hk |].
    rewrite Hbase. apply base_aligned. exact Hk. }
  split; [| split].
  - intros size flags. exact (H size 8 ltac:(lia)).
  - intros width height format flags.
    exact (H (u32 (u32 (width * height) * 4)) 12 ltac:(lia)).
  - intros size k Hk. split; [exact (H size k Hk) | exact Hbase].
Qed.

(** A stale offset: 4 GiB + 5 bytes. *)
Lemma addresses_are_aligned_at_every_offset_witness :
  gpu_memory_base
    (impl_ (mk (mkImpl 1 1 1 0x100000000 0x100000005) true)) = 0x100000000 /\
  result (CreateBuffer 100 0
            (mk (mkImpl 1 1 1 0x100000000 0x100000005) true)) mod 256 = 0.
Proof.
  assert (H : gpu_memory_base
                (impl_ (mk (mkImpl 1 1 1 0x100000000 0x100000005) true))
              = 0x100000000) by reflexivity.
  split; [exact H |].
  exact (proj1 (addresses_are_aligned_at_every_offset _ H) 100 0).
Defined.

Lemma stacked_nth (ranges : list (Z * Z)) :
  forall (lo hi : Z),
    stacked lo ranges hi ->
    Forall (fun r => 0 <= snd r) ranges ->
    lo <= hi /\
    forall (i : nat) (a n : Z),
      nth_error ranges i = Some (a, n) ->
      lo <= a /\ a + n <= hi /\
      forall (j : nat) (b m : Z),
        (i < j)%nat -> nth_error ranges j = Some (b, m) -> a + n <= b.
Proof.
  induction ranges as [| [a0 n0] rest IH]; intros lo hi Hst Hpos.
  - cbn in Hst. split; [exact Hst |]. intros [| i] a n H; discriminate H.
  - cbn [stacked] in Hst. destruct Hst as [Hlo Hst].
    inversion Hpos as [| ? ? Hn0 Hrest]; subst. cbn [snd] in Hn0.
    destruct (IH _ _ Hst Hrest) as [Hle Hnth].
    split; [lia |].
    intros [| i] a n Hi.
    + injection Hi as <- <-. split; [exact Hlo |]. split; [lia |].
      intros [| j] b m Hij Hj; [lia |].
      cbn [nth_error] in Hj. destruct (Hnth j b m Hj) as [H _]. exact H.
    + cbn [nth_error] in Hi. destruct (Hnth i a n Hi) as (H1 & H2 & H3).
      split; [lia |]. split; [exact H2 |].
      intros [| j] b m Hij Hj; [lia |].
      cbn [nth_error] in Hj. apply (H3 j b m); [lia | exact Hj].
Qed.

Lemma below_4GiB_sizes (reqs : list (Z * Z)) :
  forall o, below_4GiB reqs o -> Forall (fun r => 0 <= fst r) reqs.
Proof.
  induction reqs as [| [size a] rest IH]; intros o H.
  - constructor.
  - cbn [below_4GiB] in H. destruct H as (_ & Hs & _ & _ & Hrest).
    constructor; [exact Hs | exact (IH _ Hrest)].
Qed.

Lemma allocate_all_length (reqs : list (Z * Z)) :
  forall w, List.length (result (allocate_all reqs w)) = List.length reqs.
Proof.
  induction reqs as [| [size a] rest IH]; intros w.
  - reflexivity.
  - cbn [allocate_all]. rewrite bind_result, bind_result.
    cbn [ret result fst List.length]. rewrite IH. reflexivity.
Qed.

Lemma all_aligned_nth (reqs : list (Z * Z)) :
  forall (addrs : list Z),
    all_aligned reqs addrs ->
    forall (i : nat) (size a addr : Z),
      nth_error reqs i = Some (size, a) ->
      nth_error addrs i = Some addr ->
      addr mod a = 0.
Proof.
  induction reqs as [| [s0 a0] rest IH]; intros addrs Hal i size a addr Hr Ha.
  - destruct i; discriminate Hr.
  - destruct addrs as [| x addrs']; [destruct i; discriminate Ha |].
    cbn [all_aligned] in Hal. destruct Hal as [H0 Hal].
    destruct i as [| i].
    + injection Hr as <- <-. injection Ha as <-. exact H0.
    + cbn [nth_error] in Hr, Ha. exact (IH _ Hal i size a addr Hr Ha).
Qed.

Lemma nth_error_combine {A B} (l : list A) (l' : list B) (i : nat) (a : A)
    (b : B) :
  nth_error l i = Some a -> nth_error l' i = Some b ->
  nth_error (combine l l') i = Some (a, b).
Proof.
  revert l' i. induction l as [| x l IH]; intros l' i Ha Hb.
  - destruct i; discriminate Ha.
  - destruct l' as [| y l']; [destruct i; discriminate Hb |].
    destruct i as [| i].
    + injection Ha as <-. injection Hb as <-. reflexivity.
    + cbn [nth_error combine] in *. apply IH; assumption.
Qed.

(** X2.  Below 4 GiB no two allocations share a byte: in a sequence of
    allocations that stays below 4 GiB, on a wrapper whose base is the
    one its constructor sets, each returned address is a multiple of
    the alignment asked for, a later allocation starts at or behind the
    end of an earlier one, and all of them lie between the offset
    before and the offset after the sequence. *)
Theorem allocations_below_4GiB_are_disjoint
    (reqs : list (Z * Z)) (w : t) (i j : nat)
    (size_i align_i addr_i size_j align_j addr_j : Z) :
  gpu_memory_base (impl_ w) = 0x100000000 ->
  0 <= gpu_memory_offset (impl_ w) ->
  below_4GiB reqs (gpu_memory_offset (impl_ w)) ->
  (i < j)%nat ->
  nth_error reqs i = Some (size_i, align_i) ->
  nth_error reqs j = Some (size_j, align_j) ->
  nth_error (result (allocate_all reqs w)) i = Some addr_i ->
  nth_error (result (allocate_all reqs w)) j = Some addr_j ->
  addr_i mod align_i = 0 /\ addr_j mod align_j = 0 /\
  0x100000000 + gpu_memory_offset (impl_ w) <= addr_i /\
  addr_i + size_i <= addr_j /\
  addr_j + size_j
    <= 0x100000000 + gpu_memory_offset (impl_ (state (allocate_all reqs w))) /\
  ~ overlap addr_i size_i addr_j size_j.
Proof.
  intros Hbase Ho Hfit Hij Hri Hrj Hai Haj.
  destruct (allocate_all_below_4GiB reqs w Hbase Ho Hfit) as (_ & Hal & Hst).
  assert (Hpos : Forall (fun r : Z * Z => 0 <= snd r)
                   (combine (result (allocate_all reqs w)) (map fst reqs))).
  { apply Forall_forall. intros [a n] Hin.
    apply in_combine_r in Hin. apply in_map_iff in Hin.
    destruct Hin as ([s al] & Heq & Hin). cbn in Heq. subst s. cbn [snd].
    pose proof (below_4GiB_sizes _ _ Hfit) as Hs.
    rewrite Forall_forall in Hs. exact (Hs _ Hin). }
  destruct (stacked_nth _ _ _ Hst Hpos) as [_ Hnth].
  assert (Hci : nth_error (combine (result (allocate_all reqs w))
                             (map fst reqs)) i = Some (addr_i, size_i)).
  { apply nth_error_combine; [exact Hai |].
    rewrite nth_error_map, Hri. reflexivity. }
  assert (Hcj : nth_error (combine (result (allocate_all reqs w))
                             (map fst reqs)) j = Some (addr_j, size_j)).
  { apply nth_error_combine; [exact Haj |].
    rewrite nth_error_map, Hrj. reflexivity. }
  destruct (Hnth i addr_i size_i Hci) as (Hlo & _ & Hlater).
  destruct (Hnth j addr_j size_j Hcj) as (_ & Hhi & _).
  pose proof (Hlater j addr_j size_j Hij Hcj) as Hsep.
  split; [exact (all_aligned_nth _ _ Hal i _ _ _ Hri Hai) |].
  split; [exact (all_aligned_nth _ _ Hal j _ _ _ Hrj Haj) |].
  split; [exact Hlo |]. split; [exact Hsep |]. split; [exact Hhi |].
  intros (x & Hx1 & Hx2). lia.
Qed.

(** Two requests on a fresh wrapper. *)
Lemma allocations_below_4GiB_are_disjoint_witness :
  nth_error (result (allocate_all [(100, 256); (8294400, 4096)] new)) 0
    = Some 0x100000000 /\
  nth_error (result (allocate_all [(100, 256); (8294400, 4096)] new)) 1
    = Some 0x100001000 /\
  0x100000000 + 100 <= 0x100001000.
Proof.
  assert (Hbase : gpu_memory_base (impl_ new) = 0x100000000) by reflexivity.
  assert (Ho : 0 <= gpu_memory_offset (impl_ new)) by (cbn; lia).
  assert (Hfit : below_4GiB [(100, 256); (8294400, 4096)]
                   (gpu_memory_offset (impl_ new))).
  { cbn [below_4GiB new impl_ Impl_new gpu_memory_offset].
    split; [exists 8; split; [lia | reflexivity] |].
    split; [lia |]. split; [reflexivity |]. split; [reflexivity |].
    split; [exists 12; split; [lia | reflexivity] |].
    split; [lia |]. split; [reflexivity |]. split; [reflexivity |].
    exact I. }
  assert (H0 : nth_error (result (allocate_all [(100, 256); (8294400, 4096)]
                                    new)) 0 = Some 0x100000000)
    by (vm_compute; reflexivity).
  assert (H1 : nth_error (result (allocate_all [(100, 256); (8294400, 4096)]
                                    new)) 1 = Some 0x100001000)
    by (vm_compute; reflexivity).
  split; [exact H0 |]. split; [exact H1 |].
  destruct (allocations_below_4GiB_are_disjoint
              [(100, 256); (8294400, 4096)] new 0 1
              100 256 0x100000000 8294400 4096 0x100001000
              Hbase Ho Hfit ltac:(lia) eq_refl eq_refl H0 H1)
    as (_ & _ & _ & H & _).
  exact H.
Defined.

(** X3.  Nothing is ever given back: [DestroyBuffer] leaves the wrapper
    as it was and does nothing that can be observed, so a buffer created
    after another one was destroyed does not get its memory; it lies
    behind it. *)
Theorem DestroyBuffer_gives_nothing_back
    (size usage_flags size' usage_flags' : Z) (w : t) :
  gpu_memory_base (impl_ w) = 0x100000000 ->
  0 <= gpu_memory_offset (impl_ w) ->
  0 <= size -> 0 <= size' ->
  gpu_memory_offset (impl_ w) + size + size' + 2 * 255 < 2 ^ 32 ->
  let first := CreateBuffer size usage_flags w in
  let freed := DestroyBuffer (result first) (state first) in
  let second := CreateBuffer size' usage_flags' (state freed) in
  freed = (tt, state first, []) /\
  result first + size <= result second /\
  gpu_memory_offset (impl_ (state first))
    <= gpu_memory_offset (impl_ (state second)).
Proof.
  intros Hbase Ho Hsize Hsize' Hfit first freed second.
  assert (H256 : 256 = 2 ^ 8) by reflexivity.
  destruct (round_up_bounds (gpu_memory_offset (impl_ w)) 256 ltac:(lia))
    as [Hru _].
  assert (Hfirst : first =
            (0x100000000 + round_up (gpu_memory_offset (impl_ w)) 256,
             set_impl (set_gpu_memory_offset
                         (round_up (gpu_memory_offset (impl_ w)) 256 + size)
                         (impl_ w)) w,
             [])).
  { subst first. unfold CreateBuffer. rewrite AllocateGPUMemory_run.
    rewrite H256.
    rewrite (AllocateMemory_below_4GiB size 8 (impl_ w))
      by (rewrite <- ?H256; try assumption; lia).
    reflexivity. }
  assert (Hfreed : freed = (tt, state first, [])) by reflexivity.
  split; [exact Hfreed |].
  subst second. rewrite Hfreed. cbn [state fst snd].
  rewrite Hfirst. cbn [result state fst snd].
  set (w1 := set_impl _ w).
  destruct (round_up_bounds (gpu_memory_offset (impl_ w1)) 256 ltac:(lia))
    as [Hru1 _].
  assert (Ho1 : gpu_memory_offset (impl_ w1)
                = round_up (gpu_memory_offset (impl_ w)) 256 + size)
    by reflexivity.
  unfold CreateBuffer. rewrite AllocateGPUMemory_run. rewrite H256.
  assert (Hbase1 : gpu_memory_base (impl_ w1) = 0x100000000)
    by exact Hbase.
  rewrite (AllocateMemory_below_4GiB size' 8 (impl_ w1))
    by (rewrite <- ?H256; try assumption; lia).
  cbn [result state fst snd]. rewrite <- H256.
  cbn [impl_ set_impl gpu_memory_offset set_gpu_memory_offset].
  fold (impl_ w1). rewrite Ho1. subst w1.
  cbn [impl_ set_impl gpu_memory_offset set_gpu_memory_offset].
  destruct (round_up_bounds
              (round_up (gpu_memory_offset (impl_ w)) 256 + size) 256
              ltac:(lia)) as [Hru2 _].
  lia.
Qed.

Lemma DestroyBuffer_gives_nothing_back_witness :
  result (CreateBuffer 100 0 new) + 100
    <= result (CreateBuffer 100 0
                 (state (DestroyBuffer (result (CreateBuffer 100 0 new))
                           (state (CreateBuffer 100 0 new))))).
Proof.
  exact (proj1 (proj2
    (DestroyBuffer_gives_nothing_back 100 0 100 0 new eq_refl
       ltac:(cbn; lia) ltac:(lia) ltac:(lia) ltac:(cbn; lia)))).
Defined.

(** X4.  Taking the wrapper down and up again does not reset the
    allocator: after [Shutdown] and [Initialize] the wrapper is
    initialised with its three handles at the placeholder 1, and base
    and offset of GPU memory are what they were, so that memory handed
    out before is not handed out again and is not returned either. *)
Theorem Shutdown_Initialize_keeps_the_allocator (mode : BuildMode) (w : t) :
  let w' := state ((Shutdown mode ;; Initialize mode) w) in
  result ((Shutdown mode ;; Initialize mode) w) = true /\
  initialized_ w' = true /\
  device_handle (impl_ w') = 1 /\
  context_handle (impl_ w') = 1 /\
  command_queue_handle (impl_ w') = 1 /\
  gpu_memory_base (impl_ w') = gpu_memory_base (impl_ w) /\
  gpu_memory_offset (impl_ w') = gpu_memory_offset (impl_ w) /\
  gpu_memory_offset (impl_ (state (Shutdown mode w)))
    = gpu_memory_offset (impl_ w) /\
  (initialized_ w = true ->
   device_handle (impl_ (state (Shutdown mode w))) = 0 /\
   context_handle (impl_ (state (Shutdown mode w))) = 0 /\
   command_queue_handle (impl_ (state (Shutdown mode w))) = 0).
Proof.
  destruct w as [[d c q b o] init].
  destruct init, mode.
  - destruct q, c, d; repeat split; reflexivity.
  - cbn; repeat split; reflexivity.
  - repeat split; easy.
  - repeat split; easy.
Qed.

(** X5.  The size of a texture is computed in 32 bits: the bytes
    [CreateTexture] sets aside are [width * height * 4] modulo 2^32.  A
    texture of 4 GiB or more gets less memory than its texels take. *)
Theorem CreateTexture_size_wraps
    (width height format usage_flags : Z) (w : t) :
  gpu_memory_base (impl_ w) = 0x100000000 ->
  0 <= gpu_memory_offset (impl_ w) ->
  gpu_memory_offset (impl_ w) + 4095 < 2 ^ 32 ->
  let r := CreateTexture width height format usage_flags w in
  result r = 0x100000000 + round_up (gpu_memory_offset (impl_ w)) 4096 /\
  0x100000000 + gpu_memory_offset (impl_ (state r)) - result r
    = (width * height * 4) mod 2 ^ 32 /\
  (2 ^ 32 <= width * height * 4 ->
   0x100000000 + gpu_memory_offset (impl_ (state r)) - result r
     < width * height * 4).
Proof.
  intros Hbase Ho Hfit r.
  assert (H4096 : 4096 = 2 ^ 12) by reflexivity.
  assert (Hsize : u32 (u32 (width * height) * 4)
                  = (width * height * 4) mod 2 ^ 32).
  { unfold u32. rewrite Z.mul_mod_idemp_l by discriminate. reflexivity. }
  pose proof (u32_range (u32 (width * height) * 4)) as Hrange.
  destruct (round_up_bounds (gpu_memory_offset (impl_ w)) 4096 ltac:(lia))
    as [Hru _].
  assert (Hr : r =
            (0x100000000 + round_up (gpu_memory_offset (impl_ w)) 4096,
             set_impl (set_gpu_memory_offset
                         (round_up (gpu_memory_offset (impl_ w)) 4096
                          + u32 (u32 (width * height) * 4))
                         (impl_ w)) w,
             [])).
  { subst r. unfold CreateTexture. rewrite AllocateGPUMemory_run.
    rewrite H4096.
    rewrite (AllocateMemory_below_4GiB _ 12 (impl_ w))
      by (rewrite <- ?H4096; try assumption; lia).
    reflexivity. }
  rewrite Hr.
  cbn [result state fst snd impl_ set_impl gpu_memory_offset
       set_gpu_memory_offset].
  rewrite Hsize in *.
  split; [reflexivity |]. split; [lia |]. intros Hbig. lia.
Qed.

(** A texture of 32768 x 32768 texels, 4 GiB, gets no memory at all. *)
Lemma CreateTexture_size_wraps_witness :
  2 ^ 32 <= 32768 * 32768 * 4 /\
  0x100000000
    + gpu_memory_offset (impl_ (state (CreateTexture 32768 32768 0 0 new)))
    - result (CreateTexture 32768 32768 0 0 new) = 0.
Proof.
  split; [vm_compute; discriminate |].
  exact (proj1 (proj2
    (CreateTexture_size_wraps 32768 32768 0 0 new eq_refl
       ltac:(cbn; lia) ltac:(cbn; lia)))).
Defined.

End AllocatorUse.

(** ** Bringing the renderer up *)

Section RendererUse.

Import PS5Renderer.

Lemma page_address_nonzero (b x : Z) :
  b = 0x100000000 ->
  (u64 (b + Z.land x (not32 (u32 (4096 - 1)))) =? 0) = false.
Proof.
  intros ->. change (4096 - 1) with (2 ^ 12 - 1).
  rewrite land_not32_ones by lia.
  pose proof (Z.mod_pos_bound x (2 ^ 32) ltac:(reflexivity)) as Hx.
  assert (H : 0 <= 2 ^ 12 * (x mod 2 ^ 32 / 2 ^ 12) < 2 ^ 32).
  { split; [apply Z.mul_nonneg_nonneg; [lia | apply Z.div_pos; lia] |].
    pose proof (Z.mul_div_le (x mod 2 ^ 32) (2 ^ 12) ltac:(lia)). lia. }
  rewrite u64_small by lia. apply Z.eqb_neq. lia.
Qed.

Lemma Renderer_AllocateGPUMemory_run (size alignment : Z) (r : t)
    (w : GNMWrapper.t) :
  gnm_wrapper_ r = Some w ->
  AllocateGPUMemory size alignment r =
    (result (GNMWrapper.AllocateGPUMemory size alignment w),
     set_gnm_wrapper
       (Some (state (GNMWrapper.AllocateGPUMemory size alignment w))) r,
     []).
Proof.
  intros Hw. unfold AllocateGPUMemory, on_gnm, through. rewrite Hw.
  reflexivity.
Qed.

Lemma Renderer_AllocateGPUMemory_page (size : Z) (r : t) :
  has_base r ->
  (result (AllocateGPUMemory size 4096 r) =? 0) = false /\
  result (AllocateGPUMemory size 4096 r) mod 4096 = 0 /\
  has_base (state (AllocateGPUMemory size 4096 r)) /\
  wrapper_up (state (AllocateGPUMemory size 4096 r)) = wrapper_up r /\
  initialized_ (state (AllocateGPUMemory size 4096 r)) = initialized_ r /\
  command_buffer_ (state (AllocateGPUMemory size 4096 r))
    = command_buffer_ r /\
  texture_manager_ (state (AllocateGPUMemory size 4096 r))
    = texture_manager_ r /\
  shader_compiler_ (state (AllocateGPUMemory size 4096 r))
    = shader_compiler_ r /\
  display_width_ (state (AllocateGPUMemory size 4096 r))
    = display_width_ r /\
  display_height_ (state (AllocateGPUMemory size 4096 r))
    = display_height_ r /\
  frame_buffers_ (state (AllocateGPUMemory size 4096 r))
    = frame_buffers_ r.
Proof.
  intros (w & Hw & Hb).
  rewrite (Renderer_AllocateGPUMemory_run size 4096 r w Hw).
  cbn [result state fst snd].
  split; [| split; [| split]].
  - unfold GNMWrapper.AllocateGPUMemory, GNMWrapper.on_impl.
    rewrite zoom_result_eq.
    unfold GNMWrapper.AllocateMemory. run.
    apply page_address_nonzero. exact Hb.
  - unfold GNMWrapper.AllocateGPUMemory, GNMWrapper.on_impl.
    rewrite zoom_result_eq.
    change 4096 with (2 ^ 12).
    apply AllocateMemory_aligned; [lia |].
    rewrite Hb. reflexivity.
  - eexists. split; [reflexivity |]. exact Hb.
  - unfold wrapper_up. rewrite Hw. repeat split.
Qed.

Lemma untouched_trans (a b c : t) :
  untouched a b -> untouched b c -> untouched a c.
Proof.
  unfold untouched. intros H1 H2.
  repeat split; etransitivity; try apply H2; apply H1.
Qed.

Lemma CreateFramebuffers_from_succeeds (indices : list Z) :
  forall r : t,
    has_base r ->
    result (CreateFramebuffers_from indices r) = true /\
    has_base (state (CreateFramebuffers_from indices r)) /\
    untouched r (state (CreateFramebuffers_from indices r)).
Proof.
  induction indices as [| i rest IH]; intros r Hr.
  - split; [reflexivity |]. split; [exact Hr |]. repeat split.
  - cbn [CreateFramebuffers_from]. unfold modify_frame_buffer.
    set (size := u32 (u32 (display_width_ r * display_height_ r) * 4)).
    destruct (Renderer_AllocateGPUMemory_page size r Hr)
      as (Hnz & _ & Hb1 & Hu1 & Hi1 & Hc1 & Ht1 & Hs1 & Hw1 & Hh1 & _).
    set (r1 := state (AllocateGPUMemory size 4096 r)) in *.
    set (color := result (AllocateGPUMemory size 4096 r)) in *.
    set (r2 := set_frame_buffers
                 (update_nth (Z.to_nat i)
                    (fun fb => mkFrameBuffer color (depth_buffer_addr fb)
                                 (width fb) (height fb))
                    (frame_buffers_ r1)) r1).
    assert (Hr2 : has_base r2).
    { destruct Hb1 as (w & Hw & Hb). exists w. split; assumption. }
    destruct (Renderer_AllocateGPUMemory_page size r2 Hr2)
      as (Hnz2 & _ & Hb3 & Hu3 & Hi3 & Hc3 & Ht3 & Hs3 & Hw3 & Hh3 & _).
    set (r3 := state (AllocateGPUMemory size 4096 r2)) in *.
    set (depth := result (AllocateGPUMemory size 4096 r2)) in *.
    set (r4 := set_frame_buffers
                 (update_nth (Z.to_nat i)
                    (fun fb => mkFrameBuffer (color_buffer_addr fb)
                                 (depth_buffer_addr fb)
                                 (display_width_ r) (display_height_ r))
                    (update_nth (Z.to_nat i)
                       (fun fb => mkFrameBuffer (color_buffer_addr fb) depth
                                    (width fb) (height fb))
                       (frame_buffers_ r3))) r3).
    assert (Hr4 : has_base r4).
    { destruct Hb3 as (w & Hw & Hb). exists w. split; assumption. }
    destruct (IH r4 Hr4) as (Hres & Hbase & Hun).
    assert (Hrun : result (CreateFramebuffers_from (i :: rest) r)
                   = result (CreateFramebuffers_from rest r4) /\
                   state (CreateFramebuffers_from (i :: rest) r)
                   = state (CreateFramebuffers_from rest r4)).
    { cbn [CreateFramebuffers_from]. unfold modify_frame_buffer. run.
      fold size. fold color. fold r1. rewrite Hnz. run.
      fold r2. fold depth. fold r3. rewrite Hnz2. run.
      split; reflexivity. }
    cbn [CreateFramebuffers_from] in Hrun. unfold modify_frame_buffer in Hrun.
    destruct Hrun as [-> ->].
    split; [exact Hres |]. split; [exact Hbase |].
    apply (untouched_trans r r4); [| exact Hun].
    assert (H01 : untouched r r1) by (repeat split; assumption).
    assert (H12 : untouched r1 r2) by (repeat split).
    assert (H23 : untouched r2 r3) by (repeat split; assumption).
    assert (H34 : untouched r3 r4) by (repeat split).
    exact (untouched_trans _ _ _ H01
             (untouched_trans _ _ _ H12 (untouched_trans _ _ _ H23 H34))).
Qed.

Lemma on_gnm_some {A} (m : Prog GNMWrapper.t A) (dflt : Prog t A) (r : t)
    (w : GNMWrapper.t) :
  gnm_wrapper_ r = Some w ->
  on_gnm m dflt r = (result (m w), set_gnm_wrapper (Some (state (m w))) r,
                     trace (m w)).
Proof.
  intros Hw. unfold on_gnm, through. rewrite Hw.
  destruct (m w) as [[a w'] ev]. reflexivity.
Qed.

Lemma InitializeGNM_succeeds (mode : BuildMode) (r : t) :
  result (InitializeGNM mode r) = true /\
  gnm_wrapper_ (state (InitializeGNM mode r)) = gnm_wrapper_ r /\
  initialized_ (state (InitializeGNM mode r)) = initialized_ r.
Proof. destruct mode; repeat split. Qed.

Lemma CreateFramebuffers_succeeds (r : t) :
  has_base r ->
  result (CreateFramebuffers r) = true /\
  has_base (state (CreateFramebuffers r)) /\
  untouched r (state (CreateFramebuffers r)).
Proof.
  intros Hr. unfold CreateFramebuffers. run.
  apply CreateFramebuffers_from_succeeds. exact Hr.
Qed.

(** [Initialize] on a renderer that is not initialised: its result, the
    flag and the wrapper afterwards. *)
Lemma PS5Renderer_Initialize_parts (mode : BuildMode) (env : InitEnv)
    (r : t) :
  initialized_ r = false ->
  result (Initialize mode env r)
    = command_buffer_ok env && texture_manager_ok env
      && shader_compiler_ok env /\
  initialized_ (state (Initialize mode env r))
    = result (Initialize mode env r) /\
  wrapper_up (state (Initialize mode env r)) = true.
Proof.
  intros Hinit.
  unfold Initialize. run. rewrite Hinit.
  run. rewrite state_destroy.
  set (r0 := set_gnm_wrapper (Some GNMWrapper.new) r).
  rewrite (on_gnm_some _ _ r0 GNMWrapper.new eq_refl).
  cbn [result state fst snd].
  destruct (Initialize_succeeds mode GNMWrapper.new) as [Hok Hup].
  rewrite Hok. cbn [negb]. run.
  set (w := state (GNMWrapper.Initialize mode GNMWrapper.new)) in *.
  assert (Hbase : GNMWrapper.gpu_memory_base (GNMWrapper.impl_ w)
                  = 0x100000000)
    by (subst w; destruct mode; reflexivity).
  destruct (command_buffer_ok env); cbn [negb andb]; run;
    [| repeat split; [exact Hinit | exact Hup]].
  destruct (texture_manager_ok env); cbn [negb andb]; run;
    [| repeat split; [exact Hinit | exact Hup]].
  destruct (shader_compiler_ok env); cbn [negb andb]; run;
    [| repeat split; [exact Hinit | exact Hup]].
  set (r3 := set_shader_compiler _ _).
  destruct (InitializeGNM_succeeds mode r3) as (Hg & Hgw & Hgi).
  rewrite Hg. cbn [negb]. run.
  assert (Hb4 : has_base (state (InitializeGNM mode r3))).
  { exists w. split; [rewrite Hgw; reflexivity | exact Hbase]. }
  destruct (CreateFramebuffers_succeeds _ Hb4) as (Hc & Hb5 & Hun).
  rewrite Hc. cbn [negb]. run.
  split; [reflexivity |]. split; [reflexivity |].
  destruct Hun as (Hu & _).
  change (wrapper_up (state (CreateFramebuffers
                               (state (InitializeGNM mode r3)))) = true).
  rewrite Hu. unfold wrapper_up. rewrite Hgw. exact Hup.
Qed.

(** X6.  [Initialize] on a renderer that is not initialised builds a
    new wrapper, whose own [Initialize] cannot fail, and the six frame
    buffer allocations cannot fail either (no address is 0): the result
    is true exactly when the command buffer, the texture manager and the
    shader compiler all initialise.  [initialized_] is set to the
    result.  Whatever the result, the renderer is left holding an
    initialised wrapper: a failed [Initialize] takes nothing down, and
    [Shutdown] after it returns at once, so the wrapper stays up. *)
Theorem PS5Renderer_Initialize_result (mode : BuildMode) (env : InitEnv)
    (r : t) :
  initialized_ r = false ->
  result (Initialize mode env r)
    = command_buffer_ok env && texture_manager_ok env
      && shader_compiler_ok env /\
  initialized_ (state (Initialize mode env r))
    = result (Initialize mode env r) /\
  wrapper_up (state (Initialize mode env r)) = true /\
  (result (Initialize mode env r) = false ->
   Shutdown mode (state (Initialize mode env r))
     = (tt, state (Initialize mode env r), [])).
Proof.
  intros Hinit.
  destruct (PS5Renderer_Initialize_parts mode env r Hinit)
    as (Hres & Hst & Hup).
  split; [exact Hres |]. split; [exact Hst |]. split; [exact Hup |].
  intros Hfail. rewrite Hfail in Hst.
  unfold Shutdown. unfold bind at 1. cbn [gets]. rewrite Hst. reflexivity.
Qed.

(** All three collaborators initialise, on a renderer fresh from its
    constructor. *)
Lemma PS5Renderer_Initialize_result_witness :
  initialized_ (new []) = false /\
  result (Initialize Development (mkInitEnv 1 true 2 true 3 true) (new []))
    = true.
Proof.
  split; [reflexivity |].
  exact (proj1 (PS5Renderer_Initialize_result Development
                  (mkInitEnv 1 true 2 true 3 true) (new []) eq_refl)).
Defined.

(** X7.  On a renderer fresh from its constructor, whatever the three
    uninitialised frame buffer entries hold, a successful [Initialize]
    overwrites every field of them: the six buffers of the default
    1920 x 1080 display, 8294400 bytes each, lie one after the other
    from the base of GPU memory, colour before depth, page aligned, and
    the allocator offset ends behind the last one. *)
Theorem Initialize_lays_out_the_frame_buffers
    (mode : BuildMode) (env : InitEnv) (g0 g1 g2 : FrameBuffer) :
  result (Initialize mode env (new [g0; g1; g2])) = true ->
  frame_buffers_ (state (Initialize mode env (new [g0; g1; g2])))
    = [mkFrameBuffer 0x100000000 (0x100000000 + 8294400) 1920 1080;
       mkFrameBuffer (0x100000000 + 2 * 8294400)
                     (0x100000000 + 3 * 8294400) 1920 1080;
       mkFrameBuffer (0x100000000 + 4 * 8294400)
                     (0x100000000 + 5 * 8294400) 1920 1080] /\
  option_map (fun w => GNMWrapper.gpu_memory_offset (GNMWrapper.impl_ w))
             (gnm_wrapper_ (state (Initialize mode env (new [g0; g1; g2]))))
    = Some (6 * 8294400) /\
  8294400 = 1920 * 1080 * 4 /\ 8294400 mod 4096 = 0.
Proof.
  intros Hres.
  destruct (PS5Renderer_Initialize_parts mode env (new [g0; g1; g2])
              eq_refl) as (Hoks & _).
  rewrite Hres in Hoks. symmetry in Hoks.
  apply andb_prop in Hoks. destruct Hoks as [Hoks Hs].
  apply andb_prop in Hoks. destruct Hoks as [Hc Ht].
  destruct env as [pc okc pt okt ps oks]. cbn in Hc, Ht, Hs. subst.
  destruct g0 as [c0 d0 w0 h0], g1 as [c1 d1 w1 h1], g2 as [c2 d2 w2 h2].
  destruct mode; vm_compute; repeat split.
Qed.

Lemma Initialize_lays_out_the_frame_buffers_witness :
  map color_buffer_addr
    (frame_buffers_
       (state (Initialize PS5_BUILD (mkInitEnv 1 true 2 true 3 true)
                 (new [mkFrameBuffer 7 7 7 7; mkFrameBuffer 8 8 8 8;
                       mkFrameBuffer 9 9 9 9]))))
    = [0x100000000; 0x100000000 + 2 * 8294400; 0x100000000 + 4 * 8294400].
Proof.
  exact (f_equal (map color_buffer_addr)
           (proj1 (Initialize_lays_out_the_frame_buffers PS5_BUILD
                     (mkInitEnv 1 true 2 true 3 true)
                     (mkFrameBuffer 7 7 7 7) (mkFrameBuffer 8 8 8 8)
                     (mkFrameBuffer 9 9 9 9) eq_refl))).
Defined.

End RendererUse.

(** ** Taking the renderer down, and frames *)

Section RendererDown.

Import PS5Renderer.

Lemma update_nth_id {A} (n : nat) (f : A -> A) (l : list A) (d : A) :
  f (nth n l d) = nth n l d -> update_nth n f l = l.
Proof.
  revert n. induction l as [| x l IH]; intros n H.
  - destruct n; reflexivity.
  - destruct n as [| n]; cbn [update_nth nth] in *.
    + rewrite H. reflexivity.
    + rewrite (IH n H). reflexivity.
Qed.

Lemma update_nth_twice {A} (n : nat) (f g : A -> A) (l : list A) :
  update_nth n g (update_nth n f l) = update_nth n (fun x => g (f x)) l.
Proof.
  revert n. induction l as [| x l IH]; intros n.
  - destruct n; reflexivity.
  - destruct n as [| n]; cbn [update_nth]; [reflexivity |].
    rewrite IH. reflexivity.
Qed.

Lemma clear_color_id (fb : FrameBuffer) :
  (color_buffer_addr fb =? 0) = true ->
  mkFrameBuffer 0 (depth_buffer_addr fb) (width fb) (height fb) = fb.
Proof.
  intros H. apply Z.eqb_eq in H. destruct fb as [c d w h].
  cbn in *. subst c. reflexivity.
Qed.

Lemma clear_depth_id (fb : FrameBuffer) :
  (depth_buffer_addr fb =? 0) = true ->
  mkFrameBuffer (color_buffer_addr fb) 0 (width fb) (height fb) = fb.
Proof.
  intros H. apply Z.eqb_eq in H. destruct fb as [c d w h].
  cbn in *. subst d. reflexivity.
Qed.

Lemma FreeGPUMemory_run (address : Z) (r : t) :
  FreeGPUMemory address r = (tt, r, []).
Proof. destruct r as [[w |] cb tm sc init dw dh cf fbs idx]; reflexivity. Qed.

Lemma clear_color_run (i : Z) (r : t) :
  when (negb (color_buffer_addr (frame_buffer_at i r) =? 0))
    (FreeGPUMemory (color_buffer_addr (frame_buffer_at i r)) ;;
     modify_frame_buffer i (fun fb =>
       mkFrameBuffer 0 (depth_buffer_addr fb) (width fb) (height fb))) r
  = (tt,
     set_frame_buffers
       (update_nth (Z.to_nat i)
          (fun fb => mkFrameBuffer 0 (depth_buffer_addr fb) (width fb)
                       (height fb))
          (frame_buffers_ r)) r,
     []).
Proof.
  destruct (color_buffer_addr (frame_buffer_at i r) =? 0) eqn:Hc;
    cbn [negb when].
  - unfold frame_buffer_at in Hc.
    rewrite (update_nth_id _ _ _ _ (clear_color_id _ Hc)).
    destruct r. reflexivity.
  - unfold bind. rewrite FreeGPUMemory_run. reflexivity.
Qed.

Lemma clear_depth_run (i : Z) (r : t) :
  when (negb (depth_buffer_addr (frame_buffer_at i r) =? 0))
    (FreeGPUMemory (depth_buffer_addr (frame_buffer_at i r)) ;;
     modify_frame_buffer i (fun fb =>
       mkFrameBuffer (color_buffer_addr fb) 0 (width fb) (height fb))) r
  = (tt,
     set_frame_buffers
       (update_nth (Z.to_nat i)
          (fun fb => mkFrameBuffer (color_buffer_addr fb) 0 (width fb)
                       (height fb))
          (frame_buffers_ r)) r,
     []).
Proof.
  destruct (depth_buffer_addr (frame_buffer_at i r) =? 0) eqn:Hc;
    cbn [negb when].
  - unfold frame_buffer_at in Hc.
    rewrite (update_nth_id _ _ _ _ (clear_depth_id _ Hc)).
    destruct r. reflexivity.
  - unfold bind. rewrite FreeGPUMemory_run. reflexivity.
Qed.

Lemma DestroyFramebuffers_from_run (indices : list Z) :
  forall r : t,
    DestroyFramebuffers_from indices r =
      (tt,
       set_frame_buffers
         (fold_left (fun l i => update_nth (Z.to_nat i) zero_addrs l)
                    indices (frame_buffers_ r)) r,
       []).
Proof.
  induction indices as [| i rest IH]; intros r.
  - destruct r. reflexivity.
  - cbn [DestroyFramebuffers_from fold_left].
    unfold bind at 1. cbn [gets].
    unfold bind at 1. rewrite clear_color_run.
    unfold bind at 1. cbn [gets].
    unfold bind at 1. rewrite clear_depth_run.
    rewrite IH.
    destruct r as [gnm cb tm sc init dw dh cf fbs idx].
    cbn [set_frame_buffers frame_buffers_ gnm_wrapper_ command_buffer_
         texture_manager_ shader_compiler_ initialized_ display_width_
         display_height_ current_frame_ current_frame_buffer_ app].
    rewrite update_nth_twice. reflexivity.
Qed.

(** X8.  [Shutdown] of an initialised renderer clears the colour and
    depth address of all three frame buffers, keeping their sizes, shuts
    the collaborators down in the order shader compiler, texture
    manager, command buffer (the reverse of their creation), then the
    wrapper, and clears [initialized_].  Everything it does that can be
    observed is, in this order: its own line of log, the wrapper's
    wait for the GPU, the three collaborators, the line of
    [ShutdownGNM] (with PS5_BUILD), and last the wrapper's [Shutdown],
    seen by its two lines of log when the wrapper was up.  The wrapper
    is left as its own [Shutdown] leaves it.  No pointer is reset, and
    the wrapper's allocator keeps its offset: no GPU memory is given
    back. *)
Theorem PS5Renderer_Shutdown_takes_everything_down
    (mode : BuildMode) (r : t) (f0 f1 f2 : FrameBuffer) :
  initialized_ r = true ->
  frame_buffers_ r = [f0; f1; f2] ->
  let r' := state (Shutdown mode r) in
  initialized_ r' = false /\
  wrapper_up r' = false /\
  frame_buffers_ r' = [zero_addrs f0; zero_addrs f1; zero_addrs f2] /\
  calls (trace (Shutdown mode r))
    = (if is_some (shader_compiler_ r) then [ShaderCompiler_Shutdown] else [])
      ++ (if is_some (texture_manager_ r) then [TextureManager_Shutdown]
          else [])
      ++ (if is_some (command_buffer_ r) then [CommandBuffer_Shutdown]
          else []) /\
  command_buffer_ r' = command_buffer_ r /\
  texture_manager_ r' = texture_manager_ r /\
  shader_compiler_ r' = shader_compiler_ r /\
  option_map (fun w => GNMWrapper.gpu_memory_offset (GNMWrapper.impl_ w))
             (gnm_wrapper_ r')
    = option_map (fun w => GNMWrapper.gpu_memory_offset (GNMWrapper.impl_ w))
                 (gnm_wrapper_ r) /\
  trace (Shutdown mode r)
    = Cout [Str "[PS5Renderer] Shutting down PS5 Graphics System..."]
      :: (if is_some (gnm_wrapper_ r)
          then [Cout [Str "[GNMWrapper] Waiting for GPU idle..."]] else [])
      ++ (if is_some (shader_compiler_ r) then [Ext ShaderCompiler_Shutdown]
          else [])
      ++ (if is_some (texture_manager_ r) then [Ext TextureManager_Shutdown]
          else [])
      ++ (if is_some (command_buffer_ r) then [Ext CommandBuffer_Shutdown]
          else [])
      ++ match mode with
         | PS5_BUILD =>
             [Cout [Str "[PS5Renderer] Shutting down GNM graphics context..."]]
         | Development => []
         end
      ++ (if wrapper_up r
          then [Cout [Str "[GNMWrapper] Shutting down GNM interface..."];
                Cout [Str "[GNMWrapper] Waiting for GPU idle..."]]
          else []) /\
  gnm_wrapper_ r'
    = option_map (fun w => state (GNMWrapper.Shutdown mode w))
                 (gnm_wrapper_ r).
Proof.
  intros Hinit Hfbs r'. subst r'.
  destruct r as [gnm cb tm sc init dw dh cf fbs idx].
  cbn [initialized_ frame_buffers_] in Hinit, Hfbs. subst init fbs.
  cbn [shader_compiler_ texture_manager_ command_buffer_ gnm_wrapper_].
  match goal with
  | |- context [Shutdown mode ?r0] => set (R := Shutdown mode r0)
  end.
  pose proof (eq_refl R) as HR. unfold R at 2 in HR.
  unfold Shutdown in HR.
  unfold bind at 1 in HR. cbn [gets initialized_ negb] in HR.
  unfold bind at 1 in HR. cbn [cout emit] in HR.
  unfold bind at 1 in HR.
  match type of HR with
  | context [on_gnm GNMWrapper.WaitForIdle (ret tt) ?r0] =>
      destruct (on_gnm GNMWrapper.WaitForIdle (ret tt) r0)
        as [[u r1] tr1] eqn:Hwait
  end.
  unfold bind at 1 in HR. unfold DestroyFramebuffers in HR.
  rewrite DestroyFramebuffers_from_run in HR.
  clearbody R. subst R.
  destruct gnm as [[[d c q b o] winit] |];
    cbn in Hwait; injection Hwait as <- <- <-;
    destruct sc, tm, cb, mode; try destruct winit;
    repeat split; try reflexivity;
    destruct q, c, d; reflexivity.
Qed.

(** A renderer that was initialised in development mode: the trace
    shows the wrapper going down after the three collaborators. *)
Lemma PS5Renderer_Shutdown_takes_everything_down_witness :
  initialized_ initialized_renderer = true /\
  frame_buffers_ (state (Shutdown Development initialized_renderer))
    = [mkFrameBuffer 0 0 1920 1080; mkFrameBuffer 0 0 1920 1080;
       mkFrameBuffer 0 0 1920 1080] /\
  calls (trace (Shutdown Development initialized_renderer))
    = [ShaderCompiler_Shutdown; TextureManager_Shutdown;
       CommandBuffer_Shutdown] /\
  trace (Shutdown Development initialized_renderer)
    = [Cout [Str "[PS5Renderer] Shutting down PS5 Graphics System..."];
       Cout [Str "[GNMWrapper] Waiting for GPU idle..."];
       Ext ShaderCompiler_Shutdown; Ext TextureManager_Shutdown;
       Ext CommandBuffer_Shutdown;
       Cout [Str "[GNMWrapper] Shutting down GNM interface..."];
       Cout [Str "[GNMWrapper] Waiting for GPU idle..."]].
Proof.
  assert (Hi : initialized_ initialized_renderer = true)
    by (vm_compute; reflexivity).
  assert (Hf : frame_buffers_ initialized_renderer
               = [mkFrameBuffer 0x100000000 (0x100000000 + 8294400)
                                1920 1080;
                  mkFrameBuffer (0x100000000 + 2 * 8294400)
                                (0x100000000 + 3 * 8294400) 1920 1080;
                  mkFrameBuffer (0x100000000 + 4 * 8294400)
                                (0x100000000 + 5 * 8294400) 1920 1080])
    by (vm_compute; reflexivity).
  split; [exact Hi |].
  destruct (PS5Renderer_Shutdown_takes_everything_down Development
              initialized_renderer _ _ _ Hi Hf)
    as (_ & _ & Hz & Hc & _ & _ & _ & _ & Ht & _).
  split; [exact Hz |]. split; [exact Hc |].
  rewrite Ht. vm_compute. reflexivity.
Defined.

(** X9.  Before the 32-bit frame counter wraps, frame [n] of a renderer
    fresh from its constructor draws into frame buffer [n mod 3]: any
    three consecutive frames use the three buffers, each once. *)
Theorem BeginFrames_cycle_through_the_buffers
    (garbage : list FrameBuffer) (n : N) :
  (0 < n)%N -> (n + 2 < 2 ^ 32)%N ->
  current_frame_ (BeginFrames n (new garbage)) = Z.of_N n /\
  current_frame_buffer_ (BeginFrames n (new garbage))
    = Z.of_N n mod MAX_FRAME_BUFFERS /\
  current_frame_buffer_ (BeginFrames (n + 1) (new garbage))
    = (current_frame_buffer_ (BeginFrames n (new garbage)) + 1)
        mod MAX_FRAME_BUFFERS /\
  current_frame_buffer_ (BeginFrames (n + 2) (new garbage))
    = (current_frame_buffer_ (BeginFrames n (new garbage)) + 2)
        mod MAX_FRAME_BUFFERS /\
  current_frame_buffer_ (BeginFrames n (new garbage))
    <> current_frame_buffer_ (BeginFrames (n + 1) (new garbage)) /\
  current_frame_buffer_ (BeginFrames (n + 1) (new garbage))
    <> current_frame_buffer_ (BeginFrames (n + 2) (new garbage)) /\
  current_frame_buffer_ (BeginFrames n (new garbage))
    <> current_frame_buffer_ (BeginFrames (n + 2) (new garbage)).
Proof.
  intros Hpos Hlt.
  assert (H0 : 0 <= current_frame_ (new garbage) < 2 ^ 32).
  { split; [discriminate | reflexivity]. }
  assert (Hidx : forall m : N,
            (0 < m)%N -> (m < 2 ^ 32)%N ->
            current_frame_buffer_ (BeginFrames m (new garbage))
              = Z.of_N m mod MAX_FRAME_BUFFERS).
  { intros m Hm Hm'.
    rewrite <- (N.succ_pred m) by lia.
    rewrite (BeginFrames_current_frame_buffer _ _ H0).
    rewrite N.succ_pred by lia.
    change (current_frame_ (new garbage)) with 0. rewrite Z.add_0_l.
    rewrite u32_small; [reflexivity |].
    change (2 ^ 32) with (Z.of_N (2 ^ 32)). lia. }
  assert (Hn : 0 <= Z.of_N n < 2 ^ 32).
  { change (2 ^ 32) with (Z.of_N (2 ^ 32)). lia. }
  split.
  { rewrite (BeginFrames_current_frame _ _ H0).
    change (current_frame_ (new garbage)) with 0. rewrite Z.add_0_l.
    apply u32_small. exact Hn. }
  rewrite (Hidx n), (Hidx (n + 1)%N), (Hidx (n + 2)%N) by lia.
  rewrite !N2Z.inj_add. change (Z.of_N 1) with 1. change (Z.of_N 2) with 2.
  unfold MAX_FRAME_BUFFERS.
  rewrite !Zplus_mod_idemp_l.
  repeat split; try reflexivity; Z.div_mod_to_equations; lia.
Qed.

Lemma BeginFrames_cycle_through_the_buffers_witness :
  current_frame_buffer_ (BeginFrames 4 (new [])) = 1 /\
  current_frame_buffer_ (BeginFrames 5 (new [])) = 2 /\
  current_frame_buffer_ (BeginFrames 6 (new [])) = 0.
Proof.
  destruct (BeginFrames_cycle_through_the_buffers [] 4
              ltac:(reflexivity) ltac:(reflexivity))
    as (_ & H4 & H5 & H6 & _).
  rewrite H4 in H5, H6.
  split; [exact H4 |]. split; [exact H5 | exact H6].
Defined.

(** X10.  One frame as the main loop drives it, [BeginFrame], [EndFrame]
    and [Present] in this order: the command buffer, if there is one, is
    begun and ended, then submitted if there is a wrapper; the wrapper,
    if there is one, is asked last to present the colour buffer of the
    frame buffer [BeginFrame] selected for this frame, at the display
    size.  The frame changes the counter and the index and nothing
    else. *)
Theorem frame_presents_the_buffer_it_selected (mode : BuildMode) (r : t) :
  without_log (trace (frame mode r))
    = (if is_some (command_buffer_ r)
       then [Ext CommandBuffer_Begin; Ext CommandBuffer_End] else [])
      ++ match command_buffer_ r, gnm_wrapper_ r with
         | Some cb, Some _ => [GnmSubmit cb]
         | _, _ => []
         end
      ++ (if is_some (gnm_wrapper_ r)
          then [GnmPresent
                  (color_buffer_addr
                     (frame_buffer_at
                        (u32 (current_frame_ r + 1) mod MAX_FRAME_BUFFERS) r))
                  (display_width_ r) (display_height_ r)]
          else []) /\
  state (frame mode r)
    = set_current_frame_buffer
        (u32 (current_frame_ r + 1) mod MAX_FRAME_BUFFERS)
        (set_current_frame (u32 (current_frame_ r + 1)) r).
Proof.
  destruct r as [[w |] [cb |] tm sc init dw dh cf fbs idx], mode;
    split; reflexivity.
Qed.

End RendererDown.

(** ** The connection of the plugin *)

Section PluginFacts.

Import EtaHENPlugin.

Lemma socket_calls_app (t1 t2 : list Event) :
  socket_calls (t1 ++ t2) = socket_calls t1 ++ socket_calls t2.
Proof. apply observe_app. Qed.

Variable StopKlogServer : Prog t unit.
Variable DisablePS5Debug : Prog t unit.
Hypothesis StopKlogServer_leaves : leaves_connection StopKlogServer.
Hypothesis DisablePS5Debug_leaves : leaves_connection DisablePS5Debug.

Lemma Shutdown_offline (io : ShutdownIO) (p : t) :
  offline p ->
  offline (state (Shutdown StopKlogServer DisablePS5Debug io p)) /\
  socket_calls (trace (Shutdown StopKlogServer DisablePS5Debug io p)) = [].
Proof.
  intros [Hc Hs]. unfold Shutdown. run.
  destruct (initialized_ p); cbn [negb]; run; [| repeat split; assumption].
  assert (Hftp : StopFTPServer (stop_ftp_io io) p = (tt, p, [])).
  { unfold StopFTPServer. unfold bind at 1. cbn [gets].
    unfold bind at 1. cbn [gets]. rewrite Hc, orb_true_r. reflexivity. }
  rewrite Hftp. cbn [result state trace fst snd app].
  destruct (StopKlogServer_leaves p) as (Hkt & Hkc & Hks).
  set (p1 := state (StopKlogServer p)) in *.
  destruct (DisablePS5Debug_leaves p1) as (Hdt & Hdc & Hds).
  set (p2 := state (DisablePS5Debug p1)) in *.
  rewrite Hkc in Hdc. rewrite Hks in Hds. rewrite Hc in Hdc. rewrite Hs in Hds.
  assert (Hun : when (registered_ p2)
                  (UnregisterFromEtaHEN (unregister_io io)) p2 = (tt, p2, [])).
  { destruct (registered_ p2) eqn:Hr; [| reflexivity]. cbn [when].
    unfold UnregisterFromEtaHEN. unfold bind at 1. cbn [gets].
    unfold bind at 1. cbn [gets]. rewrite Hdc, orb_true_r. reflexivity. }
  rewrite Hun. cbn [result state trace fst snd app].
  rewrite Hdc. cbn [when]. run.
  assert (Hipc : ShutdownIPC p2 = (tt, p2, [])).
  { unfold ShutdownIPC. unfold bind at 1. cbn [gets]. rewrite Hds.
    reflexivity. }
  rewrite Hipc. cbn [result state trace fst snd app].
  match goal with
  | |- context [socket_calls (Cout ?l :: ?tr)] =>
      change (socket_calls (Cout l :: tr)) with (socket_calls tr)
  end.
  rewrite !socket_calls_app, Hkt, Hdt.
  split; [split |]; try reflexivity.
  - exact Hdc.
  - exact Hds.
Qed.

Lemma run_op_Development_offline (op : Op) (p : t) :
  offline p ->
  offline (state (run_op Development StopKlogServer DisablePS5Debug op p)) /\
  socket_calls
    (trace (run_op Development StopKlogServer DisablePS5Debug op p)) = [].
Proof.
  intros Hoff.
  destruct op as [conn reg | io | | conn | | io n v | io | io own pid
                 | own pid | io | io port | io | io path | io | cb | cb];
    cbn [run_op];
    try (apply Shutdown_offline; exact Hoff);
    destruct p as [init avail con regd name ver fd port' ftp klog dbg cheats
                   scb mcb];
    destruct Hoff as [Hc Hs]; cbn in Hc, Hs; subst con fd.
  - destruct init; repeat split.
  - destruct init; repeat split.
  - repeat split.
  - repeat split.
  - repeat split.
  - destruct regd; repeat split.
  - repeat split.
  - destruct (pid =? -1) eqn:Hp; unfold IsProcessJailbroken; rewrite Hp;
      repeat split.
  - repeat split.
  - destruct ftp; repeat split.
  - destruct ftp; repeat split.
  - repeat split.
  - repeat split.
  - repeat split.
  - repeat split.
Qed.

(** X11.  Compiled without PS5_BUILD the plugin never touches the socket
    layer: whatever sequence of its public members is called on a new
    plugin, and whatever the outside world would answer, no [socket],
    [connect], [send], [recv] or [close] is made, and the plugin ends
    not connected and without a socket.  ([StopKlogServer] and
    [DisablePS5Debug], defined elsewhere, are taken to leave the
    connection alone.) *)
Theorem Development_plugin_never_uses_the_socket (ops : list Op) :
  offline (state (run_ops Development StopKlogServer DisablePS5Debug ops new))
  /\
  socket_calls
    (trace (run_ops Development StopKlogServer DisablePS5Debug ops new)) = [].
Proof.
  assert (H : forall p, offline p ->
            offline (state (run_ops Development StopKlogServer
                              DisablePS5Debug ops p)) /\
            socket_calls
              (trace (run_ops Development StopKlogServer DisablePS5Debug
                        ops p)) = []).
  { induction ops as [| op rest IH]; intros p Hp.
    - split; [exact Hp | reflexivity].
    - cbn [run_ops]. rewrite bind_state, bind_trace, socket_calls_app.
      destruct (run_op_Development_offline op p Hp) as [Hp1 Ht1].
      destruct (IH _ Hp1) as [Hp2 Ht2].
      rewrite Ht1, Ht2. split; [exact Hp2 | reflexivity]. }
  apply H. split; reflexivity.
Qed.

End PluginFacts.

Section ConnectionFacts.

Import EtaHENPlugin.

Variable mode : BuildMode.
Variable StopKlogServer : Prog t unit.
Variable DisablePS5Debug : Prog t unit.

Lemma preserves_SendIPCCommand {B} (f : t -> B) (io : IpcIO)
    (command response : string) :
  preserves f (SendIPCCommand io command response).
Proof. intros p. rewrite SendIPCCommand_keeps. reflexivity. Qed.

Ltac conn :=
  repeat first
    [ apply preserves_SendIPCCommand
    | apply preserves_gets | apply preserves_ret | apply preserves_emit
    | apply preserves_cout | apply preserves_call
    | apply preserves_when | apply preserves_if
    | apply preserves_modify; intros []; reflexivity
    | apply preserves_bind; [| intros ?] ].

Lemma run_op_keeps_connection (op : Op) :
  match op with
  | OpInitialize _ _ | OpShutdown _ | OpConnectToEtaHEN _
  | OpDisconnectFromEtaHEN => True
  | _ => preserves connection
           (run_op mode StopKlogServer DisablePS5Debug op)
  end.
Proof.
  destruct op; try exact I; cbn [run_op];
    unfold Update, ProcessEtaHENMessages, RegisterWithEtaHEN,
      UnregisterFromEtaHEN, RequestJailbreak, IsProcessJailbroken,
      EnableDataAccess, StartFTPServer, StopFTPServer, LoadELF,
      GetEtaHENVersion, SetStatusChangeCallback, SetMessageCallback;
    conn.
Qed.

Lemma Initialize_connection (conn : ConnIO) (reg : IpcIO) (p : t) :
  initialized_ p = false ->
  connected_ (state (Initialize mode conn reg p))
    = connected_ (state (ConnectToEtaHEN mode conn p)) /\
  ipc_socket_ (state (Initialize mode conn reg p))
    = ipc_socket_ (state (ConnectToEtaHEN mode conn p)) /\
  initialized_ (state (Initialize mode conn reg p)) = true.
Proof.
  intros Hinit. unfold Initialize. run. rewrite Hinit. run.
  assert (Hipc : forall q, InitializeIPC mode q
                   = (true, q, trace (InitializeIPC mode q))).
  { intros q. destruct mode; reflexivity. }
  rewrite Hipc. cbn [result state fst snd negb]. run.
  match goal with
  | |- context [state (?m0 ?q0)] =>
      match m0 with
      | (if _ then _ else _) =>
          assert (Hm : preserves connection m0)
            by (unfold RegisterWithEtaHEN; conn);
          specialize (Hm q0); set (q1 := state (m0 q0)) in *
      end
  end.
  unfold connection in Hm. injection Hm as Hc Hs _.
  repeat split; assumption.
Qed.

Lemma ConnectToEtaHEN_inv (conn : ConnIO) (p : t) :
  connected_ p = false ->
  (connected_ (state (ConnectToEtaHEN mode conn p)) = true ->
   0 <= ipc_socket_ (state (ConnectToEtaHEN mode conn p))).
Proof.
  intros Hc. destruct p as [init avail con regd name ver fd port ftp klog dbg
                            cheats scb mcb].
  cbn in Hc. subst con. destruct conn as [s c]. destruct mode.
  - unfold ConnectToEtaHEN. unfold_prog.
    cbn [fst snd ipc_socket_ set_ipc_socket etahen_port_ socket_ret
         connect_ret].
    destruct (Z.ltb_spec s 0) as [Hs | Hs]; [cbn; discriminate |].
    destruct (c <? 0); [cbn; discriminate |].
    destruct scb; cbn; intros _; exact Hs.
  - cbn. discriminate.
Qed.

Lemma Shutdown_tail (q : t) :
  connected_
    (state (ShutdownIPC
              (state (when (connected_ q) DisconnectFromEtaHEN q)))) = false /\
  ipc_socket_
    (state (ShutdownIPC
              (state (when (connected_ q) DisconnectFromEtaHEN q)))) = -1.
Proof.
  destruct q as [init avail con regd name ver fd port ftp klog dbg
                 cheats scb mcb].
  destruct con, scb, fd as [| q | [q | q |]]; split; reflexivity.
Qed.

Lemma run_op_connection_inv (op : Op) (p : t) :
  is_connect op = false ->
  connection_inv p ->
  connection_inv (state (run_op mode StopKlogServer DisablePS5Debug op p)).
Proof.
  intros Hop [H1 H2].
  pose proof (run_op_keeps_connection op) as Hkeep.
  destruct op as [conn reg | io | | conn | | io n v | io | io own pid
                 | own pid | io | io port | io | io path | io | cb | cb];
    try discriminate Hop;
    try (cbv beta iota in Hkeep;
         specialize (Hkeep p); unfold connection in Hkeep;
         injection Hkeep as Hc Hs Hi; unfold connection_inv;
         cbn [run_op]; rewrite Hc, Hs, Hi; split; assumption).
  - (* Initialize *)
    cbn [run_op]. run.
    destruct (initialized_ p) eqn:Hinit.
    + unfold Initialize. run. rewrite Hinit. run.
      split; [exact H1 | intros Hf; rewrite Hinit in Hf; discriminate Hf].
    + destruct (Initialize_connection conn reg p Hinit) as (Hc & Hs & Hi).
      unfold connection_inv. rewrite Hc, Hs, Hi.
      split; [| discriminate].
      apply ConnectToEtaHEN_inv. apply H2. reflexivity.
  - (* Shutdown *)
    cbn [run_op]. unfold Shutdown. run.
    destruct (initialized_ p) eqn:Hinit; cbn [negb]; run;
      [| split; [exact H1 | intros _; apply H2; reflexivity]].
    match goal with
    | |- connection_inv (set_initialized false ?X) =>
        match X with
        | state (ShutdownIPC (state (when _ DisconnectFromEtaHEN ?q0))) =>
            destruct (Shutdown_tail q0) as [Hq _];
            split;
            [ intros H; change (connected_ X = true) in H;
              rewrite Hq in H; discriminate H
            | intros _; exact Hq ]
        end
    end.
  - (* Disconnect *)
    cbn [run_op]. unfold DisconnectFromEtaHEN. run.
    destruct (connected_ p) eqn:Hc; cbn [negb]; run;
      [| split; [intros Hf; rewrite Hc in Hf; discriminate Hf
                | intros _; exact Hc]].
    match goal with
    | |- connection_inv (state (when ?b ?m ?q0)) =>
        destruct b; split; intros H; cbn in *; congruence
    end.
  - split; [exact H1 | exact H2].
  - split; [exact H1 | exact H2].
Qed.

(** X12.  As long as [ConnectToEtaHEN] is not called from outside, the
    plugin keeps its connection state consistent, in both build modes
    and whatever the outside world answers: whenever [connected_] is
    set, [ipc_socket_] holds a descriptor that [socket] returned (it is
    not negative), and a plugin that is not initialised is not
    connected. *)
Theorem connection_stays_consistent (ops : list Op) :
  forallb (fun op => negb (is_connect op)) ops = true ->
  connection_inv
    (state (run_ops mode StopKlogServer DisablePS5Debug ops new)).
Proof.
  assert (H : forall p, connection_inv p ->
            forallb (fun op => negb (is_connect op)) ops = true ->
            connection_inv
              (state (run_ops mode StopKlogServer DisablePS5Debug ops p))).
  { induction ops as [| op rest IH]; intros p Hp Hops.
    - exact Hp.
    - cbn [forallb] in Hops. apply andb_prop in Hops.
      destruct Hops as [Hop Hrest]. apply negb_true_iff in Hop.
      cbn [run_ops]. rewrite bind_state.
      apply IH; [| exact Hrest].
      apply run_op_connection_inv; assumption. }
  apply H. split; [discriminate | reflexivity].
Qed.

(** X13.  The exception: [ConnectToEtaHEN] called on a plugin that is
    already connected.  The descriptor in use is overwritten without
    being closed; if [socket] then fails, the plugin is left with
    [connected_] still set and a negative [ipc_socket_]. *)
Theorem reconnecting_drops_the_descriptor (conn : ConnIO) (p : t) :
  connected_ p = true ->
  socket_ret conn < 0 ->
  connected_ (state (ConnectToEtaHEN PS5_BUILD conn p)) = true /\
  ipc_socket_ (state (ConnectToEtaHEN PS5_BUILD conn p)) = socket_ret conn /\
  result (ConnectToEtaHEN PS5_BUILD conn p) = false /\
  socket_calls (trace (ConnectToEtaHEN PS5_BUILD conn p)) = [Sys_socket] /\
  ~ connection_inv (state (ConnectToEtaHEN PS5_BUILD conn p)).
Proof.
  intros Hc Hs.
  destruct p as [init avail con regd name ver fd port ftp klog dbg
                 cheats scb mcb].
  cbn in Hc. subst con. destruct conn as [s c]. cbn in Hs.
  assert (Hlt : (s <? 0) = true) by (apply Z.ltb_lt; exact Hs).
  unfold ConnectToEtaHEN. unfold_prog.
  cbn [fst snd ipc_socket_ set_ipc_socket socket_ret]. rewrite Hlt.
  cbn. repeat split. intros [H _]. specialize (H eq_refl). cbn in H. lia.
Qed.

End ConnectionFacts.

(** ** Handshake, shutdown and commands of the plugin *)

Section HandshakeFacts.

Import EtaHENPlugin.

Ltac plugin_cbn :=
  cbn [fst snd app negb andb orb ret emit
       initialized_ etahen_available_ connected_ registered_ plugin_name_
       plugin_version_ ipc_socket_ etahen_port_ ftp_server_running_
       klog_server_running_ ps5_debug_enabled_ cheats_enabled_
       status_callback_ message_callback_
       set_initialized set_etahen_available set_connected set_registered
       set_plugin set_ipc_socket set_ftp_server_running
       socket_ret connect_ret send_ret recv_ret recv_buf
       socket_calls].

(** X14.  The handshake of [Initialize] with PS5_BUILD, on a plugin that
    is neither initialised, connected nor registered.  [Initialize]
    returns true and sets [initialized_] whether or not the daemon is
    there.  The plugin is connected, and etaHEN counts as available,
    exactly when [socket] and [connect] both succeed; it is registered
    exactly when, in addition, the send and the receive of the
    REGISTER_PLUGIN command succeed, whatever the daemon answers.  The
    calls on the socket layer are [socket], then [connect] to the
    configured port, then either [close] of the descriptor (connect
    failed) or one send of the command, not terminated and not
    prefixed, and one receive of at most 1023 bytes.  A failed [socket]
    leaves its negative return value in [ipc_socket_]. *)
Theorem Initialize_handshake (conn : ConnIO) (reg : IpcIO) (p : t) :
  initialized_ p = false ->
  connected_ p = false ->
  registered_ p = false ->
  let p' := state (Initialize PS5_BUILD conn reg p) in
  let fd := socket_ret conn in
  let up := negb (fd <? 0) && negb (connect_ret conn <? 0) in
  let command :=
    ("REGISTER_PLUGIN:" ++ plugin_name_ p ++ ":" ++ plugin_version_ p)%string
  in
  result (Initialize PS5_BUILD conn reg p) = true /\
  initialized_ p' = true /\
  connected_ p' = up /\
  etahen_available_ p' = up /\
  registered_ p'
    = up && negb (send_ret reg <? 0) && negb (recv_ret reg <? 0) /\
  ipc_socket_ p' = (if up || (fd <? 0) then fd else -1) /\
  socket_calls (trace (Initialize PS5_BUILD conn reg p))
    = Sys_socket
      :: (if fd <? 0 then [] else
          Sys_connect fd (etahen_port_ p)
          :: (if connect_ret conn <? 0 then [Sys_close fd] else
              Sys_send fd command (Z.of_nat (String.length command))
              :: (if send_ret reg <? 0 then [] else [Sys_recv fd 1023]))).
Proof.
  intros Hi Hc Hr.
  destruct p as [init avail con regd name ver sock port ftp klog dbg
                 cheats scb mcb].
  cbn in Hi, Hc, Hr. subst init con regd.
  destruct conn as [s c]. destruct reg as [sr rr rb].
  intros p' fd up command. subst p' fd up command. plugin_cbn.
  unfold Initialize, InitializeIPC, ConnectToEtaHEN, RegisterWithEtaHEN,
    SendIPCCommand.
  unfold_prog. unfold emit. plugin_cbn.
  destruct (Z.ltb_spec s 0) as [Hs | Hs]; plugin_cbn.
  - repeat split.
  - destruct (c <? 0) eqn:Hcn; plugin_cbn.
    + repeat split.
    + assert (Hne : (s =? -1) = false) by (apply Z.eqb_neq; lia).
      destruct scb; plugin_cbn; rewrite ?Hne; plugin_cbn.
      * destruct (sr <? 0); plugin_cbn; [repeat split |].
        destruct (rr <? 0); plugin_cbn; repeat split.
      * destruct (sr <? 0); plugin_cbn; [repeat split |].
        destruct (rr <? 0); plugin_cbn; repeat split.
Qed.

End HandshakeFacts.

Section ShutdownFacts.

Import EtaHENPlugin.

Variable StopKlogServer : Prog t unit.
Variable DisablePS5Debug : Prog t unit.
Hypothesis StopKlogServer_leaves : leaves_connection StopKlogServer.
Hypothesis DisablePS5Debug_leaves : leaves_connection DisablePS5Debug.

Lemma closed_app (t1 t2 : list Event) :
  closed (t1 ++ t2) = closed t1 ++ closed t2.
Proof. apply observe_app. Qed.

Lemma no_socket_calls_no_close (tr : list Event) :
  socket_calls tr = [] -> closed tr = [].
Proof.
  induction tr as [| e tr IH]; [reflexivity |].
  destruct e as [l | l | c | cb | a w h]; try exact IH.
  destruct c; try exact IH; discriminate.
Qed.

Lemma SendIPCCommand_never_closes (io : IpcIO) (command response : string) :
  silent closed_of (SendIPCCommand io command response).
Proof. unfold SendIPCCommand. silent. Qed.

Lemma Shutdown_tail_closes (q : t) :
  closed (trace (when (connected_ q) DisconnectFromEtaHEN q))
  ++ closed (trace (ShutdownIPC
                      (state (when (connected_ q) DisconnectFromEtaHEN q))))
  = if ipc_socket_ q =? -1 then [] else [ipc_socket_ q].
Proof.
  destruct q as [init avail con regd name ver fd port ftp klog dbg
                 cheats scb mcb].
  destruct con, scb, fd as [| q | [q | q |]]; reflexivity.
Qed.

(** X15.  [Shutdown] of an initialised plugin closes the socket exactly
    once if there is one, whether or not the plugin is connected, and
    never closes anything else: [DisconnectFromEtaHEN] marks the
    descriptor closed, so [ShutdownIPC] does not close it again.  The
    plugin ends not initialised, not connected and without a socket.
    ([StopKlogServer] and [DisablePS5Debug], defined elsewhere, are
    taken to leave the connection alone.) *)
Theorem Shutdown_closes_the_socket_once (io : ShutdownIO) (p : t) :
  initialized_ p = true ->
  closed (trace (Shutdown StopKlogServer DisablePS5Debug io p))
    = (if ipc_socket_ p =? -1 then [] else [ipc_socket_ p]) /\
  offline (state (Shutdown StopKlogServer DisablePS5Debug io p)) /\
  initialized_ (state (Shutdown StopKlogServer DisablePS5Debug io p)) = false.
Proof.
  intros Hinit. unfold Shutdown. run. rewrite Hinit. cbn [negb]. run.
  assert (H0 : preserves connection (StopFTPServer (stop_ftp_io io)) /\
               silent closed_of (StopFTPServer (stop_ftp_io io))).
  { unfold StopFTPServer. split.
    - repeat first
        [ apply preserves_gets | apply preserves_ret | apply preserves_cout
        | apply preserves_if
        | apply preserves_modify; intros []; reflexivity
        | apply preserves_bind; [| intros ?]
        | intros ?; rewrite SendIPCCommand_keeps; reflexivity ].
    - repeat first
        [ apply SendIPCCommand_never_closes
        | apply silent_gets | apply silent_ret | apply silent_modify
        | apply silent_cout; reflexivity | apply silent_if
        | apply silent_bind; [| intros ?] ]. }
  destruct H0 as [H0s H0t].
  specialize (H0s p). specialize (H0t p).
  set (p0 := state (StopFTPServer (stop_ftp_io io) p)) in *.
  destruct (StopKlogServer_leaves p0) as (Hkt & Hkc & Hks).
  set (p1 := state (StopKlogServer p0)) in *.
  destruct (DisablePS5Debug_leaves p1) as (Hdt & Hdc & Hds).
  set (p2 := state (DisablePS5Debug p1)) in *.
  assert (H3 : preserves connection
                 (when (registered_ p2)
                    (UnregisterFromEtaHEN (unregister_io io))) /\
               silent closed_of
                 (when (registered_ p2)
                    (UnregisterFromEtaHEN (unregister_io io)))).
  { unfold UnregisterFromEtaHEN. split.
    - repeat first
        [ apply preserves_gets | apply preserves_ret | apply preserves_cout
        | apply preserves_if | apply preserves_when
        | apply preserves_modify; intros []; reflexivity
        | apply preserves_bind; [| intros ?]
        | intros ?; rewrite SendIPCCommand_keeps; reflexivity ].
    - repeat first
        [ apply SendIPCCommand_never_closes
        | apply silent_gets | apply silent_ret | apply silent_modify
        | apply silent_cout; reflexivity | apply silent_if
        | apply silent_when
        | apply silent_bind; [| intros ?] ]. }
  destruct H3 as [H3s H3t].
  specialize (H3s p2). specialize (H3t p2).
  set (p3 := state (when (registered_ p2)
                      (UnregisterFromEtaHEN (unregister_io io)) p2)) in *.
  unfold connection in H0s, H3s.
  injection H0s as H0c H0k _. injection H3s as H3c H3k _.
  assert (Hsock : ipc_socket_ p3 = ipc_socket_ p) by congruence.
  destruct (Shutdown_tail p3) as [Hc Hs].
  pose proof (Shutdown_tail_closes p3) as Hcl.
  split; [| split; [split |]].
  - rewrite !closed_app.
    rewrite (no_socket_calls_no_close _ Hkt), (no_socket_calls_no_close _ Hdt).
    fold closed in H0t, H3t. rewrite H0t, H3t.
    match goal with
    | |- context [closed [Cout ?l]] =>
        change (closed [Cout l]) with (@nil Z)
    end.
    change (closed []) with (@nil Z). cbn [app]. rewrite app_nil_r.
    rewrite Hcl, Hsock. reflexivity.
  - exact Hc.
  - exact Hs.
  - reflexivity.
Qed.

End ShutdownFacts.

Section CommandFacts.

Import EtaHENPlugin.

(** X16.  Without a connection no command reaches the daemon: each of
    the members that send a command returns its failure value, leaves
    the plugin unchanged and makes no call (the three that log say so).
    [StartFTPServer] is the exception in its result only: it answers
    from the flag [ftp_server_running_], which [DisconnectFromEtaHEN]
    does not clear, so it returns true when the server was started over
    a connection that is gone. *)
Theorem commands_need_a_connection (p : t) :
  connected_ p = false ->
  (forall io name version,
     RegisterWithEtaHEN io name version p = (false, p, [])) /\
  (forall io own_pid pid,
     result (RequestJailbreak io own_pid pid p) = false /\
     state (RequestJailbreak io own_pid pid p) = p /\
     calls (trace (RequestJailbreak io own_pid pid p)) = []) /\
  (forall io, EnableDataAccess io p = (false, p, [])) /\
  (forall io port,
     result (StartFTPServer io port p) = ftp_server_running_ p /\
     state (StartFTPServer io port p) = p /\
     calls (trace (StartFTPServer io port p)) = []) /\
  (forall io elf_path,
     result (LoadELF io elf_path p) = false /\
     state (LoadELF io elf_path p) = p /\
     calls (trace (LoadELF io elf_path p)) = []) /\
  (forall io, GetEtaHENVersion io p = ("Not Connected"%string, p, [])) /\
  (forall io, UnregisterFromEtaHEN io p = (tt, p, [])) /\
  (forall io, StopFTPServer io p = (tt, p, [])) /\
  (forall own_pid pid, result (IsProcessJailbroken own_pid pid p) = false).
Proof.
  intros Hc.
  destruct p as [init avail con regd name ver fd port ftp klog dbg
                 cheats scb mcb].
  cbn in Hc. subst con.
  repeat split; try reflexivity;
    try (destruct ftp; reflexivity); try (destruct regd; reflexivity).
  intros own_pid pid. unfold IsProcessJailbroken.
  destruct (pid =? -1); reflexivity.
Qed.

End CommandFacts.

Lemma commands_need_a_connection_witness :
  EtaHENPlugin.connected_ dropped_plugin = false /\
  result (EtaHENPlugin.StartFTPServer daemon_gone 2121 dropped_plugin) = true.
Proof.
  split; [reflexivity |].
  exact (proj1 (proj1 (proj2 (proj2 (proj2
    (commands_need_a_connection dropped_plugin eq_refl)))) daemon_gone 2121)).
Defined.

Lemma ret_leaves_connection : leaves_connection (ret tt).
Proof. intros p. repeat split. Qed.

Lemma Development_plugin_never_uses_the_socket_witness :
  socket_calls
    (trace (EtaHENPlugin.run_ops Development (ret tt) (ret tt)
              [EtaHENPlugin.OpInitialize (EtaHENPlugin.mkConnIO 3 0) daemon_ok;
               EtaHENPlugin.OpRequestJailbreak daemon_ok 4242 (-1);
               EtaHENPlugin.OpStartFTPServer daemon_ok 2121;
               EtaHENPlugin.OpShutdown
                 (EtaHENPlugin.mkShutdownIO daemon_ok daemon_ok)]
              EtaHENPlugin.new)) = [].
Proof.
  exact (proj2 (Development_plugin_never_uses_the_socket (ret tt) (ret tt)
                  ret_leaves_connection ret_leaves_connection _)).
Defined.

Lemma connection_stays_consistent_witness :
  connection_inv
    (state (EtaHENPlugin.run_ops PS5_BUILD (ret tt) (ret tt)
              [EtaHENPlugin.OpInitialize (EtaHENPlugin.mkConnIO 3 0) daemon_ok;
               EtaHENPlugin.OpRequestJailbreak daemon_gone 4242 (-1);
               EtaHENPlugin.OpDisconnectFromEtaHEN;
               EtaHENPlugin.OpShutdown
                 (EtaHENPlugin.mkShutdownIO daemon_ok daemon_ok)]
              EtaHENPlugin.new)).
Proof.
  exact (connection_stays_consistent PS5_BUILD (ret tt) (ret tt)
           [EtaHENPlugin.OpInitialize (EtaHENPlugin.mkConnIO 3 0) daemon_ok;
            EtaHENPlugin.OpRequestJailbreak daemon_gone 4242 (-1);
            EtaHENPlugin.OpDisconnectFromEtaHEN;
            EtaHENPlugin.OpShutdown
              (EtaHENPlugin.mkShutdownIO daemon_ok daemon_ok)]
           eq_refl).
Defined.

(** The next [socket] fails. *)
Lemma reconnecting_drops_the_descriptor_witness :
  EtaHENPlugin.connected_
    (state (EtaHENPlugin.ConnectToEtaHEN PS5_BUILD
              (EtaHENPlugin.mkConnIO (-1) 0) connected_plugin)) = true /\
  EtaHENPlugin.ipc_socket_
    (state (EtaHENPlugin.ConnectToEtaHEN PS5_BUILD
              (EtaHENPlugin.mkConnIO (-1) 0) connected_plugin)) = -1.
Proof.
  destruct (reconnecting_drops_the_descriptor
              (EtaHENPlugin.mkConnIO (-1) 0) connected_plugin
              eq_refl ltac:(cbn; lia)) as (H1 & H2 & _).
  split; [exact H1 | exact H2].
Defined.

(** The daemon accepts the connection on descriptor 3 and answers. *)
Lemma Initialize_handshake_witness :
  socket_calls
    (trace (EtaHENPlugin.Initialize PS5_BUILD (EtaHENPlugin.mkConnIO 3 0)
              daemon_ok EtaHENPlugin.new))
    = [Sys_socket; Sys_connect 3 9028;
       Sys_send 3 "REGISTER_PLUGIN:Eden Nintendo Switch Emulator:1.0.0-PS5"
                55;
       Sys_recv 3 1023] /\
  EtaHENPlugin.registered_
    (state (EtaHENPlugin.Initialize PS5_BUILD (EtaHENPlugin.mkConnIO 3 0)
              daemon_ok EtaHENPlugin.new)) = true.
Proof.
  destruct (Initialize_handshake (EtaHENPlugin.mkConnIO 3 0) daemon_ok
              EtaHENPlugin.new eq_refl eq_refl eq_refl)
    as (_ & _ & _ & _ & Hr & _ & Ht).
  split; [exact Ht | exact Hr].
Defined.

Lemma Shutdown_closes_the_socket_once_witness :
  closed
    (trace (EtaHENPlugin.Shutdown (ret tt) (ret tt)
              (EtaHENPlugin.mkShutdownIO daemon_ok daemon_ok)
              connected_plugin)) = [3].
Proof.
  exact (proj1 (Shutdown_closes_the_socket_once (ret tt) (ret tt)
                  ret_leaves_connection ret_leaves_connection
                  (EtaHENPlugin.mkShutdownIO daemon_ok daemon_ok)
                  connected_plugin eq_refl)).
Defined.

(** ** Streams and 3D audio *)

Section AudioFacts.

Import PS5AudioManager.

Lemma stopped_app (t1 t2 : list Event) :
  stopped (t1 ++ t2) = stopped t1 ++ stopped t2.
Proof. apply observe_app. Qed.

Lemma stop_all_run (streams : list Z) (a : t) :
  state (stop_all streams a) = a /\
  stopped (trace (stop_all streams a)) = streams.
Proof.
  split; [apply stop_all_state |].
  induction streams as [| s rest IH]; [reflexivity |].
  cbn [stop_all]. rewrite bind_trace, stopped_app.
  change (state (call (Stream_Stop s) a)) with a. rewrite IH. reflexivity.
Qed.

Lemma erase_first_last (ptr : Z) (streams : list Z) :
  ~ In ptr streams -> erase_first ptr (streams ++ [ptr]) = Some streams.
Proof.
  induction streams as [| s rest IH]; intros Hnot.
  - cbn. rewrite Z.eqb_refl. reflexivity.
  - cbn [app erase_first].
    destruct (Z.eqb_spec s ptr) as [-> | Hne].
    + exfalso. apply Hnot. left. reflexivity.
    + rewrite IH; [reflexivity |]. intros Hin. apply Hnot. right. exact Hin.
Qed.

(** X17.  On an initialised manager with a default output device, a
    stream whose own [Initialize] succeeds is appended to the streams
    held, and its address is returned; handing that address to
    [DestroyStream] stops exactly this stream and puts the manager back
    as it was.  (The address of the new stream is not among the streams
    already held.) *)
Theorem stream_create_destroy_round_trip
    (env : StreamEnv) (sample_rate channels buffer_size : Z) (a : t) :
  initialized_ a = true ->
  default_output_device_ a <> None ->
  stream_ok env = true ->
  ~ In (stream_ptr env) (streams_ a) ->
  let created := CreateOutputStream env sample_rate channels buffer_size a in
  let destroyed := DestroyStream (result created) (state created) in
  result created = Some (stream_ptr env) /\
  streams_ (state created) = streams_ a ++ [stream_ptr env] /\
  stopped (trace created) = [] /\
  state destroyed = a /\
  stopped (trace destroyed) = [stream_ptr env].
Proof.
  intros Hinit Hdev Hok Hfresh.
  destruct a as [outs ins streams dout din init vol muted e3d a3d].
  cbn in Hinit, Hdev, Hfresh. subst init.
  destruct dout as [dev |]; [| contradiction].
  destruct env as [ptr ok]. cbn in Hok, Hfresh. subst ok.
  cbn. rewrite (erase_first_last ptr streams Hfresh).
  repeat split.
Qed.

(** Two streams on a manager initialised in development mode. *)
Lemma stream_create_destroy_round_trip_witness :
  state
    (DestroyStream (Some 20)
       (state (CreateOutputStream (mkStreamEnv 20 true) 48000 2 1024
                 (state ((_ <- Initialize Development ;;
                          CreateOutputStream (mkStreamEnv 10 true)
                                             48000 2 1024) new)))))
  = state ((_ <- Initialize Development ;;
            CreateOutputStream (mkStreamEnv 10 true) 48000 2 1024) new).
Proof.
  exact (proj1 (proj2 (proj2 (proj2
    (stream_create_destroy_round_trip (mkStreamEnv 20 true) 48000 2 1024
       (state ((_ <- Initialize Development ;;
                CreateOutputStream (mkStreamEnv 10 true) 48000 2 1024) new))
       eq_refl ltac:(discriminate) eq_refl
       ltac:(cbn; intros [H | []]; discriminate H)))))).
Defined.

(** X18.  [Shutdown] of an initialised manager calls [Stop] on every
    stream it holds, once each and in the order of their creation, then
    lets go of all streams and devices and clears [initialized_].  The
    mute switch and the 3D audio switches stay as they were. *)
Theorem Shutdown_stops_every_stream (mode : BuildMode) (a : t) :
  initialized_ a = true ->
  let a' := state (Shutdown mode a) in
  stopped (trace (Shutdown mode a)) = streams_ a /\
  streams_ a' = [] /\
  output_devices_ a' = [] /\ input_devices_ a' = [] /\
  default_output_device_ a' = None /\ default_input_device_ a' = None /\
  initialized_ a' = false /\
  is_muted_ a' = is_muted_ a /\ audio_3d a' = audio_3d a.
Proof.
  intros Hinit a'. subst a'. unfold Shutdown. run. rewrite Hinit.
  cbn [negb]. run.
  destruct (stop_all_run (streams_ a) a) as [Hs Ht].
  rewrite Hs. rewrite !stopped_app, Ht.
  destruct a as [outs ins streams dout din init vol muted e3d a3d].
  cbn [streams_]. rewrite app_nil_r. repeat split.
Qed.

Lemma Shutdown_stops_every_stream_witness :
  stopped
    (trace (Shutdown Development
              (state (run_ops Development
                        [OpInitialize;
                         OpCreateOutputStream (mkStreamEnv 10 true)
                                              48000 2 1024;
                         OpCreateInputStream (mkStreamEnv 20 true)
                                             48000 1 512]
                        new))))
  = [10; 20].
Proof.
  exact (proj1
    (Shutdown_stops_every_stream Development
       (state (run_ops Development
                 [OpInitialize;
                  OpCreateOutputStream (mkStreamEnv 10 true) 48000 2 1024;
                  OpCreateInputStream (mkStreamEnv 20 true) 48000 1 512]
                 new))
       eq_refl)).
Defined.

Lemma preserves_stop_all {B} (f : t -> B) (streams : list Z) :
  preserves f (stop_all streams).
Proof. intros a. rewrite stop_all_state. reflexivity. Qed.

Lemma run_op_audio_inv (mode : BuildMode) (op : Op) (a : t) :
  audio_inv a -> audio_inv (state (run_op mode op a)).
Proof.
  intros [Hoff Hon].
  destruct a as [outs ins streams dout din init vol muted e3d a3d].
  cbn [initialized_ streams_ output_devices_ input_devices_
       default_output_device_ default_input_device_] in Hoff, Hon.
  destruct op as [| | env r c b | env r c b | stream | m | e];
    cbn [run_op].
  - (* Initialize *)
    destruct init.
    + split; [intros H; discriminate H | intros _; apply Hon; reflexivity].
    + destruct mode; split; cbn; intros H; try discriminate H;
        repeat split; easy.
  - (* Shutdown *)
    unfold Shutdown. run. cbn [initialized_]. destruct init; cbn [negb]; run.
    + rewrite stop_all_state. split; cbn; intros H; [| discriminate H].
      repeat split.
    + split; [exact Hoff | exact Hon].
  - (* CreateOutputStream *)
    destruct init.
    + destruct (Hon eq_refl) as (Ho & Hi & Hno & Hni).
      destruct dout as [d |]; [| contradiction].
      destruct env as [ptr [|]]; split; cbn; intros H; try discriminate H;
        exact (Hon eq_refl).
    + split; [exact Hoff | intros H; discriminate H].
  - (* CreateInputStream *)
    destruct init.
    + destruct (Hon eq_refl) as (Ho & Hi & Hno & Hni).
      destruct din as [d |]; [| contradiction].
      destruct env as [ptr [|]]; split; cbn; intros H; try discriminate H;
        exact (Hon eq_refl).
    + split; [exact Hoff | intros H; discriminate H].
  - (* DestroyStream *)
    destruct stream as [ptr |]; [| split; assumption].
    unfold DestroyStream. run. cbn [streams_].
    destruct init.
    + destruct (erase_first ptr streams) as [streams' |]; run;
        (split; [intros H; discriminate H | exact Hon]).
    + destruct (Hoff eq_refl) as (Hs & Hrest). subst streams.
      split; [exact Hoff | intros H; discriminate H].
  - (* SetMute *)
    split; assumption.
  - (* Enable3DAudio *)
    destruct a3d; split; assumption.
Qed.

(** X19.  Whatever sequence of its members is called on a new manager,
    in either build mode and whatever the streams answer: while it is
    not initialised it holds no stream and no device, and while it is
    initialised its default devices are the first output and the first
    input device.  So in every state the manager can reach,
    [CreateOutputStream] and [CreateInputStream] return the null pointer
    exactly when the manager is not initialised or the stream's own
    [Initialize] fails; the test for a missing default device never
    decides. *)
Theorem streams_need_only_an_initialized_manager
    (mode : BuildMode) (ops : list Op) (env : StreamEnv)
    (sample_rate channels buffer_size : Z) :
  let a := state (run_ops mode ops new) in
  audio_inv a /\
  result (CreateOutputStream env sample_rate channels buffer_size a)
    = (if initialized_ a && stream_ok env then Some (stream_ptr env)
       else None) /\
  result (CreateInputStream env sample_rate channels buffer_size a)
    = (if initialized_ a && stream_ok env then Some (stream_ptr env)
       else None).
Proof.
  assert (H : forall a, audio_inv a ->
            audio_inv (state (run_ops mode ops a))).
  { induction ops as [| op rest IH]; intros a Ha; [exact Ha |].
    cbn [run_ops]. rewrite bind_state. apply IH.
    apply run_op_audio_inv. exact Ha. }
  assert (Hnew : audio_inv new).
  { split; [intros _; repeat split | discriminate]. }
  specialize (H new Hnew). intros a. subst a.
  set (a := state (run_ops mode ops new)) in *.
  split; [exact H |].
  destruct H as [Hoff Hon].
  destruct a as [outs ins streams dout din init vol muted e3d a3d].
  cbn [initialized_ streams_ output_devices_ input_devices_
       default_output_device_ default_input_device_] in Hoff, Hon.
  destruct init.
  - destruct (Hon eq_refl) as (_ & _ & Hno & Hni).
    destruct dout as [d |]; [| contradiction].
    destruct din as [d' |]; [| contradiction].
    destruct (stream_ok env) eqn:Hok; split; cbn; rewrite ?Hok; reflexivity.
  - split; reflexivity.
Qed.

Lemma run_op_audio_3d (mode : BuildMode) (op : Op) (a : t) :
  audio_3d_inv mode a -> audio_3d_inv mode (state (run_op mode op a)).
Proof.
  intros Ha.
  assert (Hkeep : audio_3d (state (run_op mode op a)) = audio_3d a ->
                  audio_3d_inv mode (state (run_op mode op a))).
  { intros Heq. unfold audio_3d_inv in *. rewrite Heq. exact Ha. }
  destruct op as [| | env r c b | env r c b | stream | m | e];
    cbn [run_op] in *.
  - (* Initialize *)
    destruct a as [outs ins streams dout din init vol muted e3d a3d].
    destruct init; [apply Hkeep; reflexivity |].
    destruct mode; unfold audio_3d_inv, audio_3d in *; cbn in *.
    + intros _. reflexivity.
    + injection Ha as _ ->. reflexivity.
  - apply Hkeep.
    assert (Hp : preserves audio_3d (Shutdown mode)).
    { unfold Shutdown, CleanupAudioDevices, ShutdownPS5AudioSystem.
      repeat first
        [ apply preserves_stop_all
        | apply preserves_gets | apply preserves_ret | apply preserves_cout
        | apply preserves_if
        | apply preserves_modify; intros []; reflexivity
        | apply preserves_bind; [| intros ?] ]. }
    apply Hp.
  - apply Hkeep.
    assert (Hp : preserves audio_3d
                   (_ <- CreateOutputStream env r c b ;; ret tt)).
    { unfold CreateOutputStream. preserves. }
    apply Hp.
  - apply Hkeep.
    assert (Hp : preserves audio_3d
                   (_ <- CreateInputStream env r c b ;; ret tt)).
    { unfold CreateInputStream. preserves. }
    apply Hp.
  - apply Hkeep.
    destruct stream as [ptr |]; [| reflexivity].
    unfold DestroyStream. run.
    destruct (erase_first ptr (streams_ a)); run;
      destruct a; reflexivity.
  - apply Hkeep. destruct a. reflexivity.
  - destruct a as [outs ins streams dout din init vol muted e3d a3d].
    destruct a3d; [| apply Hkeep; reflexivity].
    destruct mode; unfold audio_3d_inv, audio_3d in *; cbn in *.
    + intros _. reflexivity.
    + discriminate Ha.
Qed.

(** X20.  3D audio is never enabled where it is not available: after
    any sequence of calls on a new manager compiled with PS5_BUILD,
    [Is3DAudioEnabled] implies [Is3DAudioAvailable]; compiled without
    it both stay false, whatever is asked of [Enable3DAudio]. *)
Theorem audio_3d_needs_availability (mode : BuildMode) (ops : list Op) :
  let a := state (run_ops mode ops new) in
  (result (Is3DAudioEnabled a) = true ->
   result (Is3DAudioAvailable a) = true) /\
  (mode = Development ->
   result (Is3DAudioEnabled a) = false /\
   result (Is3DAudioAvailable a) = false).
Proof.
  assert (H : forall a, audio_3d_inv mode a ->
                        audio_3d_inv mode (state (run_ops mode ops a))).
  { induction ops as [| op rest IH]; intros a Ha; [exact Ha |].
    cbn [run_ops]. rewrite bind_state. apply IH.
    apply run_op_audio_3d. exact Ha. }
  assert (Hnew : audio_3d_inv mode new).
  { destruct mode; [discriminate | reflexivity]. }
  specialize (H new Hnew). intros a. subst a.
  set (a := state (run_ops mode ops new)) in *.
  destruct mode; unfold audio_3d_inv, audio_3d in H.
  - split; [exact H | discriminate].
  - injection H as Hav Hen.
    change (result (Is3DAudioEnabled a)) with (is_3d_audio_enabled_ a).
    change (result (Is3DAudioAvailable a)) with (is_3d_audio_available_ a).
    rewrite Hav, Hen. split; [discriminate | intros _; split; reflexivity].
Qed.

End AudioFacts.

(** ** The platform layer and the application *)

Section PlatformFacts.

Import PS5System.

(** X21.  The platform layer never reports etaHEN: [InitializeEtaHEN]
    is a placeholder that returns false in both build modes, so after
    any sequence of calls of the public members [IsEtaHENAvailable] and
    [IsJailbroken] return false. *)
Theorem PS5System_never_reports_etaHEN (mode : BuildMode) (ops : list Op) :
  result (IsEtaHENAvailable (state (run_ops mode ops static_init))) = false /\
  result (IsJailbroken (state (run_ops mode ops static_init))) = false.
Proof.
  assert (H : forall s, etahen_available_ s = false ->
            etahen_available_ (state (run_ops mode ops s)) = false).
  { induction ops as [| op rest IH]; intros s Hs; [exact Hs |].
    cbn [run_ops]. rewrite bind_state. apply IH.
    destruct s as [i e h]. cbn in Hs. subst e.
    destruct op, mode, i, h; reflexivity. }
  split; apply (H static_init); reflexivity.
Qed.

End PlatformFacts.

Section ApplicationFacts.

Import PS5Application.

Lemma ProcessCommandLine_from_quiet (argv0 : string) (n : nat) :
  forall (args : list string) (a : t),
    (List.length args <= n)%nat ->
    held (state (ProcessCommandLine_from argv0 args a)) = held a /\
    subsystem_calls (trace (ProcessCommandLine_from argv0 args a)) = [].
Proof.
  induction n as [| n IH]; intros args a Hlen.
  - destruct args; [split; reflexivity | cbn in Hlen; lia].
  - destruct args as [| arg rest]; [split; reflexivity |].
    cbn [List.length] in Hlen.
    assert (Hrest : forall b,
              held (state (ProcessCommandLine_from argv0 rest b)) = held b /\
              subsystem_calls (trace (ProcessCommandLine_from argv0 rest b))
                = [])
      by (intros b; apply IH; lia).
    assert (Hskip : forall value rest' b, rest = value :: rest' ->
              held (state (ProcessCommandLine_from argv0 rest' b)) = held b /\
              subsystem_calls (trace (ProcessCommandLine_from argv0 rest' b))
                = []).
    { intros value rest' b ->. apply IH. cbn [List.length] in Hlen. lia. }
    cbn [ProcessCommandLine_from].
    destruct (arg =? "--game")%string, (arg =? "--config")%string,
             rest as [| value rest'];
      try (destruct ((arg =? "--help") || (arg =? "-h"))%string;
           [ split; reflexivity | apply Hrest ]);
      run; rewrite ?subsystem_calls_app;
      match goal with
      | |- context [ProcessCommandLine_from argv0 rest' ?b] =>
          destruct (Hskip value rest' b eq_refl) as [Hh Ht];
          rewrite Hh, Ht
      end;
      destruct a; split; reflexivity.
Qed.

Lemma ProcessCommandLine_quiet (argv : list string) (a : t) :
  held (state (ProcessCommandLine argv a)) = held a /\
  subsystem_calls (trace (ProcessCommandLine argv a)) = [].
Proof.
  destruct argv as [| argv0 args]; [split; reflexivity |].
  apply (ProcessCommandLine_from_quiet argv0 (List.length args)). lia.
Qed.

(** X22.  [Initialize] on a new application whose command line is
    accepted creates and initialises the subsystems in the order
    renderer, audio, input, frontend, core, and stops at the first one
    that fails to initialise.  Nothing is taken down again: the
    subsystems created so far, the failing one included, stay in place,
    no [Shutdown] and no destructor is called, and since [initialized_]
    is set only when all five succeeded, [Shutdown] after a failed
    [Initialize] returns at once. *)
Theorem Initialize_creates_subsystems_in_order
    (argv : list string) (env : SubsysEnv) :
  result (ProcessCommandLine argv new) = true ->
  let r := Initialize argv env new in
  subsystem_calls (trace r)
    = flat_map (fun s => [(s, mNew); (s, mInitialize)])
               (attempted (init_order env)) /\
  (forall s, subsystem s (state r)
             = existsb (Subsystem_eqb s) (attempted (init_order env))) /\
  result r
    = renderer_ok env && audio_ok env && input_ok env && frontend_ok env
      && core_ok env /\
  initialized_ (state r) = result r /\
  (result r = false -> Shutdown (state r) = (tt, state r, [])).
Proof.
  intros Hcmd r.
  assert (H : subsystem_calls (trace r)
              = flat_map (fun s => [(s, mNew); (s, mInitialize)])
                         (attempted (init_order env)) /\
              (forall s, subsystem s (state r)
                 = existsb (Subsystem_eqb s) (attempted (init_order env))) /\
              result r
              = renderer_ok env && audio_ok env && input_ok env
                && frontend_ok env && core_ok env /\
              initialized_ (state r) = result r).
  { subst r. unfold Initialize. run.
    change (initialized_ new) with false. cbv iota. run.
    rewrite Hcmd. cbn [negb]. run.
    destruct (ProcessCommandLine_quiet argv new) as [Hh Ht].
    unfold LoadSettings. run.
    set (a1 := state (ProcessCommandLine argv new)) in *.
    rewrite !subsystem_calls_app, Ht.
    destruct a1 as [re au inp fe co sd ini gl er ep fps sp cfg gp].
    unfold held in Hh. cbn in Hh.
    injection Hh as -> -> -> -> -> -> ->.
    destruct env as [okr oka oki okf okc].
    destruct okr, oka, oki, okf, okc;
      (split; [reflexivity |]); (split; [intros []; reflexivity |]);
      split; reflexivity. }
  destruct H as (Hc & Hs & Hr & Hi).
  split; [exact Hc |]. split; [exact Hs |]. split; [exact Hr |].
  split; [exact Hi |].
  intros Hfail. rewrite Hfail in Hi.
  apply PS5Application_Shutdown_guard. rewrite Hi. reflexivity.
Qed.

(** The audio manager fails to initialise. *)
Lemma Initialize_creates_subsystems_in_order_witness :
  result (ProcessCommandLine ["eden"%string] new) = true /\
  subsystem_calls
    (trace (Initialize ["eden"%string]
              (mkSubsysEnv true false true true true) new))
    = [(Renderer, mNew); (Renderer, mInitialize);
       (Audio, mNew); (Audio, mInitialize)].
Proof.
  split; [reflexivity |].
  exact (proj1 (Initialize_creates_subsystems_in_order ["eden"%string]
                  (mkSubsysEnv true false true true true) eq_refl)).
Defined.

(** X23.  [Shutdown] of an initialised application that holds all five
    subsystems stops the emulation if it is running, unloads the game if
    one is loaded, and then shuts down and destroys the subsystems in
    the reverse of the order of their creation: core, frontend, input,
    audio, renderer.  Afterwards the application holds no subsystem, is
    not initialised and has no game loaded or running.  (The
    application is in a state of its emulation state machine: paused
    only while running, running only with a game loaded.) *)
Theorem Shutdown_takes_subsystems_down_in_reverse (a : t) :
  initialized_ a = true ->
  all_subsystems a ->
  emulation_inv a ->
  subsystem_calls (trace (Shutdown a))
    = (if emulation_running_ a then [(Core, mStopEmulation)] else [])
      ++ (if game_loaded_ a then [(Core, mUnloadGame)] else [])
      ++ flat_map (fun s => [(s, mShutdown); (s, mDelete)])
                  [Core; Frontend; Input; Audio; Renderer] /\
  (forall s, subsystem s (state (Shutdown a)) = false) /\
  initialized_ (state (Shutdown a)) = false /\
  game_loaded_ (state (Shutdown a)) = false /\
  emulation_running_ (state (Shutdown a)) = false /\
  emulation_paused_ (state (Shutdown a)) = false /\
  shutdown_requested_ (state (Shutdown a)) = shutdown_requested_ a.
Proof.
  intros Hinit (Hr & Ha & Hi & Hf & Hc) [Hp _].
  destruct a as [re au inp fe co sd ini gl er ep fps sp cfg gp].
  cbn in Hinit, Hr, Ha, Hi, Hf, Hc, Hp. subst.
  destruct gl, er; (split; [reflexivity |]);
    (split; [intros []; reflexivity |]); repeat split;
    destruct ep; try reflexivity; discriminate (Hp eq_refl).
Qed.

Lemma Shutdown_takes_subsystems_down_in_reverse_witness :
  subsystem_calls (trace (Shutdown running_app))
    = [(Core, mStopEmulation); (Core, mUnloadGame);
       (Core, mShutdown); (Core, mDelete);
       (Frontend, mShutdown); (Frontend, mDelete);
       (Input, mShutdown); (Input, mDelete);
       (Audio, mShutdown); (Audio, mDelete);
       (Renderer, mShutdown); (Renderer, mDelete)].
Proof.
  exact (proj1 (Shutdown_takes_subsystems_down_in_reverse running_app
                  eq_refl ltac:(repeat split)
                  ltac:(split; intros _; reflexivity))).
Defined.

Lemma MainLoop_from_result (envs : list IterEnv) :
  forall (last_fps_time frame_count : Z) (a : t),
    result (MainLoop_from Main.SignalHandler envs last_fps_time frame_count a)
      = shutdown_requested_ a || existsb signalled envs /\
    shutdown_requested_
      (state (MainLoop_from Main.SignalHandler envs last_fps_time
                            frame_count a))
      = shutdown_requested_ a || existsb signalled envs.
Proof.
  induction envs as [| e rest IH]; intros l f a.
  - cbn [MainLoop_from existsb]. run.
    destruct (shutdown_requested_ a) eqn:Hs; run; rewrite ?Hs;
      split; reflexivity.
  - cbn [MainLoop_from existsb]. run.
    destruct (shutdown_requested_ a) eqn:Hs; run; rewrite ?Hs;
      [split; reflexivity |].
    destruct (MainLoop_body_state e l f a) as (_ & _ & _ & Hsd).
    destruct (IH (fst (result (MainLoop_body Main.SignalHandler e l f a)))
                 (snd (result (MainLoop_body Main.SignalHandler e l f a)))
                 (state (MainLoop_body Main.SignalHandler e l f a)))
      as [H1 H2].
    rewrite H1, H2, Hsd, Hs. unfold signalled.
    destruct (signal e); split; reflexivity.
Qed.

Lemma Run_initialized (env : RunEnv) (a : t) :
  initialized_ a = true ->
  result (Run Main.SignalHandler env a)
    = (if shutdown_requested_ a || existsb signalled (iterations env)
       then Some 0 else None) /\
  shutdown_requested_ (state (Run Main.SignalHandler env a))
    = shutdown_requested_ a || existsb signalled (iterations env).
Proof.
  intros Hinit.
  assert (Hpre : preserves shutdown_requested_
            (when (negb (game_path_ a =? "")%string)
               (ok <- LoadGame (load_result env) (game_path_ a) ;;
                if ok then
                  cout [Str "[PS5Application] Game loaded successfully, starting emulation..."] ;;
                  StartEmulation (start_result env)
                else
                  cout [Str "[PS5Application] Failed to load game: ";
                        Str (game_path_ a)]))).
  { unfold LoadGame, StartEmulation. preserves. }
  specialize (Hpre a).
  unfold Run. run. rewrite Hinit. cbn [negb]. run.
  unfold MainLoop.
  match goal with
  | |- context [MainLoop_from Main.SignalHandler _ ?l ?f ?a1] =>
      destruct (MainLoop_from_result (iterations env) l f a1)
        as [H1 H2]; rewrite H1
  end.
  rewrite Hpre.
  destruct (shutdown_requested_ a || existsb signalled (iterations env))
    eqn:Hleft; cbn [negb]; run; rewrite H2, Hpre; split;
    try reflexivity; exact Hleft.
Qed.


Lemma ProcessCommandLine_from_accepts (argv0 : string) (n : nat) :
  forall (args : list string) (a : t),
    (List.length args <= n)%nat ->
    existsb is_help args = false ->
    result (ProcessCommandLine_from argv0 args a) = true.
Proof.
  induction n as [| n IH]; intros args a Hlen Hno.
  - destruct args; [reflexivity | cbn in Hlen; lia].
  - destruct args as [| arg rest]; [reflexivity |].
    cbn [List.length] in Hlen. cbn [existsb] in Hno.
    apply orb_false_elim in Hno. destruct Hno as [Harg Hrest].
    unfold is_help in Harg.
    cbn [ProcessCommandLine_from].
    destruct (arg =? "--game")%string, (arg =? "--config")%string,
             rest as [| value rest'];
      rewrite ?Harg; try reflexivity;
      try (apply IH; [lia | exact Hrest]);
      run; cbn [existsb] in Hrest;
      apply orb_false_elim in Hrest; destruct Hrest as [_ Hrest'];
      (apply IH; [cbn [List.length] in Hlen; lia | exact Hrest']).
Qed.

(** X25.  The command line is refused only for the usage text: if no
    argument after the program name is [--help] or [-h],
    [ProcessCommandLine] returns true.  Whatever the arguments, it
    changes nothing but the two paths: the subsystems, [initialized_],
    the shutdown request and the emulation flags stay as they were, and
    no subsystem is called.  [--game] or [--config] as the last argument
    has no value to take and is passed over, and an argument that
    follows one of them is taken as its value even if it is [--help]. *)
Theorem ProcessCommandLine_refuses_only_help
    (argv0 : string) (args : list string) (a : t) :
  (existsb is_help args = false ->
   result (ProcessCommandLine (argv0 :: args) a) = true) /\
  held (state (ProcessCommandLine (argv0 :: args) a)) = held a /\
  same_flags a (state (ProcessCommandLine (argv0 :: args) a)) /\
  subsystem_calls (trace (ProcessCommandLine (argv0 :: args) a)) = [] /\
  ProcessCommandLine [argv0; "--game"%string] a = (true, a, []) /\
  ProcessCommandLine [argv0; "--config"%string] a = (true, a, []) /\
  result (ProcessCommandLine [argv0; "--game"; "--help"]%string a) = true /\
  game_path_ (state (ProcessCommandLine [argv0; "--game"; "--help"]%string a))
    = "--help"%string.
Proof.
  split; [| split; [| split; [| split]]].
  - intros Hno. cbn [ProcessCommandLine].
    apply (ProcessCommandLine_from_accepts argv0 (List.length args));
      [lia | exact Hno].
  - apply ProcessCommandLine_quiet.
  - cbn [ProcessCommandLine].
    apply (ProcessCommandLine_from_flags argv0 (List.length args)). lia.
  - apply ProcessCommandLine_quiet.
  - repeat split.
Qed.

End ApplicationFacts.

(** ** The exit code of main *)

Section ExitFacts.

Import Main.

Variable mode : BuildMode.
Variable StopKlogServer : Prog EtaHENPlugin.t unit.
Variable DisablePS5Debug : Prog EtaHENPlugin.t unit.

Lemma preserves_on_etahen {A} (m : Prog EtaHENPlugin.t A) :
  preserves EtaHENPlugin.initialized_ m -> preserves up (on_etahen m).
Proof.
  intros Hm g. rewrite on_etahen_run. cbn [state fst snd].
  unfold up. cbn [ps5_system set_plugin the_plugin g_etahen_plugin g_ps5_app].
  rewrite Hm. reflexivity.
Qed.

Lemma preserves_GetEtaHENPlugin : preserves up GetEtaHENPlugin.
Proof.
  intros g. unfold GetEtaHENPlugin. run.
  destruct g as [app [p |] sys]; reflexivity.
Qed.

Lemma main_after_etahen_init_up (ok : bool) (env : MainEnv) :
  preserves up (main_after_etahen_init ok env).
Proof.
  unfold main_after_etahen_init, EtaHENPlugin.IsEtaHENAvailable,
    EtaHENPlugin.RequestJailbreak, EtaHENPlugin.EnableDataAccess.
  repeat first
    [ apply preserves_on_etahen
    | apply preserves_SendIPCCommand
    | apply preserves_gets | apply preserves_ret | apply preserves_cout
    | apply preserves_call | apply preserves_when | apply preserves_if
    | apply preserves_bind; [| intros ?] ].
Qed.

Lemma main_etahen_up (env : MainEnv) (g : Globals) :
  up (state (main_etahen mode env g))
    = (PS5System.initialized_ (ps5_system g), true, g_ps5_app g).
Proof.
  unfold main_etahen. run. rewrite main_after_etahen_init_up.
  rewrite on_etahen_run. cbn [state fst snd].
  pose proof (preserves_GetEtaHENPlugin g) as Hg.
  set (g1 := state (GetEtaHENPlugin g)) in *.
  unfold up in *. injection Hg as Hs Hp Ha.
  cbn [ps5_system set_plugin the_plugin g_etahen_plugin g_ps5_app].
  rewrite Hs, Ha.
  destruct (EtaHENPlugin_Initialize_succeeds mode (connect_io env)
              (register_io env) (the_plugin g1)) as [_ Hi].
  rewrite Hi. reflexivity.
Qed.

Lemma EtaHENPlugin_Shutdown_down (io : EtaHENPlugin.ShutdownIO)
    (p : EtaHENPlugin.t) :
  EtaHENPlugin.initialized_
    (state (EtaHENPlugin.Shutdown StopKlogServer DisablePS5Debug io p))
    = false.
Proof.
  unfold EtaHENPlugin.Shutdown. run.
  destruct (EtaHENPlugin.initialized_ p) eqn:Hi; cbn [negb]; run;
    [reflexivity | exact Hi].
Qed.

Lemma PS5System_Shutdown_down (s : PS5System.t) :
  PS5System.initialized_ (state (PS5System.Shutdown mode s)) = false.
Proof. destruct s as [i e h]. destruct i, h, mode; reflexivity. Qed.

Lemma PS5System_Initialize_up (s : PS5System.t) :
  PS5System.initialized_ (state (PS5System.Initialize mode s)) = true.
Proof. destruct s as [i e h]. destruct i, mode; reflexivity. Qed.

Lemma main_application_exit (argv : list string) (env : MainEnv)
    (g : Globals) :
  PS5System.initialized_ (ps5_system g) = true ->
  EtaHENPlugin.initialized_ (the_plugin g) = true ->
  let r := main_application mode StopKlogServer DisablePS5Debug argv env g in
  let init :=
    PS5Application.Initialize argv (subsystems env) PS5Application.new in
  (result init = false ->
   result r = Some (-1) /\ up (state r) = (true, true, Some (state init))) /\
  (result init = true ->
   (result r = Some 0 \/ result r = None) /\
   (result r = Some 0 -> up (state r) = (false, false, None))).
Proof.
  intros Hsys Hplug r init. subst r.
  unfold main_application. run.
  set (g1 := set_app (Some PS5Application.new) g).
  assert (Hg1 : g_ps5_app g1 = Some PS5Application.new) by reflexivity.
  rewrite !(on_app_some _ _ g1 _ Hg1).
  fold init. cbn [result state fst snd].
  destruct (result init) eqn:Hres; cbn [negb]; run.
  - split; [intros H; discriminate H | intros _].
    set (g2 := set_app (Some (state init)) g1).
    assert (Hg2 : g_ps5_app g2 = Some (state init)) by reflexivity.
    rewrite !(on_app_some _ _ g2 _ Hg2).
    cbn [result state fst snd].
    assert (Hi : PS5Application.initialized_ (state init) = true)
      by (apply PS5Application_Initialize_done; exact Hres).
    destruct (Run_initialized (run_env env) (state init) Hi) as [Hrun _].
    rewrite Hrun.
    destruct (PS5Application.shutdown_requested_ (state init)
              || existsb signalled (PS5Application.iterations (run_env env))).
    + run. split; [left; reflexivity | intros _].
      rewrite on_system_run. cbn [state fst snd].
      rewrite on_etahen_run. cbn [state fst snd].
      unfold up.
      cbn [ps5_system set_system set_plugin the_plugin g_etahen_plugin
           g_ps5_app set_app].
      rewrite PS5System_Shutdown_down, EtaHENPlugin_Shutdown_down.
      reflexivity.
    + run. split; [right; reflexivity | intros H; discriminate H].
  - split; [intros _ | intros H; discriminate H].
    split; [reflexivity |].
    unfold up. cbn [ps5_system set_app the_plugin g_etahen_plugin g_ps5_app].
    change (PS5System.initialized_ (ps5_system g1))
      with (PS5System.initialized_ (ps5_system g)).
    change (the_plugin (set_app (Some (state init)) g1)) with (the_plugin g).
    rewrite Hsys, Hplug. reflexivity.
Qed.

(** X26.  The exit code of [main] and what it leaves behind.  The
    platform layer and the plugin always initialise, so [main] fails
    only when [PS5Application::Initialize] does: it then returns -1
    straight away, and the platform layer, the plugin and the
    application object are left as they are, none of them shut down.
    Otherwise [main] returns only when [Run] does, and the exit code
    is that of [Run], which is 0; by then the application object has
    been destroyed and the plugin and the platform layer have been shut
    down. *)
Theorem main_exit_code (argv : list string) (env : MainEnv) :
  let r := main mode StopKlogServer DisablePS5Debug argv env startup in
  let init :=
    PS5Application.Initialize argv (subsystems env) PS5Application.new in
  (result init = false ->
   result r = Some (-1) /\ up (state r) = (true, true, Some (state init))) /\
  (result init = true ->
   (result r = Some 0 \/ result r = None) /\
   (result r = Some 0 -> up (state r) = (false, false, None))).
Proof.
  intros r init. subst r. unfold main. run.
  rewrite on_system_run. cbn [result state fst snd].
  rewrite (PS5System_Initialize_succeeds mode). cbn [negb]. run.
  match goal with
  | |- context [main_etahen mode env ?g0] =>
      pose proof (main_etahen_up env g0) as Hup;
      set (g1 := state (main_etahen mode env g0)) in *
  end.
  cbn [ps5_system set_system] in Hup.
  rewrite PS5System_Initialize_up in Hup.
  unfold up in Hup. injection Hup as Hs Hp _.
  exact (main_application_exit argv env g1 Hs Hp).
Qed.

End ExitFacts.

(** ** The input manager *)

Section InputFacts.

Import PS5InputManager.

Lemma set_button_id_same (e : InputEvent) : set_button_id (button_id e) e = e.
Proof. destruct e. reflexivity. Qed.

Lemma map_button_find (mappings : list SwitchButtonMapping)
    (ps5_event switch_event : InputEvent) :
  map_button mappings ps5_event switch_event
  = match find (fun mp => ps5_button mp =? button_id ps5_event) mappings with
    | Some mp => set_button_id (switch_button mp) switch_event
    | None => switch_event
    end.
Proof.
  induction mappings as [| mp rest IH]; [reflexivity |].
  cbn [map_button find].
  destruct (ps5_button mp =? button_id ps5_event); [reflexivity | exact IH].
Qed.

Lemma MapPS5ToSwitchInput_run (ps5_event : InputEvent) (m : t) :
  MapPS5ToSwitchInput ps5_event m
  = (if is_button (type ps5_event)
     then map_button (button_mapping_ m) ps5_event ps5_event
     else ps5_event, m, []).
Proof.
  unfold MapPS5ToSwitchInput. destruct (is_button (type ps5_event));
    reflexivity.
Qed.

(** X27.  [MapPS5ToSwitchInput] looks a button up in the table from the
    front and takes the first entry for it: a later entry for the same
    button is never used.  Events that are not button presses or
    releases, and buttons without an entry, come back unchanged; of a
    mapped event only the button changes.  The manager is not
    changed. *)
Theorem MapPS5ToSwitchInput_takes_the_first_entry
    (ps5_event : InputEvent) (m : t) :
  let switch_event := result (MapPS5ToSwitchInput ps5_event m) in
  switch_event
    = (if is_button (type ps5_event) then
         match find (fun mp => ps5_button mp =? button_id ps5_event)
                    (button_mapping_ m) with
         | Some mp => set_button_id (switch_button mp) ps5_event
         | None => ps5_event
         end
       else ps5_event) /\
  set_button_id (button_id ps5_event) switch_event = ps5_event /\
  MapPS5ToSwitchInput ps5_event m = (switch_event, m, []).
Proof.
  intros switch_event. subst switch_event.
  rewrite MapPS5ToSwitchInput_run. cbn [result fst].
  rewrite map_button_find.
  destruct (is_button (type ps5_event));
    [destruct (find _ (button_mapping_ m)) as [mp |] |];
    repeat split; try reflexivity; destruct ps5_event; reflexivity.
Qed.

Lemma map_button_identity (mappings : list SwitchButtonMapping)
    (e : InputEvent) :
  forallb (fun mp => switch_button mp =? ps5_button mp) mappings = true ->
  map_button mappings e e = e.
Proof.
  induction mappings as [| mp rest IH]; intros Hall; [reflexivity |].
  cbn [forallb] in Hall. apply andb_prop in Hall. destruct Hall as [Hmp Hrest].
  cbn [map_button].
  destruct (Z.eqb_spec (ps5_button mp) (button_id e)) as [Heq | _].
  - apply Z.eqb_eq in Hmp. rewrite Hmp, Heq. apply set_button_id_same.
  - exact (IH Hrest).
Qed.

(** X28.  The table [Initialize] installs maps each of the fourteen
    buttons to itself: until [SetSwitchButtonMapping] is called with
    another table, [MapPS5ToSwitchInput] returns every event as it came.
    The same holds for any table whose entries all map a button to
    itself. *)
Theorem default_mapping_changes_no_event (mode : BuildMode) (m : t)
    (e : InputEvent) :
  initialized_ m = false ->
  result (Initialize mode m) = true /\
  button_mapping_ (state (Initialize mode m)) = default_mapping /\
  List.length default_mapping = 14%nat /\
  result (MapPS5ToSwitchInput e (state (Initialize mode m))) = e /\
  (forall m' : t,
     forallb (fun mp => switch_button mp =? ps5_button mp)
             (button_mapping_ m') = true ->
     result (MapPS5ToSwitchInput e m') = e).
Proof.
  intros Hinit.
  assert (Hid : forall m' : t,
            forallb (fun mp => switch_button mp =? ps5_button mp)
                    (button_mapping_ m') = true ->
            result (MapPS5ToSwitchInput e m') = e).
  { intros m' Hall. rewrite MapPS5ToSwitchInput_run. cbn [result fst].
    destruct (is_button (type e)); [| reflexivity].
    apply map_button_identity. exact Hall. }
  assert (Hmap : button_mapping_ (state (Initialize mode m))
                 = default_mapping).
  { destruct m as [cs bm icb ccb dcb init lut]. cbn in Hinit. subst init.
    destruct mode; reflexivity. }
  split; [| split; [exact Hmap | split; [reflexivity | split]]].
  - destruct m as [cs bm icb ccb dcb init lut]. cbn in Hinit. subst init.
    destruct mode; reflexivity.
  - apply Hid. rewrite Hmap. reflexivity.
  - exact Hid.
Qed.

Lemma default_mapping_changes_no_event_witness :
  result (MapPS5ToSwitchInput
            (mkInputEvent ButtonPress 0 0x0040 (FLit "1.0f") (FLit "0.0f")
                          (FLit "0.0f") 1000)
            (state (Initialize PS5_BUILD new)))
  = mkInputEvent ButtonPress 0 0x0040 (FLit "1.0f") (FLit "0.0f")
                 (FLit "0.0f") 1000.
Proof.
  exact (proj1 (proj2 (proj2 (proj2
    (default_mapping_changes_no_event PS5_BUILD new
       (mkInputEvent ButtonPress 0 0x0040 (FLit "1.0f") (FLit "0.0f")
                     (FLit "0.0f") 1000)
       eq_refl))))).
Defined.

Lemma resize_length (n : Z) (l : list (option Z)) :
  List.length (resize n l) = Z.to_nat n.
Proof.
  unfold resize. rewrite length_app, repeat_length, length_firstn. lia.
Qed.

Lemma resize_nth (n : Z) (l : list (option Z)) (j : nat) :
  (List.length l <= Z.to_nat n)%nat ->
  nth j (resize n l) None = nth j l None.
Proof.
  intros Hlen. unfold resize.
  rewrite firstn_all2 by exact Hlen.
  destruct (Nat.lt_ge_cases j (List.length l)) as [Hj | Hj].
  - apply app_nth1. exact Hj.
  - rewrite app_nth2 by exact Hj. rewrite nth_repeat.
    symmetry. apply nth_overflow. exact Hj.
Qed.

Lemma assign_length (i : nat) (p : option Z) (l : list (option Z)) :
  List.length (assign i p l) = List.length l.
Proof.
  revert i. induction l as [| c l IH]; intros i; [destruct i; reflexivity |].
  destruct i as [| i]; cbn [assign List.length]; [reflexivity |].
  rewrite IH. reflexivity.
Qed.

Lemma assign_nth_same (i : nat) (p : option Z) (l : list (option Z)) :
  (i < List.length l)%nat -> nth i (assign i p l) None = p.
Proof.
  revert i. induction l as [| c l IH]; intros i Hi; [cbn in Hi; lia |].
  destruct i as [| i]; cbn [assign nth]; [reflexivity |].
  apply IH. cbn in Hi. lia.
Qed.

Lemma assign_nth_other (i j : nat) (p : option Z) (l : list (option Z)) :
  i <> j -> nth j (assign i p l) None = nth j l None.
Proof.
  revert i j. induction l as [| c l IH]; intros i j Hij.
  - destruct i; reflexivity.
  - destruct i as [| i], j as [| j]; cbn [assign nth]; try reflexivity;
      [contradiction | apply IH; lia].
Qed.

Lemma GetController_nth (j : Z) (m : t) :
  0 <= j ->
  result (GetController j m) = nth (Z.to_nat j) (controllers_ m) None.
Proof.
  intros Hj. unfold GetController. run.
  destruct (Z.ltb_spec j (size (controllers_ m))) as [Hlt | Hge]; run;
    [reflexivity |].
  symmetry. apply nth_overflow. unfold size in Hge. lia.
Qed.

Lemma OnControllerConnected_run (env : ControllerEnv) (id : Z) (m : t) :
  0 <= id < 2 ^ 32 - 1 ->
  controller_ok env = true ->
  result (OnControllerConnected env id m)
    = (if controller_connected_callback_ m then [ControllerConnected id]
       else []) /\
  controllers_ (state (OnControllerConnected env id m))
    = assign (Z.to_nat id) (Some (controller_ptr env))
        (if id >=? size (controllers_ m)
         then resize (id + 1) (controllers_ m) else controllers_ m) /\
  controller_disconnected_callback_ (state (OnControllerConnected env id m))
    = controller_disconnected_callback_ m.
Proof.
  intros Hid Hok.
  destruct m as [cs bm icb ccb dcb init lut].
  unfold OnControllerConnected. run. rewrite Hok.
  cbn [controllers_ controller_connected_callback_
       controller_disconnected_callback_].
  rewrite (u32_small (id + 1)) by lia.
  destruct (id >=? size cs); cbn [when]; run; destruct ccb; run;
    repeat split.
Qed.

(** X29.  Controller slots.  After [OnControllerConnected] for a
    controller that initialises, [GetController] returns that controller
    for its id and what it returned before for every other id: the
    vector grows to hold the slot, with null pointers in between.
    [OnControllerDisconnected] then empties the slot again, and the
    other slots stay.  Each of the two callbacks is called once, if it
    is installed.  (The id is below 2^32 - 1, so that [controller_id +
    1] does not wrap.) *)
Theorem controller_slots (env : ControllerEnv) (id : Z) (m : t) :
  0 <= id < 2 ^ 32 - 1 ->
  controller_ok env = true ->
  let m1 := state (OnControllerConnected env id m) in
  let m2 := state (OnControllerDisconnected id m1) in
  result (GetController id m1) = Some (controller_ptr env) /\
  (forall j, 0 <= j -> j <> id ->
             result (GetController j m1) = result (GetController j m)) /\
  result (GetController id m2) = None /\
  (forall j, 0 <= j -> j <> id ->
             result (GetController j m2) = result (GetController j m)) /\
  size (controllers_ m1) = Z.max (size (controllers_ m)) (id + 1) /\
  result (OnControllerConnected env id m)
    = (if controller_connected_callback_ m then [ControllerConnected id]
       else []) /\
  result (OnControllerDisconnected id m1)
    = (if controller_disconnected_callback_ m then [ControllerDisconnected id]
       else []).
Proof.
  intros Hid Hok m1 m2.
  destruct (OnControllerConnected_run env id m Hid Hok) as (Hres & Hcs & Hdcb).
  fold m1 in Hcs, Hdcb.
  set (cs := controllers_ m) in *.
  set (cs0 := if id >=? size cs then resize (id + 1) cs else cs) in *.
  assert (Hlen0 : (Z.to_nat id < List.length cs0)%nat /\
                  size cs0 = Z.max (size cs) (id + 1)).
  { subst cs0. unfold size in *.
    destruct (Z.geb_spec id (Z.of_nat (List.length cs))) as [Hge | Hlt].
    - rewrite resize_length. lia.
    - lia. }
  destruct Hlen0 as [Hin Hsize].
  assert (Hnth0 : forall j : nat, nth j cs0 None = nth j cs None).
  { intros j. subst cs0. unfold size.
    destruct (Z.geb_spec id (Z.of_nat (List.length cs))) as [Hge | Hlt];
      [| reflexivity].
    apply resize_nth. lia. }
  assert (Hat : nth (Z.to_nat id) (controllers_ m1) None
                = Some (controller_ptr env)).
  { rewrite Hcs. apply assign_nth_same. exact Hin. }
  assert (Hm2 : controllers_ m2 = assign (Z.to_nat id) None (controllers_ m1)
                /\ result (OnControllerDisconnected id m1)
                   = (if controller_disconnected_callback_ m
                      then [ControllerDisconnected id] else [])).
  { subst m2. unfold OnControllerDisconnected. run.
    assert (Hlt : (id <? size (controllers_ m1)) = true).
    { apply Z.ltb_lt. rewrite Hcs. unfold size. rewrite assign_length.
      lia. }
    rewrite Hlt, Hat. cbn [is_some andb]. run.
    cbn [controller_disconnected_callback_ set_controllers].
    rewrite Hdcb.
    destruct (controller_disconnected_callback_ m); run;
      destruct m1; split; reflexivity. }
  destruct Hm2 as [Hcs2 Hres2].
  split; [| split; [| split; [| split; [| split; [| split]]]]].
  - rewrite GetController_nth by lia. exact Hat.
  - intros j Hj Hne. rewrite !GetController_nth by lia.
    rewrite Hcs, assign_nth_other by lia. apply Hnth0.
  - rewrite GetController_nth by lia. rewrite Hcs2.
    apply assign_nth_same. rewrite Hcs, assign_length. exact Hin.
  - intros j Hj Hne. rewrite !GetController_nth by lia.
    rewrite Hcs2, assign_nth_other by lia.
    rewrite Hcs, assign_nth_other by lia. apply Hnth0.
  - rewrite Hcs. unfold size. rewrite assign_length. exact Hsize.
  - exact Hres.
  - exact Hres2.
Qed.

(** Controller 2 connects to a new manager. *)
Lemma controller_slots_witness :
  result (GetController 2
            (state (OnControllerConnected (mkControllerEnv 77 true) 2 new)))
    = Some 77 /\
  result (GetController 1
            (state (OnControllerConnected (mkControllerEnv 77 true) 2 new)))
    = None.
Proof.
  destruct (controller_slots (mkControllerEnv 77 true) 2 new
              ltac:(cbn; lia) eq_refl) as (H1 & H2 & _).
  split; [exact H1 |].
  exact (H2 1 ltac:(lia) ltac:(lia)).
Defined.

Section Delivery.

Variable IsConnected : Z -> bool.
Variable GetInputEvents : Z -> list InputEvent.

Lemma deliver_parts (events : list InputEvent) (m : t) :
  result (deliver events m)
  = (if input_event_callback_ m
     then map (fun e => InputEventCallback (result (MapPS5ToSwitchInput e m)))
              events
     else []) /\
  state (deliver events m) = m /\
  trace (deliver events m) = [].
Proof.
  induction events as [| e rest IH].
  - destruct (input_event_callback_ m); repeat split.
  - destruct IH as (Hr & Hs & Ht).
    cbn [deliver]. run.
    destruct (input_event_callback_ m) eqn:Hcb; run.
    + rewrite MapPS5ToSwitchInput_run. cbn [result state trace fst snd].
      rewrite Hr, Hs, Ht. repeat split.
      cbn [map app]. rewrite MapPS5ToSwitchInput_run. reflexivity.
    + rewrite Hr, Hs, Ht. repeat split.
Qed.

Lemma process_from_parts (controllers : list (option Z)) (m : t) :
  result (process_from IsConnected GetInputEvents controllers m)
  = flat_map
      (fun c =>
         Controller_Update c
         :: (if input_event_callback_ m
             then map (fun e => InputEventCallback
                                  (result (MapPS5ToSwitchInput e m)))
                      (GetInputEvents c)
             else []))
      (connected_from IsConnected controllers) /\
  state (process_from IsConnected GetInputEvents controllers m) = m /\
  trace (process_from IsConnected GetInputEvents controllers m) = [].
Proof.
  induction controllers as [| c rest IH]; [repeat split |].
  destruct IH as (Hr & Hs & Ht).
  cbn [process_from connected_from].
  destruct c as [c |]; [destruct (IsConnected c) |]; run.
  - destruct (deliver_parts (GetInputEvents c) m) as (Hdr & Hds & Hdt).
    rewrite Hdr, Hds, Hdt, Hr, Hs, Ht. repeat split.
  - rewrite Hr, Hs, Ht. repeat split.
  - rewrite Hr, Hs, Ht. repeat split.
Qed.

Lemma count_from_length (controllers : list (option Z)) :
  forall count : Z,
    0 <= count < 2 ^ 32 ->
    count_from IsConnected controllers count
    = u32 (count
           + Z.of_nat (List.length (connected_from IsConnected controllers))).
Proof.
  induction controllers as [| c rest IH]; intros count Hc.
  - cbn. rewrite Z.add_0_r. symmetry. apply u32_small. exact Hc.
  - destruct c as [c |]; cbn [count_from connected_from]; unfold live;
      [destruct (IsConnected c) |]; try (apply IH; exact Hc).
    rewrite IH by apply u32_range.
    cbn [List.length]. unfold u32. rewrite Zplus_mod_idemp_l.
    f_equal. lia.
Qed.

Lemma connected_from_length (controllers : list (option Z)) :
  (List.length (connected_from IsConnected controllers)
   <= List.length controllers)%nat.
Proof.
  induction controllers as [| c rest IH]; [reflexivity |].
  cbn [connected_from]. destruct c as [c |]; [destruct (IsConnected c) |];
    cbn [List.length]; lia.
Qed.

(** X30.  [ProcessControllerEvents] visits the controllers in slot
    order and only those that are there and connected, the ones
    [GetConnectedControllers] returns: each is updated once, and then
    each of its events is handed to the input callback, in order and
    after mapping, if a callback is installed; without one the events
    are dropped.  The manager is not changed.  [GetControllerCount]
    counts the same controllers, in 32 bits, and there are never more of
    them than slots.  [Update] does nothing on a manager that is not
    initialised; with PS5_BUILD it records the time and processes the
    events.  Without PS5_BUILD, polling simulates controller 0 only
    while there is no slot at all: a simulated controller that failed to
    initialise leaves an empty slot behind and is not tried again. *)
Theorem Update_delivers_events_in_order
    (mode : BuildMode) (now_us : Z) (env : ControllerEnv) (m : t) :
  let connected := result (GetConnectedControllers IsConnected m) in
  let m' := set_last_update_time (u64 now_us) m in
  ProcessControllerEvents IsConnected GetInputEvents m
  = (flat_map
       (fun c =>
          Controller_Update c
          :: (if input_event_callback_ m
              then map (fun e => InputEventCallback
                                   (result (MapPS5ToSwitchInput e m)))
                       (GetInputEvents c)
              else []))
       connected,
     m, []) /\
  result (GetControllerCount IsConnected m)
    = u32 (Z.of_nat (List.length connected)) /\
  Z.of_nat (List.length connected) <= size (controllers_ m) /\
  (initialized_ m = false ->
   Update IsConnected GetInputEvents mode now_us env m = ([], m, [])) /\
  (initialized_ m = true ->
   Update IsConnected GetInputEvents PS5_BUILD now_us env m
   = (result (ProcessControllerEvents IsConnected GetInputEvents m'),
      m', [])) /\
  (controllers_ m <> [] -> PollControllers Development env m = ([], m, [])) /\
  (controllers_ m = [] -> controller_ok env = false ->
   controllers_ (state (PollControllers Development env m)) = [None]).
Proof.
  intros connected m'. subst connected.
  change (result (GetConnectedControllers IsConnected m))
    with (connected_from IsConnected (controllers_ m)).
  assert (Hproc : forall q,
            ProcessControllerEvents IsConnected GetInputEvents q
            = (flat_map
                 (fun c =>
                    Controller_Update c
                    :: (if input_event_callback_ q
                        then map (fun e => InputEventCallback
                                             (result (MapPS5ToSwitchInput e q)))
                                 (GetInputEvents c)
                        else []))
                 (connected_from IsConnected (controllers_ q)),
               q, [])).
  { intros q.
    rewrite (run_eta (ProcessControllerEvents IsConnected GetInputEvents q)).
    unfold ProcessControllerEvents. run.
    destruct (process_from_parts (controllers_ q) q) as (Hr & Hs & Ht).
    rewrite Hr, Hs, Ht. reflexivity. }
  split; [apply Hproc |]. split; [| split; [| split; [| split; [| split]]]].
  - change (result (GetControllerCount IsConnected m))
      with (count_from IsConnected (controllers_ m) 0).
    rewrite count_from_length by (split; [lia | reflexivity]).
    reflexivity.
  - unfold size. apply inj_le. apply connected_from_length.
  - intros Hinit. unfold Update. unfold bind at 1. cbn [gets].
    rewrite Hinit. reflexivity.
  - intros Hinit.
    rewrite (run_eta (Update IsConnected GetInputEvents PS5_BUILD now_us
                             env m)).
    unfold Update. run. rewrite Hinit. cbn [negb]. run.
    cbn [PollControllers]. run. fold m'.
    rewrite (Hproc m'). reflexivity.
  - intros Hne. unfold PollControllers. unfold bind. cbn [gets].
    destruct (controllers_ m); [contradiction | reflexivity].
  - intros Hnil Hfail. unfold PollControllers. run. rewrite Hnil.
    cbn [empty]. unfold OnControllerConnected. run.
    rewrite Hnil, Hfail. reflexivity.
Qed.

End Delivery.

End InputFacts.
